(** * Resume Roaster: a shallow embedding of the quota ledger, the vision
    preprocessor and the optimized-resume route, with their specification.

    Sources embedded here:
    - [src/lib/pdf-to-image.ts]           [convertPDFToImages]
    - [api/extract-resume-data/route.ts]  [POST], [calculateATSScore],
                                          [extractKeywordsMatched],
                                          [generateOptimizedResumeContent]
    - [src/lib/database.ts]               [UserService]
    - [prisma/schema.prisma]              [User], [GeneratedResume], [LlmCall],
                                          [LlmMessage]

    Conventions.  A JavaScript string is a [string]; each [ascii] stands for
    one UTF-16 code unit below 256 (Latin-1 text).  A JavaScript number is an
    integer [Z].  A value of TypeScript type [any] is a parsed JSON [value];
    [undefined] is [None] of type [option value].  An [async] function is its
    sequential body: [await] is a plain call, a rejected promise is a thrown
    exception ([Throw]).  Console output is not modelled. *)

From Stdlib Require Import ZArith List String Ascii Bool Lia DecimalString.
From stdpp Require Import gmap strings list fin_maps.

Local Open Scope Z_scope.
Local Open Scope string_scope.

Set Warnings "-register-all,-abstract-large-number".

(** ** The fragment of the JavaScript runtime the sources rely on *)

Module JS.

(** Exceptions carry the [name] and [message] of the thrown [Error]. *)
Inductive exn : Type :=
| Exn (name message : string).

Definition TypeError (message : string) : exn := Exn "TypeError" message.
Definition Error (message : string) : exn := Exn "Error" message.

(** The outcome of evaluating code that may throw. *)
Inductive Result (A : Type) : Type :=
| Ok (a : A)
| Throw (e : exn).
Arguments Ok {A} a.
Arguments Throw {A} e.

Definition bind {A B : Type} (m : Result A) (k : A -> Result B) : Result B :=
  match m with
  | Ok a => k a
  | Throw e => Throw e
  end.

(** [try { body } catch (error) { handler }] *)
Definition try_catch {A : Type} (body : Result A) (handler : exn -> Result A)
  : Result A :=
  match body with
  | Ok a => Ok a
  | Throw e => handler e
  end.

Definition returns {A : Type} (m : Result A) : bool :=
  match m with Ok _ => true | Throw _ => false end.

Notation "'let*' x ':=' m 'in' k" := (bind m (fun x => k))
  (at level 10, x name, m at level 100, k at level 200).

(** Parsed JSON.  The properties of an object are listed in enumeration
    order; a property read takes the first entry with that key. *)
Inductive value : Type :=
| JNull
| JBool (b : bool)
| JNum (n : Z)
| JStr (s : string)
| JArr (items : list value)
| JObj (props : list (string * value)).

Fixpoint own_prop (props : list (string * value)) (key : string)
  : option value :=
  match props with
  | [] => None
  | (k, v) :: rest => if String.eqb k key then Some v else own_prop rest key
  end.

Definition has_own (props : list (string * value)) (key : string) : bool :=
  match own_prop props key with Some _ => true | None => false end.

Definition str_length (s : string) : Z := Z.of_nat (String.length s).
Definition arr_length (items : list value) : Z := Z.of_nat (List.length items).

(** [ToBoolean]. *)
Definition truthy (v : option value) : bool :=
  match v with
  | None | Some JNull => false
  | Some (JBool b) => b
  | Some (JNum n) => negb (n =? 0)%Z
  | Some (JStr s) => negb (String.eqb s EmptyString)
  | Some (JArr _) | Some (JObj _) => true
  end.

(** [base.key] on a base that is neither [null] nor [undefined], for the
    property names the sources use: data properties and [length].  None of
    them is found on a prototype. *)
Definition read_prop (base : value) (key : string) : option value :=
  match base with
  | JObj props => own_prop props key
  | JStr s => if String.eqb key "length" then Some (JNum (str_length s)) else None
  | JArr items =>
      if String.eqb key "length" then Some (JNum (arr_length items)) else None
  | JNull | JBool _ | JNum _ => None
  end.

(** [base.key]: a [TypeError] on [null] and [undefined]. *)
Definition get (base : option value) (key : string) : Result (option value) :=
  match base with
  | None | Some JNull =>
      Throw (TypeError ("Cannot read properties of null or undefined (reading '"
                          +:+ key +:+ "')"))
  | Some b => Ok (read_prop b key)
  end.

(** [base?.key]. *)
Definition get_opt (base : option value) (key : string) : option value :=
  match base with
  | None | Some JNull => None
  | Some b => read_prop b key
  end.

(** [Number.prototype.toString] on an integer that a double holds exactly
    and that is below [10^21] in magnitude, as the counts, lengths and scores
    of the sources are: JavaScript prints larger numbers with an exponent,
    and fractional numbers are outside the model. *)
Definition number_to_string (n : Z) : string :=
  NilZero.string_of_int (Z.to_int n).

(** [Array.prototype.join]: [null] elements give the empty string, the
    others are converted left to right. *)
Definition join_with (conv : value -> Result string) (sep : string)
  : list value -> Result string :=
  fix go (items : list value) : Result string :=
    match items with
    | [] => Ok EmptyString
    | x :: rest =>
        bind (match x with JNull => Ok EmptyString | _ => conv x end) (fun s =>
        match rest with
        | [] => Ok s
        | _ :: _ => bind (go rest) (fun r => Ok (s +:+ sep +:+ r))
        end)
    end.

(** [ToString].  An object converts through [Object.prototype.toString]
    unless it has an own property [toString]: a parsed JSON value is never
    callable, and [valueOf] does not yield a primitive, so the conversion
    then throws. *)
Fixpoint to_string (v : value) : Result string :=
  match v with
  | JNull => Ok "null"
  | JBool true => Ok "true"
  | JBool false => Ok "false"
  | JNum n => Ok (number_to_string n)
  | JStr s => Ok s
  | JArr items => join_with to_string "," items
  | JObj props =>
      if has_own props "toString"
      then Throw (TypeError "Cannot convert object to primitive value")
      else Ok "[object Object]"
  end.

Definition array_join (sep : string) (items : list value) : Result string :=
  join_with to_string sep items.

(** A template literal hole, [${v}]. *)
Definition interpolate (v : option value) : Result string :=
  match v with
  | None => Ok "undefined"
  | Some x => to_string x
  end.

(** *** Characters and strings *)

Definition code (c : ascii) : nat := nat_of_ascii c.

Definition in_range (lo hi : nat) (c : ascii) : bool :=
  ((lo <=? code c) && (code c <=? hi))%nat.

Definition is_digit (c : ascii) : bool := in_range 48 57 c.

(** The class [\w] of a regular expression without the [u] flag. *)
Definition is_word_char (c : ascii) : bool :=
  in_range 48 57 c || in_range 65 90 c || in_range 97 122 c || (code c =? 95)%nat.

(** [WhiteSpace] and [LineTerminator] code units below 256. *)
Definition is_space (c : ascii) : bool :=
  in_range 9 13 c || (code c =? 32)%nat || (code c =? 160)%nat.

Definition has_digit (s : string) : bool :=
  existsb is_digit (list_ascii_of_string s).

(** [/\d+/.test(v)]: the argument is converted with [ToString]. *)
Definition regexp_digit_test (v : value) : Result bool :=
  bind (to_string v) (fun s => Ok (has_digit s)).

(** [String.prototype.toLowerCase] on Latin-1 code units. *)
Definition lower_char (c : ascii) : ascii :=
  if in_range 65 90 c || (in_range 192 222 c && negb (code c =? 215)%nat)
  then ascii_of_nat (code c + 32)
  else c.

Fixpoint toLowerCase (s : string) : string :=
  match s with
  | EmptyString => EmptyString
  | String c rest => String (lower_char c) (toLowerCase rest)
  end.

(** [String.prototype.includes]. *)
Fixpoint includes (s sub : string) : bool :=
  String.prefix sub s
  || match s with
     | EmptyString => false
     | String _ rest => includes rest sub
     end.

(** [s.match(/\b\w+\b/g) || []]: the maximal runs of word characters, in
    order.  [run] holds the current run, last character first. *)
Definition flush_run (run : list ascii) : list string :=
  match run with
  | [] => []
  | _ :: _ => [string_of_list_ascii (rev run)]
  end.

Fixpoint word_runs (run : list ascii) (s : string) : list string :=
  match s with
  | EmptyString => flush_run run
  | String c rest =>
      if is_word_char c then word_runs (c :: run) rest
      else (flush_run run ++ word_runs [] rest)%list
  end.

Definition match_words (s : string) : list string := word_runs [] s.

(** [[...new Set(l)]]: first occurrences, in order. *)
Fixpoint dedupe_from (seen l : list string) : list string :=
  match l with
  | [] => []
  | x :: rest =>
      if existsb (String.eqb x) seen then dedupe_from seen rest
      else x :: dedupe_from (x :: seen) rest
  end.

Definition dedupe (l : list string) : list string := dedupe_from [] l.

(** *** [JSON.stringify] *)

Definition dquote : string := String (ascii_of_nat 34) EmptyString.
Definition nl : string := String (ascii_of_nat 10) EmptyString.
Definition backslash : string := String (ascii_of_nat 92) EmptyString.

Definition hex_digit (n : nat) : ascii :=
  if (n <? 10)%nat then ascii_of_nat (48 + n) else ascii_of_nat (87 + n).

Definition escape_char (c : ascii) : string :=
  let n := code c in
  if (n =? 34)%nat then backslash +:+ dquote
  else if (n =? 92)%nat then backslash +:+ backslash
  else if (n =? 8)%nat then backslash +:+ "b"
  else if (n =? 12)%nat then backslash +:+ "f"
  else if (n =? 10)%nat then backslash +:+ "n"
  else if (n =? 13)%nat then backslash +:+ "r"
  else if (n =? 9)%nat then backslash +:+ "t"
  else if (n <? 32)%nat
       then backslash +:+ "u00"
            +:+ String (hex_digit (n / 16)) (String (hex_digit (n mod 16)) EmptyString)
  else String c EmptyString.

Fixpoint escape (s : string) : string :=
  match s with
  | EmptyString => EmptyString
  | String c rest => escape_char c +:+ escape rest
  end.

Definition quote (s : string) : string := dquote +:+ escape s +:+ dquote.

Fixpoint concat_sep (sep : string) (l : list string) : string :=
  match l with
  | [] => EmptyString
  | [s] => s
  | s :: rest => s +:+ sep +:+ concat_sep sep rest
  end.

(** Lines of text, joined by line feeds. *)
Definition lines (l : list string) : string := concat_sep nl l.

Fixpoint stringify (v : value) : string :=
  match v with
  | JNull => "null"
  | JBool true => "true"
  | JBool false => "false"
  | JNum n => number_to_string n
  | JStr s => quote s
  | JArr items => "[" +:+ concat_sep "," (List.map stringify items) +:+ "]"
  | JObj props =>
      "{" +:+ concat_sep ","
                (List.map (fun kv => quote (fst kv) +:+ ":" +:+ stringify (snd kv)) props)
          +:+ "}"
  end.

(** *** [StringToNumber] and the comparison [v > 0] *)

Fixpoint skip_spaces (l : list ascii) : list ascii :=
  match l with
  | c :: rest => if is_space c then skip_spaces rest else l
  | [] => []
  end.

Definition trim (l : list ascii) : list ascii :=
  rev (skip_spaces (rev (skip_spaces l))).

(** The longest prefix of decimal digits, and what follows it. *)
Fixpoint span_digits (l : list ascii) : list ascii * list ascii :=
  match l with
  | c :: rest =>
      if is_digit c
      then let '(ds, tail) := span_digits rest in (c :: ds, tail)
      else ([], l)
  | [] => ([], [])
  end.

Definition digits_value (ds : list ascii) : Z :=
  fold_left (fun acc c => 10 * acc + Z.of_nat (code c - 48)) ds 0.

(** [ExponentPart], when [l] is empty or exactly one. *)
Definition parse_exponent (l : list ascii) : option Z :=
  match l with
  | [] => Some 0
  | c :: rest =>
      if ((code c =? 101) || (code c =? 69))%nat then
        let '(negative, body) :=
          match rest with
          | s :: r =>
              if (code s =? 43)%nat then (false, r)
              else if (code s =? 45)%nat then (true, r)
              else (false, rest)
          | [] => (false, rest)
          end in
        match span_digits body with
        | ((_ :: _) as ds, []) =>
            Some (if negative then - digits_value ds else digits_value ds)
        | _ => None
        end
      else None
  end.

(** [StrUnsignedDecimalLiteral]: is its Number value above [+0]?  The
    mathematical value [m * 10^e] rounds to [+0] exactly when it is at most
    [2^-1075], half the least positive double. *)
Definition unsigned_decimal_gt0 (l : list ascii) : bool :=
  if String.eqb (string_of_list_ascii l) "Infinity" then true
  else
    let '(int_part, r1) := span_digits l in
    let '(frac_part, r2) :=
      match r1 with
      | c :: r => if (code c =? 46)%nat then span_digits r else ([], r1)
      | [] => ([], r1)
      end in
    match (int_part ++ frac_part)%list with
    | [] => false
    | (_ :: _) as ds =>
        match parse_exponent r2 with
        | None => false
        | Some e =>
            let m := digits_value ds in
            let e' := e - Z.of_nat (List.length frac_part) in
            (0 <? m)%Z
            && (if (0 <=? e')%Z then true else (10 ^ (- e') <? m * 2 ^ 1075)%Z)
        end
    end.

(** [NonDecimalIntegerLiteral]: digits of the given class after the prefix. *)
Definition radix_digits_gt0 (is_radix_digit : ascii -> bool) (l : list ascii)
  : bool :=
  forallb is_radix_digit l && existsb (fun c => negb (code c =? 48)%nat) l.

Definition is_hex_digit (c : ascii) : bool :=
  is_digit c || in_range 65 70 c || in_range 97 102 c.

(** [StringToNumber(s) > 0]; [NaN] compares false. *)
Definition string_gt0 (s : string) : bool :=
  match trim (list_ascii_of_string s) with
  | [] => false
  | c :: rest =>
      if (code c =? 45)%nat then false
      else if (code c =? 43)%nat then unsigned_decimal_gt0 rest
      else
        match (code c =? 48)%nat, rest with
        | true, p :: digits =>
            if ((code p =? 120) || (code p =? 88))%nat
            then radix_digits_gt0 is_hex_digit digits
            else if ((code p =? 111) || (code p =? 79))%nat
            then radix_digits_gt0 (in_range 48 55) digits
            else if ((code p =? 98) || (code p =? 66))%nat
            then radix_digits_gt0 (in_range 48 49) digits
            else unsigned_decimal_gt0 (c :: rest)
        | _, _ => unsigned_decimal_gt0 (c :: rest)
        end
  end.

(** [v > 0]: [ToPrimitive], then [ToNumber]. *)
Definition gt0 (v : option value) : Result bool :=
  match v with
  | None | Some JNull => Ok false
  | Some (JBool b) => Ok b
  | Some (JNum n) => Ok (0 <? n)%Z
  | Some (JStr s) => Ok (string_gt0 s)
  | Some (JArr _ as a) | Some (JObj _ as a) =>
      bind (to_string a) (fun s => Ok (string_gt0 s))
  end.

End JS.

(** ** [src/lib/pdf-to-image.ts] *)

Module PdfToImage.
Import JS.

(** The multipart [POST] the function sends. *)
Record Request : Type := {
  url : string;
  method : string;
  file : list Byte.byte;
  file_name : string;
  file_type : string
}.

(** A [fetch] response: [text()] and [json()] read and parse the body, and
    either may reject. *)
Record Response : Type := {
  status : Z;
  text : Result string;
  json : Result value
}.

(** [response.ok] *)
Definition ok (response : Response) : bool :=
  ((200 <=? status response) && (status response <=? 299))%Z.

(** [fetch] rejects (no connection, DNS failure, timeout, abort) or resolves
    to a response. *)
Inductive FetchOutcome : Type :=
| Rejected (e : exn)
| Responded (response : Response).

Definition default_service_url : string :=
  "https://your-pdf-converter-app.herokuapp.com".

(** [process.env.PDF_CONVERTER_SERVICE_URL || default_service_url] *)
Definition microserviceUrl (env_url : option string) : string :=
  match env_url with
  | Some u => if String.eqb u EmptyString then default_service_url else u
  | None => default_service_url
  end.

Definition conversion_request (env_url : option string) (pdfBuffer : list Byte.byte)
  : Request :=
  {| url := microserviceUrl env_url +:+ "/pdf-to-images";
     method := "POST";
     file := pdfBuffer;
     file_name := "document.pdf";
     file_type := "application/pdf" |}.

(** [Array.prototype.forEach] with a callback that may throw. *)
Fixpoint for_each (callback : value -> Result unit) (items : list value)
  : Result unit :=
  match items with
  | [] => Ok tt
  | x :: rest => bind (callback x) (fun _ => for_each callback rest)
  end.

(** The logging callback: [Math.round(image.length / 1024)] reads [length]
    and converts it to a number. *)
Definition log_image_size (image : value) : Result unit :=
  bind (get (Some image) "length") (fun len =>
  match len with
  | Some (JArr _ as v) | Some (JObj _ as v) => bind (to_string v) (fun _ => Ok tt)
  | _ => Ok tt
  end).

(** The body of the [try] block. *)
Definition conversion (fetch : Request -> FetchOutcome) (env_url : option string)
    (pdfBuffer : list Byte.byte) : Result (list value) :=
  match fetch (conversion_request env_url pdfBuffer) with
  | Rejected e => Throw e
  | Responded response =>
      if negb (ok response) then
        bind (text response) (fun errorText =>
        Throw (Error ("HTTP " +:+ number_to_string (status response) +:+ ": "
                        +:+ errorText)))
      else
        bind (json response) (fun result =>
        bind (get (Some result) "success") (fun success =>
        if negb (truthy success) then
          Throw (Error ("Conversion failed: " +:+ stringify result))
        else
          bind (get (Some result) "images") (fun listed =>
          let images := if truthy listed then listed else Some (JArr []) in
          match images with
          | Some (JArr items) =>
              bind (for_each log_image_size items) (fun _ => Ok items)
          | other =>
              bind (interpolate (get_opt other "length")) (fun _ =>
              Throw (TypeError "images.forEach is not a function"))
          end)))
  end.

(** [convertPDFToImages]: the [catch] block logs and returns [[]]. *)
Definition convertPDFToImages (fetch : Request -> FetchOutcome)
    (env_url : option string) (pdfBuffer : list Byte.byte) : Result (list value) :=
  try_catch (conversion fetch env_url pdfBuffer) (fun error => Ok []).

(** The ways the call to the conversion service fails. *)
Inductive ServiceFailure : FetchOutcome -> Prop :=
| NetworkErrorOrTimeout (e : exn) :
    ServiceFailure (Rejected e)
| NonSuccessStatus (response : Response) :
    ok response = false ->
    ServiceFailure (Responded response)
| SuccessFalse (response : Response) (props : list (string * value)) :
    ok response = true ->
    json response = Ok (JObj props) ->
    own_prop props "success" = Some (JBool false) ->
    ServiceFailure (Responded response).

(** The [images] array of a successful service answer. *)
Definition service_images (outcome : FetchOutcome) : option (list value) :=
  match outcome with
  | Rejected _ => None
  | Responded response =>
      match ok response, json response with
      | true, Ok result =>
          if truthy (get_opt (Some result) "success") then
            match get_opt (Some result) "images" with
            | Some (JArr items) => Some items
            | _ => None
            end
          else None
      | _, _ => None
      end
  end.

End PdfToImage.

(** ** [prisma/schema.prisma] *)

Module Schema.
Import JS.

Inductive SubscriptionTier : Type := FREE | PLUS | PREMIUM.

Inductive LlmCallStatus : Type := COMPLETED | FAILED | TIMEOUT.

Inductive MessageRole : Type := role_system | role_user | role_assistant.

(** A JavaScript [Date], seen through the accessors the sources call. *)
Record Date : Type := {
  getTime : Z;
  getFullYear : Z;
  getMonth : Z
}.

(** [model User].  Columns that no embedded function reads or writes
    ([emailVerified], [image], [hashedPassword], [createdAt], [updatedAt])
    are left out. *)
Record User : Type := {
  id : string;
  email : string;
  name : option string;
  subscriptionTier : SubscriptionTier;
  subscriptionId : option string;
  customerId : option string;
  subscriptionEndsAt : option Date;
  monthlyRoasts : Z;
  totalRoasts : Z;
  bonusCredits : Z;
  lastRoastReset : Date
}.

(** [model GeneratedResume]; [contentHash] is [@unique]. *)
Record GeneratedResume : Type := {
  resume_id : string;
  resume_userId : option string;
  roastId : option string;
  extractedResumeId : option string;
  extractedJobId : option string;
  templateId : string;
  contentHash : string;
  content : string;
  data : value;
  atsScore : option Z;
  keywordsMatched : list string
}.

(** [model LlmCall], with the columns the route sets; [totalCostUsd] counts
    millionths of a dollar ([Decimal(10,6)]). *)
Record LlmCall : Type := {
  call_id : string;
  call_userId : option string;
  provider : string;
  model : string;
  operationType : string;
  totalTokens : Z;
  totalCostUsd : Z;
  call_status : LlmCallStatus;
  completedAt : option Date
}.

(** [model LlmMessage]; [(llmCallId, messageIndex)] is [@@unique]. *)
Record LlmMessage : Type := {
  message_id : string;
  llmCallId : string;
  role : MessageRole;
  message_content : string;
  messageIndex : Z;
  message_totalTokens : option Z
}.

(** The database.  [users] is keyed by the primary key; the other tables
    list their rows newest first, which is the order [createdAt desc]. *)
Record Db : Type := {
  users : gmap string User;
  generatedResumes : list GeneratedResume;
  llmCalls : list LlmCall;
  llmMessages : list LlmMessage
}.

Definition with_users (db : Db) (us : gmap string User) : Db :=
  {| users := us;
     generatedResumes := generatedResumes db;
     llmCalls := llmCalls db;
     llmMessages := llmMessages db |}.

(** A PostgreSQL [integer] column holds at most [2^31 - 1]. *)
Definition INT4_MAX : Z := 2147483647.

(** Prisma errors. *)
Definition UniqueConstraintFailed (target : string) : exn :=
  Exn "PrismaClientKnownRequestError"
      ("P2002 Unique constraint failed on the fields: " +:+ target).

Definition RecordNotFound : exn :=
  Exn "PrismaClientKnownRequestError" "P2025 Record to update not found.".

Definition IntegerOutOfRange : exn :=
  Exn "PrismaClientUnknownRequestError" "integer out of range".

End Schema.

(** ** [src/lib/database.ts]: [UserService] *)

Module UserService.
Import JS Schema.

(** [db.user.findUnique({ where: { email } })] *)
Definition find_by_email (us : gmap string User) (e : string) : option User :=
  List.find (fun u => String.eqb (email u) e) (snd <$> map_to_list us).

(** [db.user.update({ where: { id }, data })] with [data] applied by [change]. *)
Definition user_update (userId : string) (change : User -> User) (db : Db)
  : Db * Result User :=
  match users db !! userId with
  | None => (db, Throw RecordNotFound)
  | Some u => (with_users db (<[userId := change u]> (users db)), Ok (change u))
  end.

(** [findOrCreate]; [cuid] is the identifier [@default(cuid())] draws and
    [now] the value of [new Date()]. *)
Definition findOrCreate (cuid : string) (now : Date) (email : string)
    (name : option string) (db : Db) : Db * Result User :=
  match find_by_email (users db) email with
  | Some existingUser => (db, Ok existingUser)
  | None =>
      match users db !! cuid with
      | Some _ => (db, Throw (UniqueConstraintFailed "(`id`)"))
      | None =>
          let created :=
            {| id := cuid;
               email := email;
               name := name;
               subscriptionTier := FREE;
               subscriptionId := None;
               customerId := None;
               subscriptionEndsAt := None;
               monthlyRoasts := 0;
               totalRoasts := 0;
               bonusCredits := 0;
               lastRoastReset := now |} in
          (with_users db (<[cuid := created]> (users db)), Ok created)
      end
  end.

Definition monthsElapsed (now lastReset : Date) : Z :=
  (getFullYear now - getFullYear lastReset) * 12
  + (getMonth now - getMonth lastReset).

Definition MONTHLY_LIMITS (tier : SubscriptionTier) : Z :=
  match tier with
  | FREE => 3
  | PLUS => 100
  | PREMIUM => -1
  end.

Record RoastLimit : Type := {
  canRoast : bool;
  remaining : Z;
  used : Z;
  limit : Z;
  tier : SubscriptionTier
}.

Definition reset_monthly (now : Date) (u : User) : User :=
  {| id := id u;
     email := email u;
     name := name u;
     subscriptionTier := subscriptionTier u;
     subscriptionId := subscriptionId u;
     customerId := customerId u;
     subscriptionEndsAt := subscriptionEndsAt u;
     monthlyRoasts := 0;
     totalRoasts := totalRoasts u;
     bonusCredits := bonusCredits u;
     lastRoastReset := now |}.

(** The quota evaluated on the counter the function holds after the reset
    step. *)
Definition roast_limit (tier : SubscriptionTier) (monthly : Z) : RoastLimit :=
  let limit := MONTHLY_LIMITS tier in
  {| canRoast := (limit =? -1)%Z || (monthly <? limit)%Z;
     remaining := if (limit =? -1)%Z then -1 else Z.max 0 (limit - monthly);
     used := monthly;
     limit := limit;
     tier := tier |}.

(** [checkRoastLimit]; [now] is the value of [new Date()]. *)
Definition checkRoastLimit (now : Date) (userId : string) (db : Db)
  : Db * Result RoastLimit :=
  match users db !! userId with
  | None => (db, Throw (Error "User not found"))
  | Some u =>
      if (monthsElapsed now (lastRoastReset u) >=? 1)%Z then
        match user_update userId (reset_monthly now) db with
        | (db', Ok _) => (db', Ok (roast_limit (subscriptionTier u) 0))
        | (db', Throw e) => (db', Throw e)
        end
      else (db, Ok (roast_limit (subscriptionTier u) (monthlyRoasts u)))
  end.

Definition increment_counts (u : User) : User :=
  {| id := id u;
     email := email u;
     name := name u;
     subscriptionTier := subscriptionTier u;
     subscriptionId := subscriptionId u;
     customerId := customerId u;
     subscriptionEndsAt := subscriptionEndsAt u;
     monthlyRoasts := monthlyRoasts u + 1;
     totalRoasts := totalRoasts u + 1;
     bonusCredits := bonusCredits u;
     lastRoastReset := lastRoastReset u |}.

(** [incrementRoastCount]: [{ increment: 1 }] on a counter already at
    [INT4_MAX] is refused by the database. *)
Definition incrementRoastCount (userId : string) (db : Db) : Db * Result User :=
  match users db !! userId with
  | Some u =>
      if ((monthlyRoasts u <? INT4_MAX) && (totalRoasts u <? INT4_MAX))%Z
      then user_update userId increment_counts db
      else (db, Throw IntegerOutOfRange)
  | None => (db, Throw RecordNotFound)
  end.

(** The [data] argument of [updateSubscription]: absent fields are left as
    they are. *)
Record SubscriptionData : Type := {
  new_subscriptionTier : option SubscriptionTier;
  new_subscriptionId : option string;
  new_customerId : option string;
  new_subscriptionEndsAt : option Date
}.

Definition apply_subscription (d : SubscriptionData) (u : User) : User :=
  {| id := id u;
     email := email u;
     name := name u;
     subscriptionTier := default (subscriptionTier u) (new_subscriptionTier d);
     subscriptionId :=
       match new_subscriptionId d with Some s => Some s | None => subscriptionId u end;
     customerId :=
       match new_customerId d with Some s => Some s | None => customerId u end;
     subscriptionEndsAt :=
       match new_subscriptionEndsAt d with
       | Some s => Some s
       | None => subscriptionEndsAt u
       end;
     monthlyRoasts := monthlyRoasts u;
     totalRoasts := totalRoasts u;
     bonusCredits := bonusCredits u;
     lastRoastReset := lastRoastReset u |}.

(** [updateSubscription] *)
Definition updateSubscription (userId : string) (d : SubscriptionData) (db : Db)
  : Db * Result User :=
  user_update userId (apply_subscription d) db.

(** A call of one of the methods of [UserService], and the database it
    leaves. *)
Inductive Call : Type :=
| FindOrCreate (cuid : string) (email : string) (name : option string)
| CheckRoastLimit (userId : string)
| IncrementRoastCount (userId : string)
| UpdateSubscription (userId : string) (d : SubscriptionData).

Definition run (now : Date) (c : Call) (db : Db) : Db :=
  match c with
  | FindOrCreate cuid email name => fst (findOrCreate cuid now email name db)
  | CheckRoastLimit userId => fst (checkRoastLimit now userId db)
  | IncrementRoastCount userId => fst (incrementRoastCount userId db)
  | UpdateSubscription userId d => fst (updateSubscription userId d db)
  end.

(** *** Vocabulary of the properties *)

(** The counter the quota is evaluated on. *)
Definition counter_after_rollover (now : Date) (u : User) : Z :=
  if (monthsElapsed now (lastRoastReset u) >=? 1)%Z then 0 else monthlyRoasts u.

(** The account [u] with another balance of purchased credits. *)
Definition with_bonusCredits (credits : Z) (u : User) : User :=
  {| id := id u;
     email := email u;
     name := name u;
     subscriptionTier := subscriptionTier u;
     subscriptionId := subscriptionId u;
     customerId := customerId u;
     subscriptionEndsAt := subscriptionEndsAt u;
     monthlyRoasts := monthlyRoasts u;
     totalRoasts := totalRoasts u;
     bonusCredits := credits;
     lastRoastReset := lastRoastReset u |}.

End UserService.

(** ** [crypto.createHash('sha256')]: SHA-256 (FIPS 180-4) *)

Module Sha256.

Definition mask32 : Z := 0xffffffff.

Definition add32 (a b : Z) : Z := Z.land (a + b) mask32.

Definition rotr (n x : Z) : Z :=
  Z.land (Z.lor (Z.shiftr x n) (Z.shiftl x (32 - n))) mask32.

Definition shr (n x : Z) : Z := Z.shiftr x n.

Definition not32 (x : Z) : Z := Z.lxor x mask32.

Definition Ch (x y z : Z) : Z := Z.lxor (Z.land x y) (Z.land (not32 x) z).

Definition Maj (x y z : Z) : Z :=
  Z.lxor (Z.lxor (Z.land x y) (Z.land x z)) (Z.land y z).

Definition Sigma0 (x : Z) : Z := Z.lxor (Z.lxor (rotr 2 x) (rotr 13 x)) (rotr 22 x).
Definition Sigma1 (x : Z) : Z := Z.lxor (Z.lxor (rotr 6 x) (rotr 11 x)) (rotr 25 x).
Definition sigma0 (x : Z) : Z := Z.lxor (Z.lxor (rotr 7 x) (rotr 18 x)) (shr 3 x).
Definition sigma1 (x : Z) : Z := Z.lxor (Z.lxor (rotr 17 x) (rotr 19 x)) (shr 10 x).

(** The round constants: the first 32 bits of the fractional parts of the
    cube roots of the first 64 primes; the initial hash value takes the
    square roots of the first 8. *)
Definition is_prime (n : Z) : bool :=
  (1 <? n)%Z
  && forallb (fun d => negb (n mod d =? 0)%Z)
             (List.map Z.of_nat (seq 2 (Z.to_nat (Z.sqrt n) - 1))).

Definition primes : list Z :=
  List.filter is_prime (List.map Z.of_nat (seq 2 310)).

(** The integer cube root, by bisection: [lo ^ 3 <= n < hi ^ 3]. *)
Fixpoint cbrt_between (fuel : nat) (lo hi n : Z) : Z :=
  match fuel with
  | O => lo
  | S more =>
      let mid := (lo + hi) / 2 in
      if (mid * mid * mid <=? n)%Z then cbrt_between more mid hi n
      else cbrt_between more lo mid n
  end.

Definition cbrt (n : Z) : Z := cbrt_between 128 0 (n + 1) n.

Definition K : list Z :=
  Eval vm_compute in
    List.map (fun p => Z.land (cbrt (p * 2 ^ 96)) mask32) primes.

Definition H0 : list Z :=
  Eval vm_compute in
    List.map (fun p => Z.land (Z.sqrt (p * 2 ^ 64)) mask32) (firstn 8 primes).

(** [n] as [count] big-endian bytes. *)
Fixpoint be_bytes (count : nat) (n : Z) : list Z :=
  match count with
  | O => []
  | S c => (be_bytes c (Z.shiftr n 8) ++ [Z.land n 255])%list
  end.

(** Padding: [0x80], zeros up to 56 modulo 64, the bit length on 8 bytes. *)
Definition pad (message : list Z) : list Z :=
  let len := Z.of_nat (List.length message) in
  let zeros := Z.to_nat ((55 - len) mod 64) in
  (message ++ [128] ++ List.repeat 0 zeros ++ be_bytes 8 (8 * len))%list.

Fixpoint chunks (size fuel : nat) (l : list Z) : list (list Z) :=
  match fuel, l with
  | S f, _ :: _ => firstn size l :: chunks size f (skipn size l)
  | _, _ => []
  end.

Definition be_word (bytes : list Z) : Z :=
  fold_left (fun acc b => Z.lor (Z.shiftl acc 8) b) bytes 0.

Definition block_words (block : list Z) : list Z :=
  List.map be_word (chunks 4 16 block).

(** The message schedule, from the window of the last 16 words. *)
Fixpoint expand (count : nat) (window : list Z) : list Z :=
  match count with
  | O => []
  | S c =>
      let w :=
        add32 (add32 (sigma1 (nth 14 window 0)) (nth 9 window 0))
              (add32 (sigma0 (nth 1 window 0)) (nth 0 window 0)) in
      w :: expand c (List.tl window ++ [w])%list
  end.

Definition schedule (block : list Z) : list Z :=
  let w16 := block_words block in (w16 ++ expand 48 w16)%list.

Record State : Type := {
  a : Z; b : Z; c : Z; d : Z; e : Z; f : Z; g : Z; h : Z
}.

Definition round (s : State) (kw : Z * Z) : State :=
  let T1 :=
    add32 (add32 (add32 (h s) (Sigma1 (e s))) (Ch (e s) (f s) (g s)))
          (add32 (fst kw) (snd kw)) in
  let T2 := add32 (Sigma0 (a s)) (Maj (a s) (b s) (c s)) in
  {| a := add32 T1 T2; b := a s; c := b s; d := c s;
     e := add32 (d s) T1; f := e s; g := f s; h := g s |}.

Definition compress (s : State) (block : list Z) : State :=
  let r := fold_left round (combine K (schedule block)) s in
  {| a := add32 (a s) (a r); b := add32 (b s) (b r);
     c := add32 (c s) (c r); d := add32 (d s) (d r);
     e := add32 (e s) (e r); f := add32 (f s) (f r);
     g := add32 (g s) (g r); h := add32 (h s) (h r) |}.

Definition initial : State :=
  {| a := nth 0 H0 0; b := nth 1 H0 0; c := nth 2 H0 0; d := nth 3 H0 0;
     e := nth 4 H0 0; f := nth 5 H0 0; g := nth 6 H0 0; h := nth 7 H0 0 |}.

Definition digest_words (message : list Z) : list Z :=
  let padded := pad message in
  let s := fold_left compress (chunks 64 (List.length padded) padded) initial in
  [a s; b s; c s; d s; e s; f s; g s; h s].

Definition hex_char (n : Z) : ascii :=
  if (n <? 10)%Z then ascii_of_nat (Z.to_nat (48 + n))
  else ascii_of_nat (Z.to_nat (87 + n)).

Definition hex_byte (n : Z) : string :=
  String (hex_char (Z.shiftr n 4)) (String (hex_char (Z.land n 15)) EmptyString).

Definition hex_word (w : Z) : string :=
  fold_right (fun byte acc => hex_byte byte +:+ acc) EmptyString (be_bytes 4 w).

(** The UTF-8 encoding of a string of code units below 256. *)
Fixpoint utf8 (s : string) : list Z :=
  match s with
  | EmptyString => []
  | String ch rest =>
      let n := Z.of_nat (nat_of_ascii ch) in
      if (n <? 128)%Z then n :: utf8 rest
      else (192 + Z.shiftr n 6) :: (128 + Z.land n 63) :: utf8 rest
  end.

(** [crypto.createHash('sha256').update(s).digest('hex')] *)
Definition sha256_hex (s : string) : string :=
  fold_right (fun w acc => hex_word w +:+ acc) EmptyString (digest_words (utf8 s)).

End Sha256.


(** ** [api/extract-resume-data/route.ts] *)

Module ExtractResumeData.
Import JS Schema.

(** *** Helper functions of the route *)

(** [Array.prototype.some]: stops at the first element the callback accepts. *)
Fixpoint array_some (callback : value -> Result bool) (items : list value)
  : Result bool :=
  match items with
  | [] => Ok false
  | x :: rest =>
      let* accepted := callback x in
      if accepted then Ok true else array_some callback rest
  end.

(** [v?.some(callback)], read as a condition: [undefined] is falsy, and a
    value that is not an array has no method [some]. *)
Definition optional_some (v : option value) (callback : value -> Result bool)
  : Result bool :=
  match v with
  | None | Some JNull => Ok false
  | Some (JArr items) => array_some callback items
  | Some _ => Throw (TypeError "some is not a function")
  end.

Definition add_if (condition : bool) (points score : Z) : Z :=
  if condition then score + points else score.

Definition calculateATSScore (extractedData : option value) (jobDescription : string)
  : Result Z :=
  let score := 0 in
  let* personalInfo := get extractedData "personalInfo" in
  let score := add_if (truthy (get_opt personalInfo "name")) 10 score in
  let score := add_if (truthy (get_opt personalInfo "email")) 10 score in
  let score := add_if (truthy (get_opt personalInfo "phone")) 5 score in
  let* summary := get extractedData "summary" in
  let score := add_if (truthy summary) 15 score in
  let* experience := get extractedData "experience" in
  let* has_experience := gt0 (get_opt experience "length") in
  let score := add_if has_experience 20 score in
  let* education := get extractedData "education" in
  let* has_education := gt0 (get_opt education "length") in
  let score := add_if has_education 10 score in
  let* skills := get extractedData "skills" in
  let* has_skills := gt0 (get_opt (get_opt skills "technical") "length") in
  let score := add_if has_skills 15 score in
  let* hasQuantifiedAchievements :=
    optional_some experience (fun exp =>
      let* achievements := get (Some exp) "achievements" in
      optional_some achievements regexp_digit_test) in
  let score := add_if hasQuantifiedAchievements 15 score in
  Ok (Z.min score 100).

Definition extractKeywordsMatched (extractedData : option value)
    (jobDescription : string) : Result (list string) :=
  if String.eqb jobDescription EmptyString then Ok []
  else
    let jobKeywords := match_words (toLowerCase jobDescription) in
    match extractedData with
    | None => Throw (TypeError "Cannot read properties of undefined (reading 'toLowerCase')")
    | Some d =>
        let resumeText := toLowerCase (stringify d) in
        let matched :=
          List.filter (fun keyword =>
                         (3 <? String.length keyword)%nat && includes resumeText keyword)
                      jobKeywords in
        Ok (take 10 (dedupe matched))
    end.

(** [v.map(callback).join('')]; a value that is not an array has no method
    [map]. *)
Fixpoint map_concat (callback : value -> Result string) (items : list value)
  : Result string :=
  match items with
  | [] => Ok EmptyString
  | x :: rest =>
      let* s := callback x in
      let* r := map_concat callback rest in
      Ok (s +:+ r)
  end.

Definition map_join_empty (v : option value) (callback : value -> Result string)
  : Result string :=
  match v with
  | Some (JArr items) => map_concat callback items
  | _ => Throw (TypeError "map is not a function")
  end.

(** [condition ? `<span>${extractedData.personalInfo.field}</span>` : ''] *)
Definition contact_span (extractedData : option value) (field : string)
  : Result string :=
  let* personalInfo := get extractedData "personalInfo" in
  if truthy (get_opt personalInfo field) then
    let* personalInfo := get extractedData "personalInfo" in
    let* shown := get personalInfo field in
    let* s := interpolate shown in
    Ok ("<span>" +:+ s +:+ "</span>")
  else Ok EmptyString.

Definition achievement_item (achievement : value) : Result string :=
  let* s := interpolate (Some achievement) in
  Ok ("<li>" +:+ s +:+ "</li>").

Definition experience_item (exp : value) : Result string :=
  let* position := get (Some exp) "position" in
  let* position := interpolate position in
  let* company := get (Some exp) "company" in
  let* company := interpolate company in
  let* startDate := get (Some exp) "startDate" in
  let* startDate := interpolate startDate in
  let* endDate := get (Some exp) "endDate" in
  let* endDate := interpolate endDate in
  let* achievements := get (Some exp) "achievements" in
  let* listed :=
    if truthy (get_opt achievements "length") then
      let* achievements := get (Some exp) "achievements" in
      let* items := map_join_empty achievements achievement_item in
      Ok (lines [ EmptyString;
                  "                <ul>";
                  "                  " ]
          +:+ items
          +:+ lines [ EmptyString;
                      "                </ul>";
                      "              " ])
    else Ok EmptyString in
  Ok (lines [ EmptyString;
              "            <div class=" +:+ dquote +:+ "experience-item" +:+ dquote +:+ ">";
              "              <h3>" ]
      +:+ position +:+ " - " +:+ company
      +:+ lines [ "</h3>";
                  "              <div class=" +:+ dquote +:+ "dates" +:+ dquote +:+ ">" ]
      +:+ startDate +:+ " - " +:+ endDate
      +:+ lines [ "</div>";
                  "              " ]
      +:+ listed
      +:+ lines [ EmptyString;
                  "            </div>";
                  "          " ]).

Definition education_item (edu : value) : Result string :=
  let* degree := get (Some edu) "degree" in
  let* degree := interpolate degree in
  let* field := get (Some edu) "field" in
  let* field := interpolate field in
  let* institution := get (Some edu) "institution" in
  let* institution := interpolate institution in
  let* graduationDate := get (Some edu) "graduationDate" in
  let* graduationDate := interpolate graduationDate in
  Ok (lines [ EmptyString;
              "            <div class=" +:+ dquote +:+ "education-item" +:+ dquote +:+ ">";
              "              <h3>" ]
      +:+ degree +:+ " in " +:+ field
      +:+ lines [ "</h3>";
                  "              <div>" ]
      +:+ institution +:+ " - " +:+ graduationDate
      +:+ lines [ "</div>";
                  "            </div>";
                  "          " ]).

Definition generateOptimizedResumeContent (extractedData : option value)
    (templateId : string) : Result string :=
  let* personalInfo := get extractedData "personalInfo" in
  let shown_name := get_opt personalInfo "name" in
  let* name :=
    if truthy shown_name then interpolate shown_name else Ok "Name" in
  let* email := contact_span extractedData "email" in
  let* phone := contact_span extractedData "phone" in
  let* location := contact_span extractedData "location" in
  let* summary := get extractedData "summary" in
  let* summary_section :=
    if truthy summary then
      let* summary := get extractedData "summary" in
      let* s := interpolate summary in
      Ok (lines [ EmptyString;
                  "        <section class=" +:+ dquote +:+ "summary" +:+ dquote +:+ ">";
                  "          <h2>Professional Summary</h2>";
                  "          <p>" ]
          +:+ s
          +:+ lines [ "</p>";
                      "        </section>";
                      "      " ])
    else Ok EmptyString in
  let* experience := get extractedData "experience" in
  let* experience_section :=
    if truthy (get_opt experience "length") then
      let* experience := get extractedData "experience" in
      let* items := map_join_empty experience experience_item in
      Ok (lines [ EmptyString;
                  "        <section class=" +:+ dquote +:+ "experience" +:+ dquote +:+ ">";
                  "          <h2>Professional Experience</h2>";
                  "          " ]
          +:+ items
          +:+ lines [ EmptyString;
                      "        </section>";
                      "      " ])
    else Ok EmptyString in
  let* skills := get extractedData "skills" in
  let* skills_section :=
    if truthy (get_opt (get_opt skills "technical") "length") then
      let* skills := get extractedData "skills" in
      let* technical := get skills "technical" in
      let* joined :=
        match technical with
        | Some (JArr items) => array_join ", " items
        | _ => Throw (TypeError "join is not a function")
        end in
      Ok (lines [ EmptyString;
                  "        <section class=" +:+ dquote +:+ "skills" +:+ dquote +:+ ">";
                  "          <h2>Technical Skills</h2>";
                  "          <div class=" +:+ dquote +:+ "skills-list" +:+ dquote +:+ ">";
                  "            " ]
          +:+ joined
          +:+ lines [ EmptyString;
                      "          </div>";
                      "        </section>";
                      "      " ])
    else Ok EmptyString in
  let* education := get extractedData "education" in
  let* education_section :=
    if truthy (get_opt education "length") then
      let* education := get extractedData "education" in
      let* items := map_join_empty education education_item in
      Ok (lines [ EmptyString;
                  "        <section class=" +:+ dquote +:+ "education" +:+ dquote +:+ ">";
                  "          <h2>Education</h2>";
                  "          " ]
          +:+ items
          +:+ lines [ EmptyString;
                      "        </section>";
                      "      " ])
    else Ok EmptyString in
  Ok (lines [ EmptyString;
              "    <div class=" +:+ dquote +:+ "resume-" ] +:+ templateId
      +:+ lines [ dquote +:+ ">";
                  "      <header>";
                  "        <h1>" ]
      +:+ name
      +:+ lines [ "</h1>";
                  "        <div class=" +:+ dquote +:+ "contact-info" +:+ dquote +:+ ">";
                  "          " ]
      +:+ email
      +:+ lines [ EmptyString;
                  "          " ]
      +:+ phone
      +:+ lines [ EmptyString;
                  "          " ]
      +:+ location
      +:+ lines [ EmptyString;
                  "        </div>";
                  "      </header>";
                  "      ";
                  "      " ]
      +:+ summary_section
      +:+ lines [ EmptyString;
                  "      ";
                  "      " ]
      +:+ experience_section
      +:+ lines [ EmptyString;
                  "      ";
                  "      " ]
      +:+ skills_section
      +:+ lines [ EmptyString;
                  "      ";
                  "      " ]
      +:+ education_section
      +:+ lines [ EmptyString;
                  "    </div>";
                  "  " ]).

(** *** The request, the outside world and the response *)

(** The fields the handler takes from [await request.json()]. *)
Record RequestBody : Type := {
  resumeText : option string;
  analysisData : option value;
  jobDescription : option string;
  analysisId : option string;
  bypassCache : option bool
}.

(** A request: the [email] of the session user, when there is one, and the
    body. *)
Record Request : Type := {
  session_email : option string;
  json : Result RequestBody
}.

(** What [callAnthropicResumeOptimization] resolves to; [cost] counts
    millionths of a dollar. *)
Record LlmResponse : Type := {
  response_data : option value;
  processingTime : Z;
  usage_totalTokens : Z;
  cost : Z;
  usedTools : bool
}.

(** What one run of the handler takes from outside the database: the
    language model (called with [ANTHROPIC_MODELS.SONNET], [maxTokens: 4000],
    [temperature: 0.3] and the fixed system prompt), the clock, and the
    identifiers [@default(cuid())] draws for the rows it creates. *)
Record World : Type := {
  callAnthropicResumeOptimization : string -> Result LlmResponse;
  ANTHROPIC_MODELS_SONNET : string;
  new_Date : Date;
  cuid_llmCall : string;
  cuid_userMessage : string;
  cuid_assistantMessage : string;
  cuid_generatedResume : string
}.

Inductive Metadata : Type :=
| FromDatabase (atsScore : Z) (keywordsMatched : list string)
| Generated (tokensUsed processingTime estimatedCost atsScore : Z)
            (keywordsMatched : list string) (llmCallId : option string).

(** [NextResponse.json]: an error with its status, or the success envelope. *)
Inductive Response : Type :=
| ErrorJson (status : Z) (error : string)
| SuccessJson (data : option value) (cached : bool) (resumeId : option string)
              (metadata : Metadata).

(** *** Database access

    The database is taken to be reachable: an operation fails only when a
    constraint of the schema refuses it. *)

(** [db.user.findUnique({ where: { email } })] *)
Definition user_findUnique (e : string) (db : Db) : option User :=
  UserService.find_by_email (users db) e.

(** [db.generatedResume.findFirst({ where: { userId, contentHash },
    orderBy: { createdAt: 'desc' } })] *)
Definition owned_with_hash (userId hash : string) (r : GeneratedResume) : bool :=
  match resume_userId r with
  | Some u => String.eqb u userId
  | None => false
  end && String.eqb (contentHash r) hash.

Definition generatedResume_findFirst (userId hash : string) (db : Db)
  : option GeneratedResume :=
  List.find (owned_with_hash userId hash) (generatedResumes db).

Definition hash_stored (hash : string) (db : Db) : bool :=
  existsb (fun r => String.eqb (contentHash r) hash) (generatedResumes db).

(** [db.generatedResume.create]: refused when the primary key or the unique
    [contentHash] is already there. *)
Definition generatedResume_create (row : GeneratedResume) (db : Db) : Result Db :=
  if existsb (fun r => String.eqb (resume_id r) (resume_id row)) (generatedResumes db)
  then Throw (UniqueConstraintFailed "(`id`)")
  else if hash_stored (contentHash row) db
  then Throw (UniqueConstraintFailed "(`content_hash`)")
  else Ok {| users := users db;
             generatedResumes := row :: generatedResumes db;
             llmCalls := llmCalls db;
             llmMessages := llmMessages db |}.

(** [db.llmCall.create] *)
Definition llmCall_create (row : LlmCall) (db : Db) : Result Db :=
  if existsb (fun r => String.eqb (call_id r) (call_id row)) (llmCalls db)
  then Throw (UniqueConstraintFailed "(`id`)")
  else Ok {| users := users db;
             generatedResumes := generatedResumes db;
             llmCalls := row :: llmCalls db;
             llmMessages := llmMessages db |}.

(** [db.llmMessage.create] *)
Definition llmMessage_create (row : LlmMessage) (db : Db) : Result Db :=
  if existsb (fun r => String.eqb (message_id r) (message_id row)) (llmMessages db)
  then Throw (UniqueConstraintFailed "(`id`)")
  else if existsb (fun r => String.eqb (llmCallId r) (llmCallId row)
                            && (messageIndex r =? messageIndex row)%Z)
                  (llmMessages db)
  then Throw (UniqueConstraintFailed "(`llm_call_id`,`message_index`)")
  else Ok {| users := users db;
             generatedResumes := generatedResumes db;
             llmCalls := llmCalls db;
             llmMessages := row :: llmMessages db |}.

(** *** The handler *)

Definition maxResumeLength : nat := 8000.

Definition truncation_marker : string :=
  nl +:+ nl +:+ "[Resume truncated for processing...]".

Definition truncate (resumeText : string) : string :=
  if (maxResumeLength <? String.length resumeText)%nat
  then substring 0 maxResumeLength resumeText +:+ truncation_marker
  else resumeText.

Definition default_templateId : string := "modern-professional".

(** [x || ''] *)
Definition or_empty (x : option string) : string := default EmptyString x.

Definition contentHash_of (truncatedResumeText : string)
    (jobDescription : option string) (templateId : string)
    (analysisId : option string) : string :=
  Sha256.sha256_hex
    (truncatedResumeText +:+ or_empty jobDescription +:+ templateId
       +:+ or_empty analysisId).

(** [v?.slice(0, n).join(', ')] in a template hole. *)
Definition slice_join (v : option value) (n : nat) : Result string :=
  match v with
  | None | Some JNull => Ok "undefined"
  | Some (JArr items) => array_join ", " (take n items)
  | Some _ => Throw (TypeError "slice(...).join is not a function")
  end.

Definition analysis_insights (analysisData : option value) : Result string :=
  if truthy analysisData then
    let* overallScore := get analysisData "overallScore" in
    let* overallScore := interpolate overallScore in
    let* strengths := get analysisData "strengths" in
    let* strengths := slice_join strengths 3 in
    let* weaknesses := get analysisData "weaknesses" in
    let* weaknesses := slice_join weaknesses 3 in
    let* keywordMatch := get analysisData "keywordMatch" in
    let* matched := slice_join (get_opt keywordMatch "matched") 5 in
    let* keywordMatch := get analysisData "keywordMatch" in
    let* missing := slice_join (get_opt keywordMatch "missing") 5 in
    Ok (lines [ EmptyString;
                "ANALYSIS INSIGHTS:";
                "- Overall Score: " ]
        +:+ overallScore
        +:+ lines [ "%";
                    "- Key Strengths: " ]
        +:+ strengths
        +:+ lines [ EmptyString;
                    "- Areas for Improvement: " ]
        +:+ weaknesses
        +:+ lines [ EmptyString;
                    "- Matched Keywords: " ]
        +:+ matched
        +:+ lines [ EmptyString;
                    "- Missing Keywords: " ]
        +:+ missing
        +:+ nl)
  else Ok EmptyString.

Definition extraction_prompt (jobDescription : option string)
    (truncatedResumeText : string) (analysisData : option value) : Result string :=
  let target :=
    if String.eqb (or_empty jobDescription) EmptyString then EmptyString
    else lines [ EmptyString;
                 "TARGET JOB DESCRIPTION:";
                 EmptyString ]
         +:+ or_empty jobDescription
         +:+ nl in
  let* insights := analysis_insights analysisData in
  Ok (lines [ "Extract and structure the following resume data into a comprehensive JSON format:";
              EmptyString;
              EmptyString ]
      +:+ target
      +:+ lines [ EmptyString;
                  EmptyString;
                  "RESUME TEXT:";
                  EmptyString ]
      +:+ truncatedResumeText
      +:+ (nl +:+ nl)
      +:+ insights
      +:+ lines [ EmptyString;
                  EmptyString;
                  "IMPORTANT INSTRUCTIONS:";
                  "1. Extract information accurately from the resume text";
                  "2. Optimize content for ATS compatibility";
                  "3. Include quantified achievements where possible";
                  "4. Match keywords from the job description naturally";
                  "5. Ensure all dates are in MM/YYYY format";
                  "6. If information is missing, use null or empty arrays as appropriate";
                  "7. Make sure you don't omit any information from the resume text, this is the most important part of the process.";
                  EmptyString;
                  "Please use the optimize_resume_data function to return the structured data." ]).

(** [existingResume.atsScore || 75] *)
Definition atsScore_or_75 (stored : option Z) : Z :=
  match stored with
  | Some s => if (s =? 0)%Z then 75 else s
  | None => 75
  end.

Definition cached_response (existingResume : GeneratedResume) : Response :=
  SuccessJson (Some (data existingResume)) true (Some (resume_id existingResume))
    (FromDatabase (atsScore_or_75 (atsScore existingResume))
                  (keywordsMatched existingResume)).

(** The deduplication key of a request body. *)
Definition request_hash (body : RequestBody) : string :=
  contentHash_of (truncate (or_empty (resumeText body))) (jobDescription body)
                 default_templateId (analysisId body).

(** A request that found no cached row. *)
Record Miss : Type := {
  m_user : User;
  m_body : RequestBody;
  m_truncatedResumeText : string;
  m_contentHash : string
}.

(** The same request after the model has answered, before anything is
    written. *)
Record Pending : Type := {
  p_user : User;
  p_contentHash : string;
  p_prompt : string;
  p_extractedData : option value;
  p_processingTime : Z;
  p_tokensUsed : Z;
  p_estimatedCost : Z;
  p_atsScore : Z;
  p_keywordsMatched : list string;
  p_optimizedContent : string
}.

(** The handler from its first line to the cache probe: it answers at once
    ([inl]) or goes on ([inr]).  A [Throw] is an exception that reaches the
    outer [catch]. *)
Definition probe (db : Db) (request : Request) : Result (Response + Miss) :=
  match session_email request with
  | None => Ok (inl (ErrorJson 401 "Authentication required"))
  | Some session_user_email =>
    if String.eqb session_user_email EmptyString
    then Ok (inl (ErrorJson 401 "Authentication required"))
    else
    let* body := json request in
    match resumeText body with
    | None => Ok (inl (ErrorJson 400 "Resume text is required"))
    | Some resumeText =>
      if String.eqb resumeText EmptyString
      then Ok (inl (ErrorJson 400 "Resume text is required"))
      else
      match user_findUnique session_user_email db with
      | None => Ok (inl (ErrorJson 404 "User not found"))
      | Some found =>
        let truncatedResumeText := truncate resumeText in
        let templateId := default_templateId in
        let contentHash :=
          contentHash_of truncatedResumeText (jobDescription body) templateId
                         (analysisId body) in
        let existingResume :=
          if default false (bypassCache body) then None
          else generatedResume_findFirst (id found) contentHash db in
        match existingResume with
        | Some existingResume => Ok (inl (cached_response existingResume))
        | None =>
            Ok (inr {| m_user := found;
                       m_body := body;
                       m_truncatedResumeText := truncatedResumeText;
                       m_contentHash := contentHash |})
        end
      end
    end
  end.

(** From the prompt to [generateOptimizedResumeContent]. *)
Definition generate (w : World) (m : Miss) : Result Pending :=
  let body := m_body m in
  let templateId := default_templateId in
  let* prompt :=
    extraction_prompt (jobDescription body) (m_truncatedResumeText m)
                      (analysisData body) in
  let* response := callAnthropicResumeOptimization w prompt in
  let extractedData := response_data response in
  let* atsScore :=
    calculateATSScore extractedData (or_empty (jobDescription body)) in
  let* keywordsMatched :=
    extractKeywordsMatched extractedData (or_empty (jobDescription body)) in
  let* optimizedContent :=
    generateOptimizedResumeContent extractedData templateId in
  Ok {| p_user := m_user m;
        p_contentHash := m_contentHash m;
        p_prompt := prompt;
        p_extractedData := extractedData;
        p_processingTime := processingTime response;
        p_tokensUsed := usage_totalTokens response;
        p_estimatedCost := cost response;
        p_atsScore := atsScore;
        p_keywordsMatched := keywordsMatched;
        p_optimizedContent := optimizedContent |}.

(** Everything before the inner [try] block. *)
Definition prepare (db : Db) (w : World) (request : Request)
  : Result (Response + Pending) :=
  let* probed := probe db request in
  match probed with
  | inl response => Ok (inl response)
  | inr m => let* p := generate w m in Ok (inr p)
  end.

(** The rows of the inner [try] block.  [Math.floor(tokensUsed * 0.8)] and
    [Math.floor(tokensUsed * 0.2)] are taken on exact quotients. *)
Definition llmCall_row (w : World) (p : Pending) : LlmCall :=
  {| call_id := cuid_llmCall w;
     call_userId := Some (id (p_user p));
     provider := "anthropic";
     model := ANTHROPIC_MODELS_SONNET w;
     operationType := "resume_extraction";
     totalTokens := p_tokensUsed p;
     totalCostUsd := p_estimatedCost p;
     call_status := COMPLETED;
     completedAt := Some (new_Date w) |}.

Definition user_message_row (w : World) (p : Pending) : LlmMessage :=
  {| message_id := cuid_userMessage w;
     llmCallId := cuid_llmCall w;
     role := role_user;
     message_content := p_prompt p;
     messageIndex := 0;
     message_totalTokens := Some (p_tokensUsed p * 8 / 10) |}.

Definition assistant_message_row (w : World) (p : Pending) (d : value) : LlmMessage :=
  {| message_id := cuid_assistantMessage w;
     llmCallId := cuid_llmCall w;
     role := role_assistant;
     message_content := stringify d;
     messageIndex := 1;
     message_totalTokens := Some (p_tokensUsed p * 2 / 10) |}.

Definition generatedResume_row (w : World) (p : Pending) (d : value)
  : GeneratedResume :=
  {| resume_id := cuid_generatedResume w;
     resume_userId := Some (id (p_user p));
     roastId := None;
     extractedResumeId := None;
     extractedJobId := None;
     templateId := default_templateId;
     contentHash := p_contentHash p;
     content := p_optimizedContent p;
     data := d;
     atsScore := Some (p_atsScore p);
     keywordsMatched := p_keywordsMatched p |}.

(** The inner [try] block with its [catch], which logs and goes on: the
    database it leaves, [llmCallId] and [generatedResumeId].  The handler has
    a defined [extractedData] here, [calculateATSScore] throws otherwise. *)
Definition store (db : Db) (w : World) (p : Pending)
  : Db * option string * option string :=
  match llmCall_create (llmCall_row w p) db with
  | Throw _ => (db, None, None)
  | Ok db1 =>
    let llmCallId := Some (cuid_llmCall w) in
    match llmMessage_create (user_message_row w p) db1 with
    | Throw _ => (db1, llmCallId, None)
    | Ok db2 =>
      match p_extractedData p with
      | None => (db2, llmCallId, None)
      | Some d =>
        match llmMessage_create (assistant_message_row w p d) db2 with
        | Throw _ => (db2, llmCallId, None)
        | Ok db3 =>
          match generatedResume_create (generatedResume_row w p d) db3 with
          | Throw _ => (db3, llmCallId, None)
          | Ok db4 => (db4, llmCallId, Some (cuid_generatedResume w))
          end
        end
      end
    end
  end.

(** The rest of the handler: it stores what it can and answers. *)
Definition persist (db : Db) (w : World) (p : Pending) : Db * Response :=
  let '(db', llmCallId, generatedResumeId) := store db w p in
  (db',
   SuccessJson (p_extractedData p) false generatedResumeId
     (Generated (p_tokensUsed p) (p_processingTime p) (p_estimatedCost p)
                (p_atsScore p) (p_keywordsMatched p) llmCallId)).

Definition internal_error : Response :=
  ErrorJson 500 "Failed to extract resume data".

(** [POST] when other requests run between its cache probe and its writes:
    [db] is the database it reads, [db_later] the one it writes to. *)
Definition POST_interleaved (db db_later : Db) (w : World) (request : Request)
  : Db * Response :=
  match prepare db w request with
  | Throw _ => (db_later, internal_error)
  | Ok (inl response) => (db_later, response)
  | Ok (inr p) => persist db_later w p
  end.

(** [POST], run on its own. *)
Definition POST (db : Db) (w : World) (request : Request) : Db * Response :=
  POST_interleaved db db w request.

Definition succeeded (r : Response) : bool :=
  match r with
  | SuccessJson _ _ _ _ => true
  | ErrorJson _ _ => false
  end.

Definition cached (r : Response) : option bool :=
  match r with
  | SuccessJson _ c _ _ => Some c
  | ErrorJson _ _ => None
  end.

Definition resumeId (r : Response) : option string :=
  match r with
  | SuccessJson _ _ i _ => i
  | ErrorJson _ _ => None
  end.

(** *** Vocabulary of the properties *)

(** The shape the function is written for: an object whose [experience] is
    absent, [null] or a list of objects whose [achievements] are absent,
    [null] or lists of strings, and whose [education] and [skills.technical]
    are absent, [null] or lists. *)
Definition is_string (v : value) : bool :=
  match v with JStr _ => true | _ => false end.

Definition list_or_absent (items_ok : list value -> bool) (v : option value)
  : bool :=
  match v with
  | None | Some JNull => true
  | Some (JArr items) => items_ok items
  | Some _ => false
  end.

Definition experience_shaped (exp : value) : bool :=
  match exp with
  | JObj props => list_or_absent (forallb is_string) (own_prop props "achievements")
  | _ => false
  end.

Definition resume_shaped (extractedData : value) : bool :=
  match extractedData with
  | JObj props =>
      list_or_absent (forallb experience_shaped) (own_prop props "experience")
      && list_or_absent (fun _ => true) (own_prop props "education")
      && list_or_absent (fun _ => true)
           (get_opt (own_prop props "skills") "technical")
  | _ => false
  end.

(** Two request bodies with the same normalized inputs: the same resume
    text once cut, the same job description and the same analysis id, an
    absent field counting as the empty string (the template is fixed). *)
Definition same_normalized_inputs (body1 body2 : RequestBody) : Prop :=
  truncate (or_empty (resumeText body1)) = truncate (or_empty (resumeText body2))
  /\ or_empty (jobDescription body1) = or_empty (jobDescription body2)
  /\ or_empty (analysisId body1) = or_empty (analysisId body2).

(** The body [body] with another resume text. *)
Definition with_resumeText (text : string) (body : RequestBody) : RequestBody :=
  {| resumeText := Some text;
     analysisData := analysisData body;
     jobDescription := jobDescription body;
     analysisId := analysisId body;
     bypassCache := bypassCache body |}.

End ExtractResumeData.

(** ** Vocabulary of further properties *)

Module Ledger.
Import JS Schema UserService.

(** [incrementRoastCount], [n] times in a row. *)
Fixpoint increments (n : nat) (userId : string) (db : Db) : Db :=
  match n with
  | O => db
  | S m => fst (incrementRoastCount userId (increments m userId db))
  end.

(** Is the calendar month of [now] after the calendar month of [last]? *)
Definition later_month (now last : Date) : bool :=
  (getFullYear last <? getFullYear now)%Z
  || ((getFullYear last =? getFullYear now)%Z && (getMonth last <? getMonth now)%Z).

(** [getMonth] answers with a month number from 0 to 11. *)
Definition month_in_range (d : Date) : Prop := 0 <= getMonth d <= 11.

(** The account [u] after [n] counted roasts. *)
Fixpoint counted (n : nat) (u : User) : User :=
  match n with
  | O => u
  | S m => increment_counts (counted m u)
  end.

(** An update that keeps the lifetime counter, the purchased credits and
    the identity of the account. *)
Definition keeps_account (change : User -> User) : Prop :=
  forall x,
    totalRoasts x <= totalRoasts (change x)
    /\ bonusCredits (change x) = bonusCredits x
    /\ email (change x) = email x
    /\ id (change x) = id x.

(** The constraints of the [users] table: the primary key [id] and the
    unique [email]. *)
Definition accounts_keyed (db : Db) : Prop :=
  (forall i u, users db !! i = Some u -> id u = i)
  /\ (forall i j u v,
        users db !! i = Some u -> users db !! j = Some v ->
        email u = email v -> i = j).

(** An update that leaves the columns [id] and [email] alone. *)
Definition keeps_keys (change : User -> User) : Prop :=
  forall x, id (change x) = id x /\ email (change x) = email x.

End Ledger.

Module Audit.
Import JS Schema ExtractResumeData.

(** The answers of the handler on its error paths. *)
Definition error_answers : list Response :=
  [ ErrorJson 401 "Authentication required";
    ErrorJson 400 "Resume text is required";
    ErrorJson 404 "User not found";
    internal_error ].

(** [data], [metadata.llmCallId], [metadata.atsScore] and
    [metadata.keywordsMatched] of an answer. *)
Definition data_of (r : Response) : option value :=
  match r with
  | SuccessJson d _ _ _ => d
  | ErrorJson _ _ => None
  end.

Definition llmCallId_of (r : Response) : option string :=
  match r with
  | SuccessJson _ _ _ (Generated _ _ _ _ _ c) => c
  | _ => None
  end.

Definition atsScore_of (r : Response) : option Z :=
  match r with
  | SuccessJson _ _ _ (FromDatabase s _) => Some s
  | SuccessJson _ _ _ (Generated _ _ _ s _ _) => Some s
  | ErrorJson _ _ => None
  end.

Definition keywordsMatched_of (r : Response) : list string :=
  match r with
  | SuccessJson _ _ _ (FromDatabase _ k) => k
  | SuccessJson _ _ _ (Generated _ _ _ _ k _) => k
  | ErrorJson _ _ => []
  end.


(** The relation [LlmMessage.llmCall]: every message belongs to a stored
    call. *)
Definition messages_linked (db : Db) : Prop :=
  forall m, In m (llmMessages db) ->
            exists c, In c (llmCalls db) /\ call_id c = llmCallId m.

(** [row] is a stored artifact of the session user of [request], under the
    content hash of that request, and the request does not bypass the
    cache. *)
Definition served_from (db : Db) (request : Request) (row : GeneratedResume)
  : Prop :=
  exists u body,
    json request = Ok body
    /\ session_email request = Some (email u)
    /\ (exists i, users db !! i = Some u)
    /\ In row (generatedResumes db)
    /\ resume_userId row = Some (id u)
    /\ contentHash row = request_hash body
    /\ default false (bypassCache body) = false.

End Audit.

(** ** [src/lib/database.ts], the file hash *)

Module Database.
Import JS.

(** [generateFileHash]: [createHash('sha256').update(buffer).digest('hex')]. *)
Definition generateFileHash (buffer : list Byte.byte) : string :=
  fold_right (fun w acc => Sha256.hex_word w +:+ acc) EmptyString
    (Sha256.digest_words (List.map (fun b => Z.of_N (Byte.to_N b)) buffer)).

(** *** Vocabulary of the properties *)

(** The digits of a lowercase hexadecimal number. *)
Definition is_lower_hex (c : ascii) : bool :=
  in_range 48 57 c || in_range 97 102 c.

Definition all_lower_hex (s : string) : bool :=
  forallb is_lower_hex (list_ascii_of_string s).

End Database.

(** ** [api/chatbot/route.ts], the helpers of the handler *)

Module Chatbot.
Import JS.

(** [s.split(sep)] for a separator of one character: the pieces between the
    separators, of which there is always at least one. *)
Fixpoint split (sep : ascii) (s : string) : list string :=
  match s with
  | EmptyString => [EmptyString]
  | String c rest =>
      if Ascii.eqb c sep then EmptyString :: split sep rest
      else
        match split sep rest with
        | piece :: pieces => String c piece :: pieces
        | [] => [String c EmptyString]
        end
  end.

Definition space : ascii := ascii_of_nat 32.
Definition comma : ascii := ascii_of_nat 44.

Definition generateConversationTitle (message : string) : string :=
  let words := take 6 (split space message) in
  concat_sep " " words
  +:+ (if (6 <? List.length (split space message))%nat then "..." else EmptyString).

(** The request headers [generateAnonymousUserId] reads; [None] is the
    [null] of [headers.get]. *)
Record Headers : Type := {
  x_forwarded_for : option string;
  x_real_ip : option string;
  x_session_token : option string
}.

(** [x || fallback] on a header. *)
Definition or_else (x : option string) (fallback : string) : string :=
  match x with
  | Some s => if String.eqb s EmptyString then fallback else s
  | None => fallback
  end.

(** [generateAnonymousUserId]; [randomUUID] is the value [crypto.randomUUID()]
    would give. *)
Definition generateAnonymousUserId (headers : Headers) (randomUUID : string)
  : string :=
  let ip :=
    match x_forwarded_for headers with
    | Some forwarded =>
        if String.eqb forwarded EmptyString
        then or_else (x_real_ip headers) "unknown"
        else List.hd EmptyString (split comma forwarded)
    | None => or_else (x_real_ip headers) "unknown"
    end in
  let sessionToken := or_else (x_session_token headers) randomUUID in
  "anon_" +:+ substring 0 16 (Sha256.sha256_hex (ip +:+ "_" +:+ sessionToken)).

(** *** Vocabulary of the properties *)

Fixpoint count (sep : ascii) (s : string) : nat :=
  match s with
  | EmptyString => O
  | String c rest => if Ascii.eqb c sep then S (count sep rest) else count sep rest
  end.

End Chatbot.

(** ** [src/lib/database.ts], the resume services and their cascades

    [ResumeService] and [ExtractedResumeService] write to the tables
    [resumes] and [extracted_resumes].  Deleting a row there reaches other
    tables through the [onDelete] rules of the schema. *)

Module ResumeRow.
Import JS Schema.

(** [model Resume]; [fileHash] is [@unique]. *)
Record Resume : Type := {
  id : string;
  userId : option string;
  filename : string;
  fileHash : string;
  mimeType : string;
  images : list string;
  metadata : option value;
  createdAt : Date
}.

End ResumeRow.

Module ExtractedResumeRow.
Import JS Schema.

(** [model ExtractedResume]; [contentHash] is [@unique], and [resumeId]
    refers to a [Resume] with [onDelete: Cascade]. *)
Record ExtractedResume : Type := {
  id : string;
  resumeId : string;
  contentHash : string;
  data : value;
  createdAt : Date
}.

End ExtractedResumeRow.

Module Tables.
Import JS Schema.

(** The database of [Schema], with the two tables of the resume services;
    they list their rows newest first. *)
Record Tables : Type := {
  db : Db;
  resumes : list ResumeRow.Resume;
  extractedResumes : list ExtractedResumeRow.ExtractedResume
}.

Definition with_db (t : Tables) (d : Db) : Tables :=
  {| db := d; resumes := resumes t; extractedResumes := extractedResumes t |}.

Definition with_generatedResumes (d : Db) (rows : list GeneratedResume) : Db :=
  {| users := users d;
     generatedResumes := rows;
     llmCalls := llmCalls d;
     llmMessages := llmMessages d |}.

Definition ForeignKeyFailed (field : string) : exn :=
  Exn "PrismaClientKnownRequestError"
      ("P2003 Foreign key constraint failed on the field: " +:+ field).

Definition RecordToDeleteNotFound : exn :=
  Exn "PrismaClientKnownRequestError" "P2025 Record to delete does not exist.".

Definition listed (ids : list string) (i : string) : bool :=
  existsb (String.eqb i) ids.

(** [onDelete: SetNull] of [GeneratedResume.extractedResume]: a stored
    artifact that refers to a deleted extracted resume loses the
    reference. *)
Definition detach (deleted : list string) (row : GeneratedResume)
  : GeneratedResume :=
  match extractedResumeId row with
  | Some er =>
      if listed deleted er then
        {| resume_id := resume_id row;
           resume_userId := resume_userId row;
           roastId := roastId row;
           extractedResumeId := None;
           extractedJobId := extractedJobId row;
           templateId := templateId row;
           contentHash := contentHash row;
           content := content row;
           data := data row;
           atsScore := atsScore row;
           keywordsMatched := keywordsMatched row |}
      else row
  | None => row
  end.

(** The deletion of the extracted resumes [deleted], with what the schema
    attaches to it in the tables carried here.  ([SummarizedResume] rows are
    deleted with them, and the other tables that refer to an extracted resume
    lose the reference as [generated_resumes] does.) *)
Definition delete_extractedResumes (deleted : list string) (t : Tables) : Tables :=
  {| db := with_generatedResumes (db t)
             (List.map (detach deleted) (generatedResumes (db t)));
     resumes := resumes t;
     extractedResumes :=
       List.filter (fun e => negb (listed deleted (ExtractedResumeRow.id e)))
                   (extractedResumes t) |}.

(** The deletion of the resumes that [doomed] selects: their extracted
    resumes go with them ([onDelete: Cascade]).  (The tables that refer to a
    resume with [onDelete: SetNull] have no column for it here.) *)
Definition delete_resumes (doomed : ResumeRow.Resume -> bool) (t : Tables)
  : Tables :=
  let gone := List.map ResumeRow.id (List.filter doomed (resumes t)) in
  let extracted_gone :=
    List.map ExtractedResumeRow.id
      (List.filter (fun e => listed gone (ExtractedResumeRow.resumeId e))
                   (extractedResumes t)) in
  delete_extractedResumes extracted_gone
    {| db := db t;
       resumes := List.filter (fun r => negb (doomed r)) (resumes t);
       extractedResumes := extractedResumes t |}.

End Tables.

Module ResumeService.
Import JS Schema Tables.

(** The argument of [create]. *)
Record CreateData : Type := {
  userId : option string;
  filename : string;
  fileHash : string;
  mimeType : string;
  images : option (list string);
  metadata : option value
}.

(** [create]; [cuid] is the identifier [@default(cuid())] draws and [now]
    the value of [@default(now())].  [data.images || []] and
    [data.metadata || null]; the [null] is stored as the database [NULL]. *)
Definition create (cuid : string) (now : Date) (data : CreateData) (t : Tables)
  : Tables * Result ResumeRow.Resume :=
  if existsb (fun r => String.eqb (ResumeRow.id r) cuid) (resumes t)
  then (t, Throw (UniqueConstraintFailed "(`id`)"))
  else if existsb (fun r => String.eqb (ResumeRow.fileHash r) (fileHash data))
                  (resumes t)
  then (t, Throw (UniqueConstraintFailed "(`file_hash`)"))
  else if match userId data with
          | Some owner =>
              match users (db t) !! owner with Some _ => false | None => true end
          | None => false
          end
  then (t, Throw (ForeignKeyFailed "resumes_user_id_fkey (index)"))
  else
    let row :=
      {| ResumeRow.id := cuid;
         ResumeRow.userId := userId data;
         ResumeRow.filename := filename data;
         ResumeRow.fileHash := fileHash data;
         ResumeRow.mimeType := mimeType data;
         ResumeRow.images := default [] (images data);
         ResumeRow.metadata :=
           if truthy (metadata data) then metadata data else None;
         ResumeRow.createdAt := now |} in
    ({| db := db t;
        resumes := row :: resumes t;
        extractedResumes := extractedResumes t |}, Ok row).

(** The filter of [deleteOldResumes]: [createdAt < cutoffDate] and
    [userId: null]. *)
Definition old_and_anonymous (cutoffDate : Date) (r : ResumeRow.Resume) : bool :=
  (getTime (ResumeRow.createdAt r) <? getTime cutoffDate)%Z
  && match ResumeRow.userId r with None => true | Some _ => false end.

(** [deleteOldResumes]; [cutoffDate] is the date that [new Date()] has
    become after [setDate(getDate() - daysOld)].  The result is the [count]
    of [deleteMany]. *)
Definition deleteOldResumes (cutoffDate : Date) (t : Tables) : Tables * Result Z :=
  (delete_resumes (old_and_anonymous cutoffDate) t,
   Ok (Z.of_nat (List.length (List.filter (old_and_anonymous cutoffDate)
                                          (resumes t))))).

(** [db.resume.delete({ where })] on a unique column. *)
Definition delete_where (selected : ResumeRow.Resume -> bool) (t : Tables)
  : Tables * Result ResumeRow.Resume :=
  match List.find selected (resumes t) with
  | None => (t, Throw RecordToDeleteNotFound)
  | Some r => (delete_resumes selected t, Ok r)
  end.

Definition deleteById (resumeId : string) (t : Tables)
  : Tables * Result ResumeRow.Resume :=
  delete_where (fun r => String.eqb (ResumeRow.id r) resumeId) t.

Definition deleteByHash (fileHash : string) (t : Tables)
  : Tables * Result ResumeRow.Resume :=
  delete_where (fun r => String.eqb (ResumeRow.fileHash r) fileHash) t.

End ResumeService.

Module ExtractedResumeService.
Import JS Schema Tables.

(** The argument of [create]. *)
Record CreateData : Type := {
  resumeId : string;
  contentHash : string;
  data : value
}.

(** [create]: the resume it names must be stored. *)
Definition create (cuid : string) (now : Date) (d : CreateData) (t : Tables)
  : Tables * Result ExtractedResumeRow.ExtractedResume :=
  if existsb (fun e => String.eqb (ExtractedResumeRow.id e) cuid)
             (extractedResumes t)
  then (t, Throw (UniqueConstraintFailed "(`id`)"))
  else if existsb (fun e => String.eqb (ExtractedResumeRow.contentHash e)
                                       (contentHash d))
                  (extractedResumes t)
  then (t, Throw (UniqueConstraintFailed "(`content_hash`)"))
  else if negb (existsb (fun r => String.eqb (ResumeRow.id r) (resumeId d))
                        (resumes t))
  then (t, Throw (ForeignKeyFailed "extracted_resumes_resume_id_fkey (index)"))
  else
    let row :=
      {| ExtractedResumeRow.id := cuid;
         ExtractedResumeRow.resumeId := resumeId d;
         ExtractedResumeRow.contentHash := contentHash d;
         ExtractedResumeRow.data := data d;
         ExtractedResumeRow.createdAt := now |} in
    ({| db := db t;
        resumes := resumes t;
        extractedResumes := row :: extractedResumes t |}, Ok row).

(** [delete] *)
Definition delete (id : string) (t : Tables)
  : Tables * Result ExtractedResumeRow.ExtractedResume :=
  match List.find (fun e => String.eqb (ExtractedResumeRow.id e) id)
                  (extractedResumes t) with
  | None => (t, Throw RecordToDeleteNotFound)
  | Some e => (delete_extractedResumes [id] t, Ok e)
  end.

End ExtractedResumeService.

(** ** Every write of the embedded code *)

Module Operations.
Import JS Schema Tables.

(** The operations of the sources that write to the database.  The
    optimized-resume handler reads the database [db_read] at its cache probe
    and writes to the one it finds later.  [JobDescriptionService.create],
    [GeneratedRoastService.create] and the three methods of [LlmCallService]
    write to [extracted_job_descriptions], [generated_roasts], [llm_calls]
    and [llm_messages] only; the first two tables are not carried here, and
    [OtherWrite] stands for any write of theirs: any new contents of the last
    two. *)
Inductive Operation : Type :=
| UserServiceCall (now : Date) (call : UserService.Call)
| OptimizedResumePOST (db_read : Db) (w : ExtractResumeData.World)
                      (request : ExtractResumeData.Request)
| ResumeCreate (cuid : string) (now : Date) (data : ResumeService.CreateData)
| ResumeDeleteOld (cutoffDate : Date)
| ResumeDeleteById (resumeId : string)
| ResumeDeleteByHash (fileHash : string)
| ExtractedResumeCreate (cuid : string) (now : Date)
                        (data : ExtractedResumeService.CreateData)
| ExtractedResumeDelete (id : string)
| OtherWrite (calls : list LlmCall) (messages : list LlmMessage).

(** The database an operation leaves. *)
Definition apply (op : Operation) (t : Tables) : Tables :=
  match op with
  | UserServiceCall now call => with_db t (UserService.run now call (db t))
  | OptimizedResumePOST db_read w request =>
      with_db t (fst (ExtractResumeData.POST_interleaved db_read (db t) w request))
  | ResumeCreate cuid now data => fst (ResumeService.create cuid now data t)
  | ResumeDeleteOld cutoffDate => fst (ResumeService.deleteOldResumes cutoffDate t)
  | ResumeDeleteById resumeId => fst (ResumeService.deleteById resumeId t)
  | ResumeDeleteByHash fileHash => fst (ResumeService.deleteByHash fileHash t)
  | ExtractedResumeCreate cuid now data =>
      fst (ExtractedResumeService.create cuid now data t)
  | ExtractedResumeDelete id => fst (ExtractedResumeService.delete id t)
  | OtherWrite calls messages =>
      with_db t {| users := users (db t);
                   generatedResumes := generatedResumes (db t);
                   llmCalls := calls;
                   llmMessages := messages |}
  end.

(** *** Vocabulary of the properties *)

(** An extracted resume with this [id] is stored. *)
Definition extracted_stored (id : string) (t : Tables) : bool :=
  existsb (fun e => String.eqb (ExtractedResumeRow.id e) id) (extractedResumes t).

(** The row [new] is the stored artifact [old]: every column is the same,
    except that the reference to an extracted resume that was stored in
    [before] and is no longer in [after] may have become [null]. *)
Definition kept_row (before after : Tables) (old new : GeneratedResume) : Prop :=
  resume_id new = resume_id old
  /\ resume_userId new = resume_userId old
  /\ roastId new = roastId old
  /\ extractedJobId new = extractedJobId old
  /\ templateId new = templateId old
  /\ contentHash new = contentHash old
  /\ content new = content old
  /\ data new = data old
  /\ atsScore new = atsScore old
  /\ keywordsMatched new = keywordsMatched old
  /\ (extractedResumeId new = extractedResumeId old
      \/ (extractedResumeId new = None
          /\ exists er,
               extractedResumeId old = Some er
               /\ extracted_stored er before = true
               /\ extracted_stored er after = false)).

(** No extracted resume of [before] is missing from [after]. *)
Definition extracted_kept (before after : Tables) : Prop :=
  forall er, extracted_stored er before = true -> extracted_stored er after = true.

End Operations.

(** ** Concrete inputs used by the examples below *)

Module Scenarios.
Import JS Schema.

(** *** The conversion service *)

Definition pdf_bytes : list Byte.byte := [Byte.x25; Byte.x50; Byte.x44; Byte.x46].

Definition page (n : string) : value := JStr ("/9j/4AAQSkZJRg-page-" +:+ n).

Definition converted (pages : list value) : value :=
  JObj [("success", JBool true); ("images", JArr pages)].

Definition answering (code : Z) (body : Result value)
  : PdfToImage.Request -> PdfToImage.FetchOutcome :=
  fun _ =>
    PdfToImage.Responded
      {| PdfToImage.status := code;
         PdfToImage.text := Ok "body";
         PdfToImage.json := body |}.

Definition service_unavailable : PdfToImage.Request -> PdfToImage.FetchOutcome :=
  answering 503 (Throw (Exn "SyntaxError" "Unexpected token S in JSON")).

Definition three_page_service : PdfToImage.Request -> PdfToImage.FetchOutcome :=
  answering 200 (Ok (converted [page "1"; page "2"; page "3"])).

Definition four_page_service : PdfToImage.Request -> PdfToImage.FetchOutcome :=
  answering 200 (Ok (converted [page "1"; page "2"; page "3"; page "4"])).

(** *** Accounts *)

(** 15 January 2025, 12:00 UTC. *)
Definition mid_january : Date :=
  {| getTime := 1736942400000; getFullYear := 2025; getMonth := 0 |}.

(** 31 January 2025, 23:59:59 UTC. *)
Definition end_of_january : Date :=
  {| getTime := 1738367999000; getFullYear := 2025; getMonth := 0 |}.

(** 1 February 2025, 00:00:01 UTC. *)
Definition start_of_february : Date :=
  {| getTime := 1738368001000; getFullYear := 2025; getMonth := 1 |}.

Definition account (i e : string) (t : SubscriptionTier) (monthly bonus : Z)
    (reset : Date) : User :=
  {| id := i;
     email := e;
     name := None;
     subscriptionTier := t;
     subscriptionId := None;
     customerId := None;
     subscriptionEndsAt := None;
     monthlyRoasts := monthly;
     totalRoasts := monthly;
     bonusCredits := bonus;
     lastRoastReset := reset |}.

Definition database (accounts : list User) : Db :=
  {| users := list_to_map (List.map (fun u => (id u, u)) accounts);
     generatedResumes := [];
     llmCalls := [];
     llmMessages := [] |}.

(** A free account with its three monthly roasts used, and five purchased
    credits. *)
Definition ada_with_credits : User :=
  account "ckv0ada" "ada@example.com" FREE 3 5 mid_january.

(** The same account without purchased credits. *)
Definition ada : User :=
  account "ckv0ada" "ada@example.com" FREE 3 0 mid_january.

Definition grace : User :=
  account "ckv0grace" "grace@example.com" PLUS 0 0 mid_january.

(** *** The optimized-resume route *)

(** Extracted data of the expected shape. *)
Definition extracted : value :=
  JObj [ ("personalInfo",
          JObj [("name", JStr "Ada Lovelace"); ("email", JStr "ada@example.com")]);
         ("summary", JStr "Analyst of the Analytical Engine");
         ("experience",
          JArr [ JObj [ ("position", JStr "Analyst");
                        ("company", JStr "Analytical Engines");
                        ("startDate", JStr "01/1842");
                        ("endDate", JStr "12/1843");
                        ("achievements", JArr [JStr "Published 7 notes"]) ] ]);
         ("education", JArr []);
         ("skills", JObj [("technical", JArr [JStr "Mathematics"])]) ].

(** Extracted data whose [experience] is a sentence instead of a list. *)
Definition experience_as_text : value :=
  JObj [ ("summary", JStr "Analyst");
         ("experience", JStr "Two years at Analytical Engines") ].

Definition model_answer : string -> Result ExtractResumeData.LlmResponse :=
  fun _ =>
    Ok {| ExtractResumeData.response_data := Some extracted;
          ExtractResumeData.processingTime := 1200;
          ExtractResumeData.usage_totalTokens := 1500;
          ExtractResumeData.cost := 12000;
          ExtractResumeData.usedTools := true |}.

(** The world of the [n]-th request. *)
Definition world (n : string) : ExtractResumeData.World :=
  {| ExtractResumeData.callAnthropicResumeOptimization := model_answer;
     ExtractResumeData.ANTHROPIC_MODELS_SONNET := "claude-sonnet-4";
     ExtractResumeData.new_Date := mid_january;
     ExtractResumeData.cuid_llmCall := "call-" +:+ n;
     ExtractResumeData.cuid_userMessage := "message-" +:+ n +:+ "-0";
     ExtractResumeData.cuid_assistantMessage := "message-" +:+ n +:+ "-1";
     ExtractResumeData.cuid_generatedResume := "resume-" +:+ n |}.

Definition body_with (text : string) (bypass : option bool)
  : ExtractResumeData.RequestBody :=
  {| ExtractResumeData.resumeText := Some text;
     ExtractResumeData.analysisData := None;
     ExtractResumeData.jobDescription := Some "Analyst wanted";
     ExtractResumeData.analysisId := None;
     ExtractResumeData.bypassCache := bypass |}.

(** The body [body_with resume_text None], with an empty analysis id in
    place of an absent one. *)
Definition body_again : ExtractResumeData.RequestBody :=
  {| ExtractResumeData.resumeText := Some "Ada Lovelace. Analyst. Published 7 notes.";
     ExtractResumeData.analysisData := None;
     ExtractResumeData.jobDescription := Some "Analyst wanted";
     ExtractResumeData.analysisId := Some EmptyString;
     ExtractResumeData.bypassCache := Some false |}.

Definition request_of (who : User) (body : ExtractResumeData.RequestBody)
  : ExtractResumeData.Request :=
  {| ExtractResumeData.session_email := Some (email who);
     ExtractResumeData.json := Ok body |}.

Definition resume_text : string := "Ada Lovelace. Analyst. Published 7 notes.".

Definition accounts : Db := database [ada; grace].

(** Grace has already had the same text optimized when Ada asks. *)
Definition after_grace : Db :=
  fst (ExtractResumeData.POST accounts (world "1")
         (request_of grace (body_with resume_text None))).

(** Ada has had her text optimized once. *)
Definition after_ada : Db :=
  fst (ExtractResumeData.POST accounts (world "1")
         (request_of ada (body_with resume_text None))).

(** Texts around the truncation length: 8000 characters, and one more. *)
Fixpoint repeated (n : nat) (c : ascii) : string :=
  match n with
  | O => EmptyString
  | S m => String c (repeated m c)
  end.

Definition text_8000 : string := repeated ExtractResumeData.maxResumeLength "a".
Definition text_8001 : string := text_8000 +:+ "b".
Definition text_8002 : string := text_8000 +:+ "cd".

End Scenarios.

(** ** Further concrete inputs *)

Module Fixtures.
Import JS Schema.

(** A premium upgrade: only the tier is given. *)
Definition upgrade_to_premium : UserService.SubscriptionData :=
  {| UserService.new_subscriptionTier := Some PREMIUM;
     UserService.new_subscriptionId := None;
     UserService.new_customerId := None;
     UserService.new_subscriptionEndsAt := None |}.

(** A free account at the start of its month. *)
Definition newcomer : User :=
  Scenarios.account "ckv0lin" "lin@example.com" FREE 0 0 Scenarios.mid_january.

(** 3 December 2024 and 2 January 2025. *)
Definition early_december : Date :=
  {| getTime := 1733227200000; getFullYear := 2024; getMonth := 11 |}.

Definition early_january : Date :=
  {| getTime := 1735819200000; getFullYear := 2025; getMonth := 0 |}.

(** 28 December 2024. *)
Definition late_december : Date :=
  {| getTime := 1735387200000; getFullYear := 2024; getMonth := 11 |}.

(** A free account that used its three roasts after a reset on 3 December
    2024. *)
Definition december_account : User :=
  Scenarios.account "ckv0dec" "dec@example.com" FREE 3 0 early_december.

(** A model that is overloaded, and one that extracts nothing. *)
Definition overloaded_world : ExtractResumeData.World :=
  {| ExtractResumeData.callAnthropicResumeOptimization :=
       fun _ => Throw (Error "529 overloaded");
     ExtractResumeData.ANTHROPIC_MODELS_SONNET := "claude-sonnet-4";
     ExtractResumeData.new_Date := Scenarios.mid_january;
     ExtractResumeData.cuid_llmCall := "call-9";
     ExtractResumeData.cuid_userMessage := "message-9-0";
     ExtractResumeData.cuid_assistantMessage := "message-9-1";
     ExtractResumeData.cuid_generatedResume := "resume-9" |}.

Definition blank_world : ExtractResumeData.World :=
  {| ExtractResumeData.callAnthropicResumeOptimization :=
       fun _ =>
         Ok {| ExtractResumeData.response_data := Some (JObj []);
               ExtractResumeData.processingTime := 900;
               ExtractResumeData.usage_totalTokens := 700;
               ExtractResumeData.cost := 5000;
               ExtractResumeData.usedTools := true |};
     ExtractResumeData.ANTHROPIC_MODELS_SONNET := "claude-sonnet-4";
     ExtractResumeData.new_Date := Scenarios.mid_january;
     ExtractResumeData.cuid_llmCall := "call-7";
     ExtractResumeData.cuid_userMessage := "message-7-0";
     ExtractResumeData.cuid_assistantMessage := "message-7-1";
     ExtractResumeData.cuid_generatedResume := "resume-7" |}.

Definition ada_request : ExtractResumeData.Request :=
  Scenarios.request_of Scenarios.ada
    (Scenarios.body_with Scenarios.resume_text None).

Definition anonymous_request : ExtractResumeData.Request :=
  {| ExtractResumeData.session_email := None;
     ExtractResumeData.json :=
       Ok (Scenarios.body_with Scenarios.resume_text None) |}.

(** A request that went through two proxies. *)
Definition proxied : Chatbot.Headers :=
  {| Chatbot.x_forwarded_for := Some "203.0.113.7, 10.0.0.2";
     Chatbot.x_real_ip := Some "10.0.0.2";
     Chatbot.x_session_token := Some "tok-1" |}.

(** An uploaded resume, its extraction, and an optimized resume that was
    generated from that extraction. *)
Definition uploaded : ResumeRow.Resume :=
  {| ResumeRow.id := "file-1";
     ResumeRow.userId := Some "ckv0ada";
     ResumeRow.filename := "ada.pdf";
     ResumeRow.fileHash := "9f2c-file";
     ResumeRow.mimeType := "application/pdf";
     ResumeRow.images := [];
     ResumeRow.metadata := None;
     ResumeRow.createdAt := Scenarios.mid_january |}.

Definition extraction : ExtractedResumeRow.ExtractedResume :=
  {| ExtractedResumeRow.id := "extracted-1";
     ExtractedResumeRow.resumeId := "file-1";
     ExtractedResumeRow.contentHash := "41aa-extracted";
     ExtractedResumeRow.data := Scenarios.extracted;
     ExtractedResumeRow.createdAt := Scenarios.mid_january |}.

Definition optimized : GeneratedResume :=
  {| resume_id := "resume-5";
     resume_userId := Some "ckv0ada";
     roastId := None;
     extractedResumeId := Some "extracted-1";
     extractedJobId := None;
     templateId := "modern-professional";
     contentHash := "77e0-optimized";
     content := "<div>Ada Lovelace</div>";
     data := Scenarios.extracted;
     atsScore := Some 85;
     keywordsMatched := ["analyst"] |}.

Definition library : Tables.Tables :=
  {| Tables.db :=
       Tables.with_generatedResumes Scenarios.accounts [optimized];
     Tables.resumes := [uploaded];
     Tables.extractedResumes := [extraction] |}.

End Fixtures.

(** * Properties *)

(** ** The runtime fragment, on examples *)

Module JSSpec.
Import JS.

Example truthy_values :
  truthy (Some (JStr EmptyString)) = false
  /\ truthy (Some (JNum 0)) = false
  /\ truthy None = false
  /\ truthy (Some (JArr [])) = true
  /\ truthy (Some (JStr "0")) = true.
Proof. repeat split. Qed.

Example get_on_null : returns (get (Some JNull) "personalInfo") = false.
Proof. reflexivity. Qed.

Example get_opt_on_null : get_opt (Some JNull) "name" = None.
Proof. reflexivity. Qed.

Example get_on_string : get (Some (JStr "abc")) "length" = Ok (Some (JNum 3)).
Proof. reflexivity. Qed.

Example to_string_array :
  to_string (JArr [JNum 1; JNull; JArr [JStr "x"; JNum (-3)]; JObj []])
  = Ok "1,,x,-3,[object Object]".
Proof. reflexivity. Qed.

Example to_string_throws :
  returns (to_string (JArr [JObj [("toString", JNum 1)]])) = false.
Proof. reflexivity. Qed.

Example gt0_values :
  gt0 (Some (JNum 2)) = Ok true
  /\ gt0 None = Ok false
  /\ gt0 (Some (JStr " 12 ")) = Ok true
  /\ gt0 (Some (JStr "0x10")) = Ok true
  /\ gt0 (Some (JStr "-5")) = Ok false
  /\ gt0 (Some (JStr "1e-400")) = Ok false
  /\ gt0 (Some (JStr "5e-324")) = Ok true
  /\ gt0 (Some (JStr "12px")) = Ok false
  /\ gt0 (Some (JArr [JNum 5])) = Ok true
  /\ gt0 (Some (JObj [])) = Ok false.
Proof. vm_compute. repeat split. Qed.

Example stringify_object :
  stringify (JObj [("a", JArr [JNum 1; JStr "x"; JNull]); ("b", JObj [])])
  = "{" +:+ dquote +:+ "a" +:+ dquote +:+ ":[1," +:+ dquote +:+ "x" +:+ dquote
    +:+ ",null]," +:+ dquote +:+ "b" +:+ dquote +:+ ":{}}".
Proof. reflexivity. Qed.

Example match_words_example :
  match_words "senior c++ engineer, node_js 2024" 
  = ["senior"; "c"; "engineer"; "node_js"; "2024"].
Proof. reflexivity. Qed.

Example dedupe_example : dedupe ["a"; "b"; "a"; "c"; "b"] = ["a"; "b"; "c"].
Proof. reflexivity. Qed.

End JSSpec.

(** ** The digest, on reference values *)

Module Sha256Spec.
Import Sha256.

Example round_constants :
  List.length K = 64%nat /\ nth 0 K 0 = 0x428a2f98 /\ nth 63 K 0 = 0xc67178f2.
Proof. vm_compute. auto. Qed.

Example initial_hash_value : nth 0 H0 0 = 0x6a09e667 /\ nth 7 H0 0 = 0x5be0cd19.
Proof. vm_compute. auto. Qed.

Example sha256_empty :
  sha256_hex EmptyString
  = "e3b0c44298fc1c149afbf4c8996fb92427ae41e4649b934ca495991b7852b855".
Proof. vm_compute. reflexivity. Qed.

Example sha256_abc :
  sha256_hex "abc"
  = "ba7816bf8f01cfea414140de5dae2223b00361a396177a9cb410ff61f20015ad".
Proof. vm_compute. reflexivity. Qed.

Example sha256_two_blocks :
  sha256_hex "abcdbcdecdefdefgefghfghighijhijkijkljklmklmnlmnomnopnopq"
  = "248d6a61d20638b8e5c026930c3e6039a33ce45964ff2167f6ecedd419db06c1".
Proof. vm_compute. reflexivity. Qed.

End Sha256Spec.

(** ** The vision preprocessor *)

Module PdfToImageSpec.
Import JS PdfToImage.

Lemma try_catch_returns {A : Type} (body : Result A) (fallback : A) :
  exists a, try_catch body (fun _ => Ok fallback) = Ok a.
Proof. destruct body as [a | e]; simpl; eauto. Qed.

Lemma try_catch_throw {A : Type} (body : Result A) (fallback : A) :
  returns body = false -> try_catch body (fun _ => Ok fallback) = Ok fallback.
Proof. destruct body; simpl; [discriminate | reflexivity]. Qed.

Lemma bind_throws {A B : Type} (m : Result A) (k : A -> Result B) :
  (forall a, returns (k a) = false) -> returns (bind m k) = false.
Proof. intros Hk. destruct m; simpl; auto. Qed.

(** [convertPDFToImages] resolves on every answer of the service. *)
Lemma convertPDFToImages_never_throws fetch env_url pdfBuffer :
  exists images, convertPDFToImages fetch env_url pdfBuffer = Ok images.
Proof. apply try_catch_returns. Qed.

(** A read that [get] allows is the read [get_opt] makes. *)
Lemma get_Ok_get_opt (base : option value) (key : string) (v : option value) :
  get base key = Ok v -> get_opt base key = v.
Proof.
  destruct base as [[] |]; simpl; intros H; inversion H; reflexivity.
Qed.

(** What the [try] block yields when it does not throw: the array the
    service sent as [images], or [[]] when it sent none. *)
Lemma conversion_Ok fetch env_url pdfBuffer images :
  conversion fetch env_url pdfBuffer = Ok images ->
  images = []
  \/ service_images (fetch (conversion_request env_url pdfBuffer)) = Some images.
Proof.
  unfold conversion, service_images.
  destruct (fetch _) as [e | response]; [discriminate |].
  destruct (ok response); cbn [negb bind].
  2: { destruct (text response); discriminate. }
  destruct (json response) as [result | e]; cbn [bind]; [| discriminate].
  destruct (get (Some result) "success") as [success | e] eqn:Hs; cbn [bind];
    [| discriminate].
  rewrite (get_Ok_get_opt _ _ _ Hs).
  destruct (truthy success); cbn [negb]; [| discriminate].
  destruct (get (Some result) "images") as [listed | e] eqn:Hi; cbn [bind];
    [| discriminate].
  rewrite (get_Ok_get_opt _ _ _ Hi).
  destruct (truthy listed) eqn:Ht.
  - destruct listed as [[ | | | | items | ] |];
      try (destruct (interpolate _); discriminate).
    destruct (for_each log_image_size items); cbn [bind]; [| discriminate].
    intros H; inversion H; auto.
  - cbn [for_each bind]. intros H; inversion H; auto.
Qed.

(** C2, as the code has it.  [convertPDFToImages] returns a finite list that
    is empty or is the [images] array of the service's answer, in the
    service's order; the function does not cut it, so it has at most 3
    entries whenever the service sends at most 3. *)
Theorem convertPDFToImages_returns_service_images fetch env_url pdfBuffer :
  exists images,
    convertPDFToImages fetch env_url pdfBuffer = Ok images
    /\ (images = []
        \/ service_images (fetch (conversion_request env_url pdfBuffer))
           = Some images)
    /\ ((forall sent,
            service_images (fetch (conversion_request env_url pdfBuffer))
            = Some sent ->
            (List.length sent <= 3)%nat) ->
        (List.length images <= 3)%nat).
Proof.
  unfold convertPDFToImages.
  destruct (conversion fetch env_url pdfBuffer) as [images | e] eqn:Hc; simpl.
  - exists images. destruct (conversion_Ok _ _ _ _ Hc) as [-> | Hs].
    + split; [reflexivity | split; [auto | simpl; lia]].
    + split; [reflexivity | split; [auto | intros Hb; exact (Hb _ Hs)]].
  - exists []. split; [reflexivity | split; [auto | simpl; lia]].
Qed.

Lemma convertPDFToImages_returns_service_images_witness :
  (forall sent,
      service_images
        (Scenarios.three_page_service (conversion_request None Scenarios.pdf_bytes))
      = Some sent ->
      (List.length sent <= 3)%nat)
  /\ exists images,
      convertPDFToImages Scenarios.three_page_service None Scenarios.pdf_bytes
      = Ok images
      /\ (List.length images <= 3)%nat.
Proof.
  assert (Hb : forall sent,
      service_images
        (Scenarios.three_page_service (conversion_request None Scenarios.pdf_bytes))
      = Some sent ->
      (List.length sent <= 3)%nat).
  { intros sent H. vm_compute in H. inversion H. simpl. lia. }
  split; [exact Hb |].
  destruct (convertPDFToImages_returns_service_images
              Scenarios.three_page_service None Scenarios.pdf_bytes)
    as [images [Hr [_ Hlen]]].
  exists images. split; [exact Hr | exact (Hlen Hb)].
Defined.

(** C2 as stated fails: a service that answers with four images gets all
    four back from [convertPDFToImages]. *)
Lemma convertPDFToImages_four_images :
  exists images,
    convertPDFToImages Scenarios.four_page_service None Scenarios.pdf_bytes
    = Ok images
    /\ ~ (List.length images <= 3)%nat.
Proof.
  eexists. split; [vm_compute; reflexivity |]. simpl. lia.
Qed.

(** C3.  When the call to the conversion service fails (the request is
    rejected by a network error or a timeout, the status is not 2xx, or the
    answer carries [success: false]), [convertPDFToImages] returns the empty
    list: it resolves, and never throws. *)
Theorem convertPDFToImages_failure_gives_empty fetch env_url pdfBuffer :
  ServiceFailure (fetch (conversion_request env_url pdfBuffer)) ->
  convertPDFToImages fetch env_url pdfBuffer = Ok [].
Proof.
  intros Hfail. unfold convertPDFToImages. apply try_catch_throw.
  unfold conversion.
  inversion Hfail as [e He | response Hok He | response props Hok Hjson Hsucc He].
  - reflexivity.
  - rewrite Hok. cbn [negb]. apply bind_throws. reflexivity.
  - rewrite Hok, Hjson. cbn [negb bind get read_prop]. rewrite Hsucc. reflexivity.
Qed.

Lemma convertPDFToImages_failure_gives_empty_witness :
  ServiceFailure
    (Scenarios.service_unavailable (conversion_request None Scenarios.pdf_bytes))
  /\ convertPDFToImages Scenarios.service_unavailable None Scenarios.pdf_bytes
     = Ok [].
Proof.
  assert (Hf : ServiceFailure
    (Scenarios.service_unavailable (conversion_request None Scenarios.pdf_bytes))).
  { apply NonSuccessStatus. reflexivity. }
  split; [exact Hf |].
  exact (convertPDFToImages_failure_gives_empty
           Scenarios.service_unavailable None Scenarios.pdf_bytes Hf).
Defined.

End PdfToImageSpec.



(** ** The helper functions of the route, on examples *)

Module RouteExamples.
Import JS ExtractResumeData.

Example truncate_short : truncate "Ada Lovelace" = "Ada Lovelace".
Proof. reflexivity. Qed.

Example truncate_8000 : truncate Scenarios.text_8000 = Scenarios.text_8000.
Proof. vm_compute. reflexivity. Qed.

Example truncate_8001 :
  truncate Scenarios.text_8001 = Scenarios.text_8000 +:+ truncation_marker.
Proof. vm_compute. reflexivity. Qed.

Example keywords_matched :
  extractKeywordsMatched (Some Scenarios.extracted)
    "Analyst wanted: Analytical mathematics, Engine engine notes 1843 null"
  = Ok ["analyst"; "analytical"; "mathematics"; "engine"; "notes"; "1843"].
Proof. vm_compute. reflexivity. Qed.

Example keywords_without_job_description :
  extractKeywordsMatched (Some Scenarios.extracted) EmptyString = Ok [].
Proof. reflexivity. Qed.

Example content_of_empty_object :
  generateOptimizedResumeContent (Some (JObj [])) "modern-professional"
  = Ok (lines [ EmptyString;
                "    <div class=" +:+ dquote +:+ "resume-modern-professional"
                  +:+ dquote +:+ ">";
                "      <header>";
                "        <h1>Name</h1>";
                "        <div class=" +:+ dquote +:+ "contact-info" +:+ dquote +:+ ">";
                "          ";
                "          ";
                "          ";
                "        </div>";
                "      </header>";
                "      ";
                "      ";
                "      ";
                "      ";
                "      ";
                "      ";
                "      ";
                "      ";
                "    </div>";
                "  " ]).
Proof. vm_compute. reflexivity. Qed.

Example content_needs_a_list :
  returns (generateOptimizedResumeContent
             (Some (JObj [("education", JStr "BSc Mathematics")]))
             "modern-professional")
  = false.
Proof. vm_compute. reflexivity. Qed.

Example stored_score_of_zero_reads_75 : atsScore_or_75 (Some 0) = 75.
Proof. reflexivity. Qed.

End RouteExamples.

(** ** The optimized-resume route: the ATS score *)

Module ATSScoreSpec.
Import JS ExtractResumeData.

(** Splits a hypothesis [bind m k = Ok _] on the outcome of [m]. *)
Ltac bind_inv H :=
  match type of H with
  | bind ?m _ = Ok _ =>
      let x := fresh "x" in
      let E := fresh "E" in
      destruct m as [x | ?] eqn:E; cbn [bind] in H; [| discriminate H]
  end.

Lemma add_if_bounds condition points score :
  0 <= points -> score <= add_if condition points score <= score + points.
Proof. intros Hp. unfold add_if. destruct condition; lia. Qed.

(** The score of a run that returns is between 0 and 100. *)
Lemma calculateATSScore_bounds extractedData jobDescription score :
  calculateATSScore extractedData jobDescription = Ok score ->
  0 <= score <= 100.
Proof.
  unfold calculateATSScore. intros H.
  repeat bind_inv H.
  injection H as <-.
  unfold add_if.
  repeat match goal with
         | |- context [if ?c then _ else _] => destruct c
         end; lia.
Qed.

Lemma get_object props key : get (Some (JObj props)) key = Ok (own_prop props key).
Proof. reflexivity. Qed.

Lemma gt0_length_returns (v : option value) :
  list_or_absent (fun _ => true) v = true ->
  exists b, gt0 (get_opt v "length") = Ok b.
Proof.
  destruct v as [[] |]; cbn; try discriminate; eauto.
Qed.

Lemma list_or_absent_weaken items_ok v :
  list_or_absent items_ok v = true -> list_or_absent (fun _ => true) v = true.
Proof. destruct v as [[] |]; cbn; auto. Qed.

Lemma array_some_returns callback items :
  Forall (fun x => exists b, callback x = Ok b) items ->
  exists b, array_some callback items = Ok b.
Proof.
  induction 1 as [| x rest [b Hx] _ [b' IH]]; cbn [array_some]; [eauto |].
  rewrite Hx. cbn [bind]. destruct b; eauto.
Qed.

Lemma optional_some_returns items_ok callback v :
  list_or_absent items_ok v = true ->
  (forall items, items_ok items = true ->
                 Forall (fun x => exists b, callback x = Ok b) items) ->
  exists b, optional_some v callback = Ok b.
Proof.
  intros Hv Hcb. destruct v as [[] |]; cbn in *; try discriminate; eauto.
  apply array_some_returns. auto.
Qed.

Lemma digit_test_on_strings items :
  forallb is_string items = true ->
  Forall (fun x => exists b, regexp_digit_test x = Ok b) items.
Proof.
  intros H. apply List.Forall_forall. intros x Hx.
  rewrite forallb_forall in H. specialize (H x Hx).
  destruct x; try discriminate. cbn. eauto.
Qed.

Lemma quantified_returns items :
  forallb experience_shaped items = true ->
  Forall (fun exp =>
            exists b,
              (let* achievements := get (Some exp) "achievements" in
               optional_some achievements regexp_digit_test) = Ok b) items.
Proof.
  intros H. apply List.Forall_forall. intros x Hx.
  rewrite forallb_forall in H. specialize (H x Hx).
  destruct x; try discriminate. rewrite get_object. cbn [bind].
  eapply optional_some_returns; [exact H |]. apply digit_test_on_strings.
Qed.

(** C10, as the code has it.  Whenever [calculateATSScore] returns, the
    score is an integer between 0 and 100, whatever the extracted data and
    the job description; and it returns on every extracted-data object of
    the shape it is written for.  On other values of its [any] parameter it
    may raise a [TypeError] instead. *)
Theorem calculateATSScore_range :
  (forall extractedData jobDescription score,
      calculateATSScore extractedData jobDescription = Ok score ->
      0 <= score <= 100)
  /\ (forall extractedData jobDescription,
         resume_shaped extractedData = true ->
         exists score,
           calculateATSScore (Some extractedData) jobDescription = Ok score
           /\ 0 <= score <= 100).
Proof.
  split; [apply calculateATSScore_bounds |].
  intros extractedData jobDescription Hshape.
  assert (Hret : exists score,
             calculateATSScore (Some extractedData) jobDescription = Ok score).
  { destruct extractedData as [ | | | | | props]; try discriminate.
    cbn [resume_shaped] in Hshape.
    apply andb_prop in Hshape as [Hshape Hskills].
    apply andb_prop in Hshape as [Hexp Hedu].
    unfold calculateATSScore. rewrite !get_object. cbn [bind].
    destruct (gt0_length_returns _ (list_or_absent_weaken _ _ Hexp)) as [b1 ->].
    destruct (gt0_length_returns _ Hedu) as [b2 ->].
    destruct (gt0_length_returns _ Hskills) as [b3 ->].
    cbn [bind].
    destruct (optional_some_returns _ _ _ Hexp quantified_returns) as [b4 ->].
    cbn [bind]. eauto. }
  destruct Hret as [score Hscore]. exists score.
  split; [exact Hscore | exact (calculateATSScore_bounds _ _ _ Hscore)].
Qed.

Lemma calculateATSScore_range_witness :
  resume_shaped Scenarios.extracted = true
  /\ exists score,
      calculateATSScore (Some Scenarios.extracted) "Analyst wanted" = Ok score
      /\ 0 <= score <= 100.
Proof.
  split; [reflexivity |].
  exact (proj2 calculateATSScore_range Scenarios.extracted "Analyst wanted" eq_refl).
Defined.

Example calculateATSScore_extracted :
  calculateATSScore (Some Scenarios.extracted) "Analyst wanted" = Ok 85.
Proof. vm_compute. reflexivity. Qed.

(** C10 as stated fails: on [null], and on extracted data whose
    [experience] is a string, [calculateATSScore] raises a [TypeError] and
    returns no score. *)
Lemma calculateATSScore_throws :
  returns (calculateATSScore (Some JNull) EmptyString) = false
  /\ returns (calculateATSScore (Some Scenarios.experience_as_text) EmptyString)
     = false.
Proof. split; vm_compute; reflexivity. Qed.

End ATSScoreSpec.

(** ** The optimized-resume route: the deduplication key *)

Module ContentHashSpec.
Import JS Schema ExtractResumeData.

(** [substring(0, n)] of a text of at most [n] characters is the text. *)
Lemma substring_short (n : nat) (s : string) :
  (String.length s <= n)%nat -> substring 0 n s = s.
Proof.
  revert n. induction s as [| ch s IH]; intros n Hn.
  - destruct n; reflexivity.
  - destruct n as [| n]; cbn in *; [lia |]. f_equal. apply IH. lia.
Qed.

(** Texts that agree on their first 8000 characters are cut to the same
    text when both, or neither, are longer than 8000 characters. *)
Lemma truncate_agree (a b : string) :
  (maxResumeLength <? String.length a)%nat
  = (maxResumeLength <? String.length b)%nat ->
  substring 0 maxResumeLength a = substring 0 maxResumeLength b ->
  truncate a = truncate b.
Proof.
  intros Hlen Hpre. unfold truncate. rewrite <- Hlen.
  destruct (maxResumeLength <? String.length a)%nat eqn:Ha.
  - by rewrite Hpre.
  - symmetry in Hlen. apply Nat.ltb_ge in Ha, Hlen.
    by rewrite <- (substring_short _ a Ha), <- (substring_short _ b Hlen).
Qed.

(** A text the handler cuts is not empty. *)
Lemma truncate_empty (a b : string) :
  truncate a = truncate b ->
  String.eqb a EmptyString = String.eqb b EmptyString.
Proof.
  unfold truncate.
  destruct a as [| ca a], b as [| cb b]; try reflexivity; cbn [String.length].
  - rewrite (proj2 (Nat.ltb_ge _ 0)) by lia.
    destruct (maxResumeLength <? S (String.length b))%nat; [| discriminate].
    unfold truncation_marker, nl. destruct (substring _ _ _); discriminate.
  - rewrite (proj2 (Nat.ltb_ge _ 0)) by lia.
    destruct (maxResumeLength <? S (String.length a))%nat; [| discriminate].
    unfold truncation_marker, nl. destruct (substring _ _ _); discriminate.
Qed.

(** The handler reads the resume text through [truncate] only. *)
Lemma POST_truncate db w session body (a b : string) :
  truncate a = truncate b ->
  POST db w {| session_email := session; json := Ok (with_resumeText a body) |}
  = POST db w {| session_email := session; json := Ok (with_resumeText b body) |}.
Proof.
  intros Ht. pose proof (truncate_empty a b Ht) as He.
  unfold POST, POST_interleaved, prepare, probe.
  cbn [session_email json bind with_resumeText resumeText jobDescription
       analysisId bypassCache].
  destruct session as [e |]; [| reflexivity].
  destruct (String.eqb e EmptyString); [reflexivity |].
  rewrite <- He. destruct (String.eqb a EmptyString); [reflexivity |].
  destruct (user_findUnique e db) as [found |]; [| reflexivity].
  rewrite <- Ht.
  destruct (if default false (bypassCache body) then None
            else generatedResume_findFirst (id found)
                   (contentHash_of (truncate a) (jobDescription body)
                      default_templateId (analysisId body)) db);
    reflexivity.
Qed.

(** C9, as the code has it.  The handler cuts a resume text longer than
    8000 characters to its first 8000 characters followed by the truncation
    marker, and leaves a shorter text as it is, before it computes
    [contentHash] and builds the prompt.  So two requests whose resume texts
    agree on their first 8000 characters and are both longer than 8000
    characters (or both not), with the same job description, template and
    analysis id, have the same [contentHash], and the handler answers both
    alike on every database: they share one cache entry. *)
Theorem truncated_texts_share_cache_entry (a b : string) (body : RequestBody) :
  (maxResumeLength <? String.length a)%nat
  = (maxResumeLength <? String.length b)%nat ->
  substring 0 maxResumeLength a = substring 0 maxResumeLength b ->
  truncate a = truncate b
  /\ request_hash (with_resumeText a body) = request_hash (with_resumeText b body)
  /\ forall db w session,
       POST db w {| session_email := session; json := Ok (with_resumeText a body) |}
       = POST db w {| session_email := session; json := Ok (with_resumeText b body) |}.
Proof.
  intros Hlen Hpre. pose proof (truncate_agree a b Hlen Hpre) as Ht.
  split; [exact Ht |]. split.
  - unfold request_hash. cbn. by rewrite Ht.
  - intros db w session. by apply POST_truncate.
Qed.

Lemma truncated_texts_share_cache_entry_witness :
  (maxResumeLength <? String.length Scenarios.text_8001)%nat
  = (maxResumeLength <? String.length Scenarios.text_8002)%nat
  /\ substring 0 maxResumeLength Scenarios.text_8001
     = substring 0 maxResumeLength Scenarios.text_8002
  /\ request_hash
       (with_resumeText Scenarios.text_8001 (Scenarios.body_with EmptyString None))
     = request_hash
         (with_resumeText Scenarios.text_8002 (Scenarios.body_with EmptyString None)).
Proof.
  assert (Hlen : (maxResumeLength <? String.length Scenarios.text_8001)%nat
                 = (maxResumeLength <? String.length Scenarios.text_8002)%nat)
    by (vm_compute; reflexivity).
  assert (Hpre : substring 0 maxResumeLength Scenarios.text_8001
                 = substring 0 maxResumeLength Scenarios.text_8002)
    by (vm_compute; reflexivity).
  split; [exact Hlen |]. split; [exact Hpre |].
  exact (proj1 (proj2 (truncated_texts_share_cache_entry
                         Scenarios.text_8001 Scenarios.text_8002
                         (Scenarios.body_with EmptyString None) Hlen Hpre))).
Defined.

(** C9 as stated fails at the truncation length: a text of exactly 8000
    characters is hashed as it is, the same text with one more character is
    hashed with the marker, and the two keys differ. *)
Lemma contentHash_differs_at_8000 :
  substring 0 maxResumeLength Scenarios.text_8000
  = substring 0 maxResumeLength Scenarios.text_8001
  /\ request_hash
       (with_resumeText Scenarios.text_8000 (Scenarios.body_with EmptyString None))
     <> request_hash
          (with_resumeText Scenarios.text_8001 (Scenarios.body_with EmptyString None)).
Proof.
  split; [vm_compute; reflexivity |].
  intros H. apply String.eqb_eq in H. vm_compute in H. discriminate H.
Qed.

End ContentHashSpec.

(** ** The optimized-resume route: the cache and the stored rows *)

Module CacheSpec.
Import JS Schema ExtractResumeData.

(** *** The three creations *)

Lemma llmCall_create_tables row db db' :
  llmCall_create row db = Ok db' ->
  users db' = users db /\ generatedResumes db' = generatedResumes db.
Proof.
  unfold llmCall_create. destruct (existsb _ _); [discriminate |].
  intros H; injection H as <-. auto.
Qed.

Lemma llmMessage_create_tables row db db' :
  llmMessage_create row db = Ok db' ->
  users db' = users db /\ generatedResumes db' = generatedResumes db.
Proof.
  unfold llmMessage_create. destruct (existsb _ _); [discriminate |].
  destruct (existsb _ _); [discriminate |].
  intros H; injection H as <-. auto.
Qed.

Lemma generatedResume_create_tables row db db' :
  generatedResume_create row db = Ok db' ->
  users db' = users db
  /\ generatedResumes db' = row :: generatedResumes db
  /\ hash_stored (contentHash row) db = false.
Proof.
  unfold generatedResume_create. destruct (existsb _ _); [discriminate |].
  destruct (hash_stored (contentHash row) db) eqn:Hh; [discriminate |].
  intros H; injection H as <-. auto.
Qed.

(** The unique [contentHash] refuses a second row. *)
Lemma generatedResume_create_conflict row db :
  hash_stored (contentHash row) db = true ->
  exists e, generatedResume_create row db = Throw e.
Proof.
  intros Hh. unfold generatedResume_create. rewrite Hh.
  destruct (existsb _ _); eauto.
Qed.

Lemma hash_stored_tables h db db' :
  generatedResumes db' = generatedResumes db ->
  hash_stored h db' = hash_stored h db.
Proof. unfold hash_stored. by intros ->. Qed.

(** *** The inner [try] block *)

(** [store] keeps the accounts and every stored resume; it adds at most one
    resume, the one of this request, and only under a new [contentHash]. *)
Lemma store_tables db w p db' llmCallId generatedResumeId :
  store db w p = (db', llmCallId, generatedResumeId) ->
  users db' = users db
  /\ ((generatedResumes db' = generatedResumes db /\ generatedResumeId = None)
      \/ exists d,
           generatedResumes db' = generatedResume_row w p d :: generatedResumes db
           /\ hash_stored (p_contentHash p) db = false
           /\ generatedResumeId = Some (cuid_generatedResume w)).
Proof.
  unfold store.
  destruct (llmCall_create _ db) as [db1 |] eqn:H1;
    [| intros H; injection H as <- <- <-; auto].
  apply llmCall_create_tables in H1 as [Hu1 Hg1].
  destruct (llmMessage_create _ db1) as [db2 |] eqn:H2;
    [| intros H; injection H as <- <- <-; auto].
  apply llmMessage_create_tables in H2 as [Hu2 Hg2].
  destruct (p_extractedData p) as [d |];
    [| intros H; injection H as <- <- <-; split; [congruence | left; split; congruence]].
  destruct (llmMessage_create _ db2) as [db3 |] eqn:H3;
    [| intros H; injection H as <- <- <-; split; [congruence | left; split; congruence]].
  apply llmMessage_create_tables in H3 as [Hu3 Hg3].
  destruct (generatedResume_create _ db3) as [db4 |] eqn:H4;
    intros H; injection H as <- <- <-.
  - apply generatedResume_create_tables in H4 as [Hu4 [Hg4 Hh4]].
    split; [congruence |]. right. exists d.
    split; [congruence |]. split; [| reflexivity].
    cbn [generatedResume_row contentHash] in Hh4.
    rewrite <- Hh4. symmetry. apply hash_stored_tables. congruence.
  - split; [congruence | left; split; congruence].
Qed.

(** When the [contentHash] is already stored, [store] adds no resume and
    leaves [generatedResumeId] at [null]. *)
Lemma store_conflict db w p :
  hash_stored (p_contentHash p) db = true ->
  exists db' llmCallId,
    store db w p = (db', llmCallId, None)
    /\ users db' = users db
    /\ generatedResumes db' = generatedResumes db.
Proof.
  intros Hh. destruct (store db w p) as [[db' llmCallId] generatedResumeId] eqn:Hs.
  destruct (store_tables _ _ _ _ _ _ Hs) as [Hu [[Hg ->] | [d [_ [Hfree _]]]]].
  - eauto.
  - congruence.
Qed.

(** *** The cache probe *)

Lemma probe_inl_success db request response :
  probe db request = Ok (inl response) ->
  succeeded response = true ->
  cached response = Some true.
Proof.
  unfold probe.
  destruct (session_email request) as [e |]; [| intros [= <-]; done].
  destruct (String.eqb e EmptyString); [intros [= <-]; done |].
  destruct (json request) as [body |]; cbn [bind]; [| discriminate].
  destruct (resumeText body) as [text |]; [| intros [= <-]; done].
  destruct (String.eqb text EmptyString); [intros [= <-]; done |].
  destruct (user_findUnique e db) as [found |]; [| intros [= <-]; done].
  destruct (if default false (bypassCache body) then None else _);
    intros [= <-]; done.
Qed.

(** The key a missed probe carries is the key of the request body. *)
Lemma probe_miss_hash db request body m :
  json request = Ok body ->
  probe db request = Ok (inr m) ->
  m_contentHash m = request_hash body.
Proof.
  intros Hb. unfold probe, request_hash. rewrite Hb. cbn [bind].
  destruct (session_email request) as [e |]; [| discriminate].
  destruct (String.eqb e EmptyString); [discriminate |].
  destruct (resumeText body) as [text |]; [| discriminate].
  destruct (String.eqb text EmptyString); [discriminate |].
  destruct (user_findUnique e db) as [found |]; [| discriminate].
  destruct (if default false (bypassCache body) then None else _); [discriminate |].
  intros [= <-]; done.
Qed.

(** [probe], with the two tests on [resumeText] read as one test on
    [resumeText || '']. *)
Lemma probe_normal_form db request :
  probe db request
  = match session_email request with
    | None => Ok (inl (ErrorJson 401 "Authentication required"))
    | Some e =>
        if String.eqb e EmptyString
        then Ok (inl (ErrorJson 401 "Authentication required"))
        else
          let* body := json request in
          if String.eqb (or_empty (resumeText body)) EmptyString
          then Ok (inl (ErrorJson 400 "Resume text is required"))
          else
            match user_findUnique e db with
            | None => Ok (inl (ErrorJson 404 "User not found"))
            | Some found =>
                match (if default false (bypassCache body) then None
                       else generatedResume_findFirst (id found)
                              (request_hash body) db) with
                | Some existingResume => Ok (inl (cached_response existingResume))
                | None =>
                    Ok (inr {| m_user := found;
                               m_body := body;
                               m_truncatedResumeText :=
                                 truncate (or_empty (resumeText body));
                               m_contentHash := request_hash body |})
                end
            end
    end.
Proof.
  unfold probe, request_hash.
  destruct (session_email request) as [e |]; [| reflexivity].
  destruct (String.eqb e EmptyString); [reflexivity |].
  destruct (json request) as [body |]; [| reflexivity]. cbn [bind].
  destruct (resumeText body) as [text |]; [| reflexivity].
  change (or_empty (Some text)) with text.
  destruct (String.eqb text EmptyString); reflexivity.
Qed.

Lemma request_hash_normalized body1 body2 :
  same_normalized_inputs body1 body2 -> request_hash body1 = request_hash body2.
Proof.
  intros [Ht [Hj Ha]]. unfold request_hash, contentHash_of. by rewrite Ht, Hj, Ha.
Qed.

Lemma normalized_empty body1 body2 :
  same_normalized_inputs body1 body2 ->
  String.eqb (or_empty (resumeText body1)) EmptyString
  = String.eqb (or_empty (resumeText body2)) EmptyString.
Proof. intros [Ht _]. by apply ContentHashSpec.truncate_empty. Qed.

(** A probe that hit hits again for the same normalized inputs. *)
Lemma probe_hit_again db request1 request2 body1 body2 response :
  session_email request1 = session_email request2 ->
  json request1 = Ok body1 ->
  json request2 = Ok body2 ->
  same_normalized_inputs body1 body2 ->
  default false (bypassCache body1) = false ->
  default false (bypassCache body2) = false ->
  probe db request1 = Ok (inl response) ->
  succeeded response = true ->
  probe db request2 = Ok (inl response).
Proof.
  intros Hs Hb1 Hb2 Hn Hby1 Hby2. rewrite !probe_normal_form, <- Hs, Hb1, Hb2.
  cbn [bind]. rewrite <- (normalized_empty _ _ Hn), Hby1, Hby2.
  rewrite <- (request_hash_normalized _ _ Hn).
  destruct (session_email request1) as [e |]; [| intros [= <-]; discriminate].
  destruct (String.eqb e EmptyString); [intros [= <-]; discriminate |].
  destruct (String.eqb _ EmptyString); [intros [= <-]; discriminate |].
  destruct (user_findUnique e db) as [found |]; [| intros [= <-]; discriminate].
  destruct (generatedResume_findFirst _ _ db); [auto | discriminate].
Qed.

(** A probe that missed hits once the row of that request is stored. *)
Lemma probe_after_store db db' request1 request2 body1 body2 m row :
  session_email request1 = session_email request2 ->
  json request1 = Ok body1 ->
  json request2 = Ok body2 ->
  same_normalized_inputs body1 body2 ->
  default false (bypassCache body2) = false ->
  probe db request1 = Ok (inr m) ->
  users db' = users db ->
  generatedResumes db' = row :: generatedResumes db ->
  resume_userId row = Some (id (m_user m)) ->
  contentHash row = m_contentHash m ->
  probe db' request2 = Ok (inl (cached_response row)).
Proof.
  intros Hs Hb1 Hb2 Hn Hby2 Hmiss Hu Hg Howner Hhash. revert Hmiss.
  rewrite !probe_normal_form, <- Hs, Hb1, Hb2. cbn [bind].
  rewrite <- (normalized_empty _ _ Hn), Hby2.
  rewrite <- (request_hash_normalized _ _ Hn).
  unfold user_findUnique, generatedResume_findFirst. rewrite Hu, Hg.
  destruct (session_email request1) as [e |]; [| discriminate].
  destruct (String.eqb e EmptyString); [discriminate |].
  destruct (String.eqb _ EmptyString); [discriminate |].
  destruct (UserService.find_by_email (users db) e) as [found |]; [| discriminate].
  destruct (if default false (bypassCache body1) then None else _); [discriminate |].
  intros [= <-]. cbn [m_user m_contentHash] in *.
  cbn [List.find]. unfold owned_with_hash at 1.
  by rewrite Howner, Hhash, !String.eqb_refl.
Qed.

Lemma generate_keeps w m p :
  generate w m = Ok p ->
  p_user p = m_user m /\ p_contentHash p = m_contentHash m.
Proof.
  unfold generate. intros H.
  repeat ATSScoreSpec.bind_inv H.
  revert H. by intros [= <-].
Qed.

(** *** The route *)

(** C4, as the code has it.  For two requests with the same normalized
    inputs (resume text, job description, template and analysis id) from the
    same user, neither with [bypassCache], where the first succeeded and
    answered with an artifact id (its row was stored, or it was itself
    served from the cache), the second answers [cached: true] with that
    same [resumeId], and writes nothing. *)
Theorem second_request_is_cached db w1 w2 request1 request2 body1 body2 resume :
  session_email request1 = session_email request2 ->
  json request1 = Ok body1 ->
  json request2 = Ok body2 ->
  same_normalized_inputs body1 body2 ->
  default false (bypassCache body1) = false ->
  default false (bypassCache body2) = false ->
  succeeded (snd (POST db w1 request1)) = true ->
  resumeId (snd (POST db w1 request1)) = Some resume ->
  exists second,
    POST (fst (POST db w1 request1)) w2 request2
    = (fst (POST db w1 request1), second)
    /\ cached second = Some true
    /\ resumeId second = Some resume.
Proof.
  intros Hs Hb1 Hb2 Hn Hby1 Hby2. unfold POST, POST_interleaved, prepare.
  destruct (probe db request1) as [[response | m] |] eqn:Hp; cbn [bind fst snd].
  - intros Hok Hid.
    rewrite (probe_hit_again _ _ _ _ _ _ Hs Hb1 Hb2 Hn Hby1 Hby2 Hp Hok).
    cbn [bind]. exists response.
    split; [reflexivity |]. split; [by eapply probe_inl_success | exact Hid].
  - destruct (generate w1 m) as [p |] eqn:Hgen; cbn [bind fst snd];
      [| discriminate].
    unfold persist.
    destruct (store db w1 p) as [[db1 llmCallId] generatedResumeId] eqn:Hst.
    cbn [fst snd succeeded resumeId]. intros _ ->.
    destruct (store_tables _ _ _ _ _ _ Hst) as [Hu [[_ Hnone] | [d [Hg [_ Hid]]]]];
      [discriminate |].
    injection Hid as ->.
    destruct (generate_keeps _ _ _ Hgen) as [Huser Hhash].
    rewrite (probe_after_store db db1 request1 request2 body1 body2 m
               (generatedResume_row w1 p d) Hs Hb1 Hb2 Hn Hby2 Hp Hu Hg);
      cbn [bind].
    + eexists. split; [reflexivity |]. split; reflexivity.
    + cbn. by rewrite Huser.
    + exact Hhash.
  - discriminate.
Qed.

(** Ada's text is optimized and stored; she sends it again, this time with
    an empty analysis id instead of none. *)
Lemma second_request_is_cached_witness :
  let first_request :=
    Scenarios.request_of Scenarios.ada
      (Scenarios.body_with Scenarios.resume_text None) in
  let second_request := Scenarios.request_of Scenarios.ada Scenarios.body_again in
  same_normalized_inputs (Scenarios.body_with Scenarios.resume_text None)
    Scenarios.body_again
  /\ succeeded (snd (POST Scenarios.accounts (Scenarios.world "1") first_request))
     = true
  /\ resumeId (snd (POST Scenarios.accounts (Scenarios.world "1") first_request))
     = Some "resume-1"
  /\ exists second,
      POST (fst (POST Scenarios.accounts (Scenarios.world "1") first_request))
        (Scenarios.world "2") second_request
      = (fst (POST Scenarios.accounts (Scenarios.world "1") first_request), second)
      /\ cached second = Some true
      /\ resumeId second = Some "resume-1".
Proof.
  intros first_request second_request.
  assert (Hn : same_normalized_inputs
                 (Scenarios.body_with Scenarios.resume_text None)
                 Scenarios.body_again)
    by (repeat split; vm_compute; reflexivity).
  assert (Hok : succeeded
                  (snd (POST Scenarios.accounts (Scenarios.world "1") first_request))
                = true) by (vm_compute; reflexivity).
  assert (Hid : resumeId
                  (snd (POST Scenarios.accounts (Scenarios.world "1") first_request))
                = Some "resume-1") by (vm_compute; reflexivity).
  split; [exact Hn |]. split; [exact Hok |]. split; [exact Hid |].
  exact (second_request_is_cached Scenarios.accounts (Scenarios.world "1")
           (Scenarios.world "2") first_request second_request
           (Scenarios.body_with Scenarios.resume_text None) Scenarios.body_again
           "resume-1" eq_refl eq_refl eq_refl Hn eq_refl eq_refl Hok Hid).
Defined.

(** C4 as stated fails.  Grace has had the same text optimized, so its
    [contentHash] is stored under her account.  Ada's first request misses
    the cache, which is probed by user, and succeeds; its row is refused by
    the unique [contentHash] and the handler goes on.  Ada's second request
    misses again. *)
Lemma second_request_not_cached :
  let request :=
    Scenarios.request_of Scenarios.ada
      (Scenarios.body_with Scenarios.resume_text None) in
  let first := POST Scenarios.after_grace (Scenarios.world "2") request in
  let second := POST (fst first) (Scenarios.world "3") request in
  succeeded (snd first) = true
  /\ resumeId (snd first) = None
  /\ cached (snd second) = Some false.
Proof. vm_compute. auto. Qed.

(** The methods of [UserService] do not touch the stored resumes. *)
Lemma run_generatedResumes now call db :
  generatedResumes (UserService.run now call db) = generatedResumes db.
Proof.
  destruct call as [cuid e n | userId | userId | userId d]; cbn [UserService.run].
  - unfold UserService.findOrCreate.
    destruct (UserService.find_by_email _ _); [reflexivity |].
    destruct (users db !! cuid); reflexivity.
  - unfold UserService.checkRoastLimit, UserService.user_update.
    destruct (users db !! userId) as [u |]; [| reflexivity].
    destruct (UserService.monthsElapsed _ _ >=? 1)%Z; reflexivity.
  - unfold UserService.incrementRoastCount, UserService.user_update.
    destruct (users db !! userId) as [u |]; [| reflexivity].
    destruct (_ && _); reflexivity.
  - unfold UserService.updateSubscription, UserService.user_update.
    destruct (users db !! userId); reflexivity.
Qed.

(** A run of the handler leaves the accounts as they are. *)
Lemma POST_users db db_later w request :
  users (fst (POST_interleaved db db_later w request)) = users db_later.
Proof.
  unfold POST_interleaved.
  destruct (prepare db w request) as [[response | p] |]; cbn [fst]; auto.
  unfold persist.
  destruct (store db_later w p) as [[db' llmCallId] generatedResumeId] eqn:Hs.
  cbn [fst]. by destruct (store_tables _ _ _ _ _ _ Hs) as [Hu _].
Qed.

(** A run of the handler keeps every stored resume and adds at most one,
    under a [contentHash] that was not stored. *)
Lemma POST_generatedResumes db db_later w request :
  generatedResumes (fst (POST_interleaved db db_later w request))
  = generatedResumes db_later
  \/ exists row,
       generatedResumes (fst (POST_interleaved db db_later w request))
       = row :: generatedResumes db_later
       /\ hash_stored (contentHash row) db_later = false.
Proof.
  unfold POST_interleaved.
  destruct (prepare db w request) as [[response | p] |]; cbn [fst]; auto.
  unfold persist.
  destruct (store db_later w p) as [[db' llmCallId] generatedResumeId] eqn:Hs.
  cbn [fst].
  destruct (store_tables _ _ _ _ _ _ Hs) as [_ [[Hg _] | [d [Hg [Hfree _]]]]];
    [auto |].
  right. exists (generatedResume_row w p d). auto.
Qed.

Lemma prepare_hash db w request body p :
  json request = Ok body ->
  prepare db w request = Ok (inr p) ->
  p_contentHash p = request_hash body.
Proof.
  intros Hb. unfold prepare.
  destruct (probe db request) as [[response | m] |] eqn:Hp; cbn [bind];
    [discriminate | | discriminate].
  destruct (generate w m) as [p' |] eqn:Hgen; cbn [bind]; [| discriminate].
  intros [= <-]. destruct (generate_keeps _ _ _ Hgen) as [_ ->].
  by eapply probe_miss_hash.
Qed.

(** *** The operations that delete *)

Lemma kept_row_same before after row : Operations.kept_row before after row row.
Proof. unfold Operations.kept_row. repeat split; auto. Qed.

Lemma kept_rows_same before after rows :
  Forall2 (Operations.kept_row before after) rows rows.
Proof. induction rows; constructor; [apply kept_row_same | assumption]. Qed.

(** A row whose columns are all kept is the row itself. *)
Lemma kept_row_eq before after old new :
  Operations.extracted_kept before after ->
  Operations.kept_row before after old new -> new = old.
Proof.
  intros Hk (H1 & H2 & H3 & H4 & H5 & H6 & H7 & H8 & H9 & H10 & H11).
  assert (He : extractedResumeId new = extractedResumeId old).
  { destruct H11 as [He | [_ [er [_ [Hb Ha]]]]]; [exact He |].
    rewrite (Hk er Hb) in Ha. discriminate Ha. }
  destruct old, new. cbn in *. by subst.
Qed.

Lemma kept_rows_eq before after rows rows' :
  Operations.extracted_kept before after ->
  Forall2 (Operations.kept_row before after) rows rows' -> rows' = rows.
Proof.
  intros Hk H. induction H as [| old new rows rows' Hrow _ IH]; [reflexivity |].
  by rewrite (kept_row_eq _ _ _ _ Hk Hrow), IH.
Qed.

Lemma listed_In ids i : Tables.listed ids i = true <-> In i ids.
Proof.
  unfold Tables.listed. rewrite existsb_exists. split.
  - intros [x [Hx He]]. apply String.eqb_eq in He. by subst.
  - intros H. exists i. split; [exact H | apply String.eqb_refl].
Qed.

(** After the deletion, none of the deleted extracted resumes is stored. *)
Lemma delete_extractedResumes_gone deleted t er :
  Tables.listed deleted er = true ->
  Operations.extracted_stored er (Tables.delete_extractedResumes deleted t) = false.
Proof.
  intros Hl. unfold Operations.extracted_stored, Tables.delete_extractedResumes.
  cbn [Tables.extractedResumes].
  destruct (existsb _ _) eqn:He; [| reflexivity].
  apply existsb_exists in He as [e [Hin Heq]].
  apply filter_In in Hin as [_ Hn]. apply String.eqb_eq in Heq.
  rewrite Heq, Hl in Hn. discriminate Hn.
Qed.

(** What the deletion of extracted resumes does to the stored artifacts. *)
Lemma delete_extractedResumes_rows deleted t before :
  (forall er, Tables.listed deleted er = true ->
              Operations.extracted_stored er before = true) ->
  Forall2 (Operations.kept_row before (Tables.delete_extractedResumes deleted t))
          (generatedResumes (Tables.db t))
          (generatedResumes (Tables.db (Tables.delete_extractedResumes deleted t))).
Proof.
  intros Hstored.
  change (generatedResumes (Tables.db (Tables.delete_extractedResumes deleted t)))
    with (List.map (Tables.detach deleted) (generatedResumes (Tables.db t))).
  induction (generatedResumes (Tables.db t)) as [| row rows IH];
    cbn [List.map]; constructor; [| exact IH].
  unfold Tables.detach.
  destruct (extractedResumeId row) as [er |] eqn:Her; [| apply kept_row_same].
  destruct (Tables.listed deleted er) eqn:Hl; [| apply kept_row_same].
  unfold Operations.kept_row.
  cbn [resume_id resume_userId roastId extractedResumeId extractedJobId templateId
       contentHash content data atsScore keywordsMatched].
  repeat split; try reflexivity.
  right. split; [reflexivity |]. exists er. split; [exact Her |].
  split; [by apply Hstored | by apply delete_extractedResumes_gone].
Qed.

Lemma delete_resumes_rows doomed t :
  Forall2 (Operations.kept_row t (Tables.delete_resumes doomed t))
          (generatedResumes (Tables.db t))
          (generatedResumes (Tables.db (Tables.delete_resumes doomed t))).
Proof.
  unfold Tables.delete_resumes.
  match goal with
  | |- context [Tables.delete_extractedResumes ?ids ?t0] =>
      apply (delete_extractedResumes_rows ids t0 t)
  end.
  intros er Hl. apply listed_In, in_map_iff in Hl as [e [<- He]].
  apply filter_In in He as [He _].
  unfold Operations.extracted_stored. apply existsb_exists.
  exists e. split; [exact He | apply String.eqb_refl].
Qed.

Lemma delete_where_rows selected t :
  Forall2 (Operations.kept_row t (fst (ResumeService.delete_where selected t)))
          (generatedResumes (Tables.db t))
          (generatedResumes (Tables.db (fst (ResumeService.delete_where selected t)))).
Proof.
  unfold ResumeService.delete_where.
  destruct (List.find selected (Tables.resumes t)); cbn [fst];
    [apply delete_resumes_rows | apply kept_rows_same].
Qed.

Lemma extractedResume_delete_rows id t :
  Forall2 (Operations.kept_row t (fst (ExtractedResumeService.delete id t)))
          (generatedResumes (Tables.db t))
          (generatedResumes (Tables.db (fst (ExtractedResumeService.delete id t)))).
Proof.
  unfold ExtractedResumeService.delete.
  destruct (List.find _ (Tables.extractedResumes t)) as [e |] eqn:Hf; cbn [fst];
    [| apply kept_rows_same].
  apply delete_extractedResumes_rows. intros er Hl.
  apply listed_In in Hl. destruct Hl as [<- | []].
  apply List.find_some in Hf as [Hin He].
  unfold Operations.extracted_stored. apply existsb_exists. eauto.
Qed.

Lemma resume_create_rows cuid now data t :
  generatedResumes (Tables.db (fst (ResumeService.create cuid now data t)))
  = generatedResumes (Tables.db t).
Proof.
  unfold ResumeService.create.
  repeat match goal with
         | |- context [if ?c then _ else _] => destruct c; cbn [fst]; try reflexivity
         end.
Qed.

Lemma extractedResume_create_rows cuid now data t :
  generatedResumes (Tables.db (fst (ExtractedResumeService.create cuid now data t)))
  = generatedResumes (Tables.db t).
Proof.
  unfold ExtractedResumeService.create.
  repeat match goal with
         | |- context [if ?c then _ else _] => destruct c; cbn [fst]; try reflexivity
         end.
Qed.

(** What an operation does to the table of stored artifacts. *)
Lemma apply_rows op t :
  exists added kept,
    generatedResumes (Tables.db (Operations.apply op t)) = (added ++ kept)%list
    /\ Forall2 (Operations.kept_row t (Operations.apply op t))
               (generatedResumes (Tables.db t)) kept
    /\ (added = []
        \/ exists row,
             added = [row]
             /\ hash_stored (contentHash row) (Tables.db t) = false).
Proof.
  destruct op as [now call | db_read w request | cuid now data | cutoffDate
                  | resumeId | fileHash | cuid now data | id | calls messages];
    cbn [Operations.apply].
  - exists [], (generatedResumes (Tables.db t)). cbn [Tables.with_db Tables.db app].
    split; [apply run_generatedResumes |]. split; [apply kept_rows_same | by left].
  - cbn [Tables.with_db Tables.db].
    destruct (POST_generatedResumes db_read (Tables.db t) w request)
      as [Hsame | [row [Hrow Hfree]]].
    + exists [], (generatedResumes (Tables.db t)).
      split; [exact Hsame |]. split; [apply kept_rows_same | by left].
    + exists [row], (generatedResumes (Tables.db t)).
      split; [exact Hrow |]. split; [apply kept_rows_same | right; eauto].
  - exists [], (generatedResumes (Tables.db t)).
    split; [apply resume_create_rows |]. split; [apply kept_rows_same | by left].
  - exists [], (generatedResumes
                  (Tables.db (fst (ResumeService.deleteOldResumes cutoffDate t)))).
    split; [reflexivity |]. split; [apply delete_resumes_rows | by left].
  - exists [], (generatedResumes
                  (Tables.db (fst (ResumeService.deleteById resumeId t)))).
    split; [reflexivity |]. split; [apply delete_where_rows | by left].
  - exists [], (generatedResumes
                  (Tables.db (fst (ResumeService.deleteByHash fileHash t)))).
    split; [reflexivity |]. split; [apply delete_where_rows | by left].
  - exists [], (generatedResumes (Tables.db t)).
    split; [apply extractedResume_create_rows |].
    split; [apply kept_rows_same | by left].
  - exists [], (generatedResumes
                  (Tables.db (fst (ExtractedResumeService.delete id t)))).
    split; [reflexivity |]. split; [apply extractedResume_delete_rows | by left].
  - exists [], (generatedResumes (Tables.db t)).
    split; [reflexivity |]. split; [apply kept_rows_same | by left].
Qed.

(** C5, as the code has it.  No operation removes a stored
    [GeneratedResume] row or changes its id, owner, [contentHash], content,
    data, score, keywords, template or its links to a roast and a job
    description: the methods of [UserService] leave the table as it is, and
    a run of the handler, with or without [bypassCache], leaves it as it is
    or puts one new row in front of it.  A new row is created only under a
    [contentHash] that no stored row has: when the [contentHash] of the
    request is already stored, as when a result is regenerated with
    [bypassCache = true], the existing row stays and no row is added.  One
    column of a stored row does change: when the extracted resume a row
    refers to is deleted ([ExtractedResumeService.delete], or a deletion of
    [ResumeService] that cascades to it), the schema sets the row's
    [extractedResumeId] to [null].  An operation that deletes no extracted
    resume leaves every stored row exactly as it is. *)
Theorem generatedResume_rows_are_kept :
  (forall now call db,
      generatedResumes (UserService.run now call db) = generatedResumes db)
  /\ (forall db db_later w request,
         generatedResumes (fst (POST_interleaved db db_later w request))
         = generatedResumes db_later
         \/ exists row,
              generatedResumes (fst (POST_interleaved db db_later w request))
              = row :: generatedResumes db_later
              /\ hash_stored (contentHash row) db_later = false)
  /\ (forall db db_later w request body,
         json request = Ok body ->
         hash_stored (request_hash body) db_later = true ->
         generatedResumes (fst (POST_interleaved db db_later w request))
         = generatedResumes db_later)
  /\ (forall op t,
         exists added kept,
           generatedResumes (Tables.db (Operations.apply op t))
           = (added ++ kept)%list
           /\ Forall2 (Operations.kept_row t (Operations.apply op t))
                      (generatedResumes (Tables.db t)) kept
           /\ (added = []
               \/ exists row,
                    added = [row]
                    /\ hash_stored (contentHash row) (Tables.db t) = false))
  /\ (forall op t,
         Operations.extracted_kept t (Operations.apply op t) ->
         exists added,
           generatedResumes (Tables.db (Operations.apply op t))
           = (added ++ generatedResumes (Tables.db t))%list).
Proof.
  split; [apply run_generatedResumes |]. split; [apply POST_generatedResumes |].
  split; [| split].
  - intros db db_later w request body Hb Hstored.
    destruct (POST_generatedResumes db db_later w request)
      as [Hsame | [row [Hrow Hfree]]]; [exact Hsame |].
    exfalso. revert Hrow. unfold POST_interleaved.
    destruct (prepare db w request) as [[response | p] |] eqn:Hp; cbn [fst];
      try (intros Hrow; apply (f_equal (@List.length _)) in Hrow; cbn in Hrow; lia).
    unfold persist.
    destruct (store db_later w p) as [[db' llmCallId] generatedResumeId] eqn:Hs.
    cbn [fst]. rewrite <- (prepare_hash _ _ _ _ _ Hb Hp) in Hstored.
    destruct (store_conflict db_later w p Hstored) as [db2 [l2 [Hs2 [_ Hg2]]]].
    rewrite Hs in Hs2. injection Hs2 as -> _ _. rewrite Hg2.
    intros Hrow; apply (f_equal (@List.length _)) in Hrow; cbn in Hrow; lia.
  - apply apply_rows.
  - intros op t Hk. destruct (apply_rows op t) as [added [kept [Hrows [Hkept _]]]].
    exists added. by rewrite Hrows, (kept_rows_eq _ _ _ _ Hk Hkept).
Qed.

Lemma generatedResume_rows_are_kept_witness :
  let body := Scenarios.body_with Scenarios.resume_text (Some true) in
  let request := Scenarios.request_of Scenarios.ada body in
  json request = Ok body
  /\ hash_stored (request_hash body) Scenarios.after_ada = true
  /\ generatedResumes
       (fst (POST_interleaved Scenarios.after_ada Scenarios.after_ada
               (Scenarios.world "2") request))
     = generatedResumes Scenarios.after_ada
  /\ exists kept,
       generatedResumes
         (Tables.db (Operations.apply (Operations.ResumeDeleteById "file-1")
                       Fixtures.library)) = kept
       /\ Forall2 (Operations.kept_row Fixtures.library
                     (Operations.apply (Operations.ResumeDeleteById "file-1")
                        Fixtures.library))
                  [Fixtures.optimized] kept.
Proof.
  intros body request.
  assert (Hb : json request = Ok body) by reflexivity.
  assert (Hs : hash_stored (request_hash body) Scenarios.after_ada = true)
    by (vm_compute; reflexivity).
  split; [exact Hb |]. split; [exact Hs |]. split.
  - exact (proj1 (proj2 (proj2 generatedResume_rows_are_kept))
             Scenarios.after_ada Scenarios.after_ada (Scenarios.world "2")
             request body Hb Hs).
  - destruct (proj1 (proj2 (proj2 (proj2 generatedResume_rows_are_kept)))
                (Operations.ResumeDeleteById "file-1") Fixtures.library)
      as [added [kept [Hrows [Hkept Hadded]]]].
    exists kept. split; [| exact Hkept].
    rewrite Hrows.
    destruct Hadded as [-> | [row [-> _]]]; [reflexivity |].
    apply (f_equal (@List.length _)) in Hrows.
    apply Forall2_length in Hkept. cbn in Hrows, Hkept.
    rewrite <- Hkept in Hrows. vm_compute in Hrows. discriminate Hrows.
Defined.

(** C5 as stated fails in its first half as well.  An optimized resume
    that refers to an extracted resume is stored; the uploaded resume behind
    that extraction is deleted.  The stored row is still there, but it is not
    the row that was created: its [extractedResumeId] has become [null].
    The same happens when the extracted resume is deleted directly. *)
Lemma stored_row_loses_its_extraction :
  generatedResumes (Tables.db Fixtures.library) = [Fixtures.optimized]
  /\ extractedResumeId Fixtures.optimized = Some "extracted-1"
  /\ (exists row,
        generatedResumes
          (Tables.db (Operations.apply (Operations.ResumeDeleteById "file-1")
                        Fixtures.library)) = [row]
        /\ resume_id row = resume_id Fixtures.optimized
        /\ extractedResumeId row = None
        /\ row <> Fixtures.optimized)
  /\ (exists row,
        generatedResumes
          (Tables.db (Operations.apply (Operations.ExtractedResumeDelete "extracted-1")
                        Fixtures.library)) = [row]
        /\ extractedResumeId row = None
        /\ row <> Fixtures.optimized).
Proof.
  split; [reflexivity |]. split; [reflexivity |]. split.
  - eexists. split; [vm_compute; reflexivity |].
    split; [reflexivity |]. split; [reflexivity | discriminate].
  - eexists. split; [vm_compute; reflexivity |].
    split; [reflexivity | discriminate].
Qed.

(** C5 as stated fails.  Ada's text has been optimized and stored; she asks
    again with [bypassCache = true].  The handler runs the model and
    succeeds, and the table holds the same single row as before: no new row
    was created. *)
Lemma bypassCache_creates_no_row :
  let body := Scenarios.body_with Scenarios.resume_text (Some true) in
  let answer :=
    POST Scenarios.after_ada (Scenarios.world "2")
      (Scenarios.request_of Scenarios.ada body) in
  hash_stored (request_hash body) Scenarios.after_ada = true
  /\ succeeded (snd answer) = true
  /\ cached (snd answer) = Some false
  /\ generatedResumes (fst answer) = generatedResumes Scenarios.after_ada
  /\ List.length (generatedResumes (fst answer)) = 1%nat.
Proof. vm_compute. auto 6. Qed.

(** C8, as the code has it.  When the creation of the [GeneratedResume] row
    is refused because its [contentHash] is already stored (another request
    won the race), the conflict is caught by the inner [catch] and is not
    propagated: the request answers with success, with the data it generated
    itself, [cached: false] and [resumeId: null], and the table of stored
    resumes is left as it is.  The winning row is not read again. *)
Theorem uniqueness_conflict_is_swallowed db db_later w request p :
  prepare db w request = Ok (inr p) ->
  hash_stored (p_contentHash p) db_later = true ->
  exists db' llmCallId,
    POST_interleaved db db_later w request
    = (db',
       SuccessJson (p_extractedData p) false None
         (Generated (p_tokensUsed p) (p_processingTime p) (p_estimatedCost p)
                    (p_atsScore p) (p_keywordsMatched p) llmCallId))
    /\ generatedResumes db' = generatedResumes db_later.
Proof.
  intros Hp Hstored. unfold POST_interleaved, persist. rewrite Hp.
  destruct (store_conflict db_later w p Hstored) as [db' [llmCallId [Hs [_ Hg]]]].
  rewrite Hs. eauto.
Qed.

Lemma uniqueness_conflict_is_swallowed_witness :
  let request :=
    Scenarios.request_of Scenarios.ada
      (Scenarios.body_with Scenarios.resume_text None) in
  match prepare Scenarios.accounts (Scenarios.world "2") request with
  | Ok (inr p) =>
      hash_stored (p_contentHash p) Scenarios.after_ada = true
      /\ exists db' llmCallId,
          POST_interleaved Scenarios.accounts Scenarios.after_ada
            (Scenarios.world "2") request
          = (db',
             SuccessJson (p_extractedData p) false None
               (Generated (p_tokensUsed p) (p_processingTime p)
                          (p_estimatedCost p) (p_atsScore p)
                          (p_keywordsMatched p) llmCallId))
          /\ generatedResumes db' = generatedResumes Scenarios.after_ada
  | _ => False
  end.
Proof.
  intros request.
  destruct (prepare Scenarios.accounts (Scenarios.world "2") request)
    as [[response | p] |] eqn:Hp.
  - vm_compute in Hp. discriminate Hp.
  - assert (Hs : hash_stored (p_contentHash p) Scenarios.after_ada = true).
    { pose proof Hp as Hp'. vm_compute in Hp'. injection Hp' as <-.
      vm_compute. reflexivity. }
    split; [exact Hs |].
    exact (uniqueness_conflict_is_swallowed Scenarios.accounts
             Scenarios.after_ada (Scenarios.world "2") request p Hp Hs).
  - vm_compute in Hp. discriminate Hp.
Defined.

(** C8 as stated fails.  Two identical requests of Ada race: this one
    probes the cache before the other has stored its row [resume-1], and
    writes after it.  Its creation is refused; the answer is its own, with
    [resumeId: null], and not the stored row. *)
Lemma race_loser_does_not_return_the_stored_row :
  let body := Scenarios.body_with Scenarios.resume_text None in
  let answer :=
    POST_interleaved Scenarios.accounts Scenarios.after_ada (Scenarios.world "2")
      (Scenarios.request_of Scenarios.ada body) in
  resume_id <$> generatedResume_findFirst (id Scenarios.ada) (request_hash body)
                  Scenarios.after_ada
  = Some "resume-1"
  /\ succeeded (snd answer) = true
  /\ cached (snd answer) = Some false
  /\ resumeId (snd answer) = None.
Proof. vm_compute. auto. Qed.

End CacheSpec.

(** ** The usage ledger *)

Module UserServiceSpec.
Import JS Schema UserService.

Lemma users_with_users db us : users (with_users db us) = us.
Proof. reflexivity. Qed.

Lemma months_geb now last :
  (monthsElapsed now last >=? 1)%Z = true <-> 1 <= monthsElapsed now last.
Proof. rewrite Z.geb_leb. apply Z.leb_le. Qed.

Lemma months_geb_false now last :
  (monthsElapsed now last >=? 1)%Z = false <-> monthsElapsed now last < 1.
Proof. rewrite Z.geb_leb. apply Z.leb_gt. Qed.

(** [checkRoastLimit] when the calendar month has advanced. *)
Lemma checkRoastLimit_rollover now userId db u :
  users db !! userId = Some u ->
  1 <= monthsElapsed now (lastRoastReset u) ->
  checkRoastLimit now userId db
  = (with_users db (<[userId := reset_monthly now u]> (users db)),
     Ok (roast_limit (subscriptionTier u) 0)).
Proof.
  intros Hu Hm. unfold checkRoastLimit, user_update. rewrite Hu.
  apply months_geb in Hm. rewrite Hm. reflexivity.
Qed.

(** [checkRoastLimit] within the month of the last reset. *)
Lemma checkRoastLimit_same_month now userId db u :
  users db !! userId = Some u ->
  monthsElapsed now (lastRoastReset u) < 1 ->
  checkRoastLimit now userId db
  = (db, Ok (roast_limit (subscriptionTier u) (monthlyRoasts u))).
Proof.
  intros Hu Hm. unfold checkRoastLimit. rewrite Hu.
  apply months_geb_false in Hm. rewrite Hm. reflexivity.
Qed.

Lemma checkRoastLimit_answer now userId db u :
  users db !! userId = Some u ->
  snd (checkRoastLimit now userId db)
  = Ok (roast_limit (subscriptionTier u) (counter_after_rollover now u)).
Proof.
  intros Hu. unfold counter_after_rollover.
  destruct (monthsElapsed now (lastRoastReset u) >=? 1)%Z eqn:Hm.
  - apply months_geb in Hm. by rewrite (checkRoastLimit_rollover _ _ _ _ Hu Hm).
  - apply months_geb_false in Hm.
    by rewrite (checkRoastLimit_same_month _ _ _ _ Hu Hm).
Qed.

Lemma canRoast_roast_limit t monthly :
  canRoast (roast_limit t monthly) = true
  <-> (limit (roast_limit t monthly) = -1
       \/ used (roast_limit t monthly) < limit (roast_limit t monthly)).
Proof.
  unfold roast_limit; cbn [canRoast limit used].
  rewrite orb_true_iff, Z.eqb_eq, Z.ltb_lt. reflexivity.
Qed.

(** C1, as the code has it.  For every account, [checkRoastLimit] answers
    with the limit of the account's tier and the monthly counter left by the
    rollover step, and [canRoast] is true exactly when the limit is the
    sentinel [-1] or the counter is strictly below the limit.  The balance
    of bonus credits is not read: the answer is the same for every balance. *)
Theorem checkRoastLimit_canRoast now userId db u :
  users db !! userId = Some u ->
  exists r,
    snd (checkRoastLimit now userId db) = Ok r
    /\ limit r = MONTHLY_LIMITS (subscriptionTier u)
    /\ used r = counter_after_rollover now u
    /\ (canRoast r = true <-> (limit r = -1 \/ used r < limit r))
    /\ forall credits,
         snd (checkRoastLimit now userId
                (with_users db (<[userId := with_bonusCredits credits u]> (users db))))
         = Ok r.
Proof.
  intros Hu. eexists. split; [apply (checkRoastLimit_answer _ _ _ _ Hu) |].
  split; [reflexivity |]. split; [reflexivity |].
  split; [apply canRoast_roast_limit |].
  intros credits.
  rewrite (checkRoastLimit_answer now userId _ (with_bonusCredits credits u)).
  - reflexivity.
  - rewrite users_with_users. apply lookup_insert_eq.
Qed.

Lemma checkRoastLimit_canRoast_witness :
  users (Scenarios.database [Scenarios.ada_with_credits]) !! "ckv0ada"
  = Some Scenarios.ada_with_credits
  /\ exists r,
      snd (checkRoastLimit Scenarios.end_of_january "ckv0ada"
             (Scenarios.database [Scenarios.ada_with_credits])) = Ok r
      /\ (canRoast r = true <-> (limit r = -1 \/ used r < limit r)).
Proof.
  assert (Hu : users (Scenarios.database [Scenarios.ada_with_credits]) !! "ckv0ada"
               = Some Scenarios.ada_with_credits) by reflexivity.
  split; [exact Hu |].
  destruct (checkRoastLimit_canRoast Scenarios.end_of_january "ckv0ada"
              (Scenarios.database [Scenarios.ada_with_credits])
              Scenarios.ada_with_credits Hu) as [r [Hr [_ [_ [Hc _]]]]].
  exists r. split; [exact Hr | exact Hc].
Defined.

(** C1 as stated fails: a free account that has used its 3 monthly roasts
    and holds 5 bonus credits is refused. *)
Lemma checkRoastLimit_ignores_bonusCredits :
  exists r,
    snd (checkRoastLimit Scenarios.end_of_january "ckv0ada"
           (Scenarios.database [Scenarios.ada_with_credits])) = Ok r
    /\ used r = 3 /\ limit r = 3
    /\ 0 < bonusCredits Scenarios.ada_with_credits
    /\ canRoast r = false.
Proof.
  eexists. split; [vm_compute; reflexivity |]. vm_compute. auto.
Qed.

(** [db.user.update] leaves the other rows alone. *)
Lemma user_update_other userId' change db userId :
  userId' <> userId ->
  users (fst (user_update userId' change db)) !! userId = users db !! userId.
Proof.
  intros Hne. unfold user_update.
  destruct (users db !! userId'); cbn [fst]; [| reflexivity].
  rewrite users_with_users. by apply lookup_insert_ne.
Qed.

Lemma user_update_same userId change db u :
  users db !! userId = Some u ->
  users (fst (user_update userId change db)) !! userId = Some (change u).
Proof.
  intros Hu. unfold user_update. rewrite Hu. cbn [fst].
  rewrite users_with_users. apply lookup_insert_eq.
Qed.

(** An update whose change does not lower the monthly counter. *)
Lemma user_update_counter userId' change db userId u :
  (forall x, monthlyRoasts x <= monthlyRoasts (change x)) ->
  users db !! userId = Some u ->
  exists u',
    users (fst (user_update userId' change db)) !! userId = Some u'
    /\ monthlyRoasts u <= monthlyRoasts u'.
Proof.
  intros Hmono Hu. destruct (decide (userId' = userId)) as [-> | Hne].
  - exists (change u). split; [by apply user_update_same | apply Hmono].
  - exists u. split; [by rewrite user_update_other | lia].
Qed.

(** No method of [UserService] lowers the monthly counter of an account,
    except the rollover of [checkRoastLimit] on that account. *)
Lemma run_counter now call db userId u :
  users db !! userId = Some u ->
  exists u',
    users (run now call db) !! userId = Some u'
    /\ (monthlyRoasts u <= monthlyRoasts u'
        \/ (call = CheckRoastLimit userId
            /\ 1 <= monthsElapsed now (lastRoastReset u)
            /\ monthlyRoasts u' = 0)).
Proof.
  intros Hu.
  destruct call as [cuid e n | userId' | userId' | userId' d]; cbn [run].
  - unfold findOrCreate.
    destruct (find_by_email (users db) e); cbn [fst];
      [exists u; split; [done | lia] |].
    destruct (users db !! cuid) eqn:Hc; cbn [fst];
      [exists u; split; [done | lia] |].
    exists u. split; [| lia]. rewrite users_with_users, lookup_insert_ne; [done |].
    intros ->. congruence.
  - destruct (decide (userId' = userId)) as [-> | Hne].
    + destruct (Z_lt_le_dec (monthsElapsed now (lastRoastReset u)) 1) as [Hm | Hm].
      * rewrite (checkRoastLimit_same_month _ _ _ _ Hu Hm).
        exists u. split; [done | lia].
      * rewrite (checkRoastLimit_rollover _ _ _ _ Hu Hm). cbn [fst].
        exists (reset_monthly now u).
        split; [rewrite users_with_users; apply lookup_insert_eq |].
        right. auto.
    + exists u. split; [| lia]. unfold checkRoastLimit.
      destruct (users db !! userId') as [u2 |] eqn:Hu2; [| done].
      destruct (monthsElapsed now (lastRoastReset u2) >=? 1)%Z; [| done].
      pose proof (user_update_other userId' (reset_monthly now) db userId Hne) as Ho.
      destruct (user_update userId' (reset_monthly now) db) as [db' [r | err]];
        cbn [fst] in *; congruence.
  - unfold incrementRoastCount.
    destruct (users db !! userId') as [u2 |]; [| exists u; split; [done | lia]].
    destruct ((monthlyRoasts u2 <? INT4_MAX) && (totalRoasts u2 <? INT4_MAX))%Z;
      [| exists u; split; [done | lia]].
    destruct (user_update_counter userId' increment_counts db userId u)
      as [u' [Hu' Hle]]; [intros x; cbn; lia | done |].
    exists u'. auto.
  - unfold updateSubscription.
    destruct (user_update_counter userId' (apply_subscription d) db userId u)
      as [u' [Hu' Hle]]; [intros x; cbn; lia | done |].
    exists u'. auto.
Qed.

(** The rollover test of the code, read on the calendar: for months
    numbered 0 to 11, [monthsElapsed] is at least 1 exactly when [now] lies
    in a later calendar month than [last]. *)
Lemma later_month_monthsElapsed now last :
  Ledger.month_in_range now -> Ledger.month_in_range last ->
  (Ledger.later_month now last = true <-> 1 <= monthsElapsed now last).
Proof.
  unfold Ledger.month_in_range, Ledger.later_month, monthsElapsed. intros Hn Hl.
  destruct (Z.ltb_spec (getFullYear last) (getFullYear now));
    destruct (Z.eqb_spec (getFullYear last) (getFullYear now));
    destruct (Z.ltb_spec (getMonth last) (getMonth now));
    cbn [orb andb]; split; intros H'; try reflexivity; try discriminate; lia.
Qed.

Lemma not_later_month_monthsElapsed now last :
  Ledger.month_in_range now -> Ledger.month_in_range last ->
  Ledger.later_month now last = false -> monthsElapsed now last < 1.
Proof.
  intros Hn Hl Hf.
  destruct (Z_lt_le_dec (monthsElapsed now last) 1) as [H | H]; [exact H |].
  apply (later_month_monthsElapsed now last Hn Hl) in H. congruence.
Qed.

(** C6.  In [checkRoastLimit], on calendar dates (months numbered 0 to
    11): when [now] lies in a later calendar month than [lastRoastReset] (a
    later year, or the same year and a later month, so that at least one
    month boundary has passed), the monthly counter is set to 0 and
    [lastRoastReset] to [now], and the quota is evaluated on the counter 0;
    when it does not (no month boundary has passed) the database is left as
    it was and the quota is evaluated on the stored counter.  The monthly
    counter is lowered by nothing else: no method of [UserService] lowers
    it, and the optimized-resume route does not write to the accounts. *)
Theorem checkRoastLimit_rollover_rule now userId db u :
  users db !! userId = Some u ->
  Ledger.month_in_range now ->
  Ledger.month_in_range (lastRoastReset u) ->
  (Ledger.later_month now (lastRoastReset u) = true ->
   exists u',
     users (fst (checkRoastLimit now userId db)) !! userId = Some u'
     /\ monthlyRoasts u' = 0
     /\ lastRoastReset u' = now
     /\ snd (checkRoastLimit now userId db)
        = Ok (roast_limit (subscriptionTier u) 0))
  /\ (Ledger.later_month now (lastRoastReset u) = false ->
      checkRoastLimit now userId db
      = (db, Ok (roast_limit (subscriptionTier u) (monthlyRoasts u))))
  /\ (forall call,
        exists u',
          users (run now call db) !! userId = Some u'
          /\ (monthlyRoasts u <= monthlyRoasts u'
              \/ (call = CheckRoastLimit userId
                  /\ Ledger.later_month now (lastRoastReset u) = true
                  /\ monthlyRoasts u' = 0)))
  /\ (forall db_read w request,
        users (fst (ExtractResumeData.POST_interleaved db_read db w request))
        !! userId = Some u).
Proof.
  intros Hu Hn Hl. split; [| split; [| split]].
  - intros Hm. apply (later_month_monthsElapsed _ _ Hn Hl) in Hm.
    rewrite (checkRoastLimit_rollover _ _ _ _ Hu Hm). cbn [fst snd].
    exists (reset_monthly now u). rewrite users_with_users, lookup_insert_eq. auto.
  - intros Hm. apply checkRoastLimit_same_month; [exact Hu |].
    by apply not_later_month_monthsElapsed.
  - intros call. destruct (run_counter now call db userId u Hu) as [u' [Hu' Hc]].
    exists u'. split; [exact Hu' |].
    destruct Hc as [Hc | [Hcall [Hm Hz]]]; [by left | right].
    split; [exact Hcall |]. split; [| exact Hz].
    by apply (later_month_monthsElapsed _ _ Hn Hl).
  - intros db_read w request. by rewrite CacheSpec.POST_users.
Qed.

Lemma checkRoastLimit_rollover_rule_witness :
  Ledger.later_month Fixtures.early_january Fixtures.early_december = true
  /\ Ledger.later_month Fixtures.late_december Fixtures.early_december = false
  /\ (exists u',
        users (fst (checkRoastLimit Fixtures.early_january "ckv0dec"
                      (Scenarios.database [Fixtures.december_account])))
        !! "ckv0dec" = Some u'
        /\ monthlyRoasts u' = 0
        /\ lastRoastReset u' = Fixtures.early_january)
  /\ checkRoastLimit Fixtures.late_december "ckv0dec"
       (Scenarios.database [Fixtures.december_account])
     = (Scenarios.database [Fixtures.december_account],
        Ok (roast_limit FREE 3)).
Proof.
  assert (Hu : users (Scenarios.database [Fixtures.december_account]) !! "ckv0dec"
               = Some Fixtures.december_account) by reflexivity.
  assert (Hl : Ledger.month_in_range (lastRoastReset Fixtures.december_account))
    by (by vm_compute).
  assert (H1 : Ledger.month_in_range Fixtures.early_january) by (by vm_compute).
  assert (H2 : Ledger.month_in_range Fixtures.late_december) by (by vm_compute).
  assert (Hlater : Ledger.later_month Fixtures.early_january
                     (lastRoastReset Fixtures.december_account) = true)
    by reflexivity.
  assert (Hsame : Ledger.later_month Fixtures.late_december
                    (lastRoastReset Fixtures.december_account) = false)
    by reflexivity.
  split; [exact Hlater |]. split; [exact Hsame |].
  destruct (checkRoastLimit_rollover_rule Fixtures.early_january "ckv0dec"
              (Scenarios.database [Fixtures.december_account])
              Fixtures.december_account Hu H1 Hl) as [Hroll _].
  destruct (checkRoastLimit_rollover_rule Fixtures.late_december "ckv0dec"
              (Scenarios.database [Fixtures.december_account])
              Fixtures.december_account Hu H2 Hl) as [_ [Hkeep _]].
  split.
  - destruct (Hroll Hlater) as [u' [Ha [Hb [Hc _]]]]. exists u'. auto.
  - exact (Hkeep Hsame).
Defined.

(** C7.  The monthly limits are 3 for [FREE], 100 for [PLUS] and the
    sentinel [-1] for [PREMIUM].  For an account on [FREE] with
    [monthlyRoasts = 3] and no bonus credits, a call while the clock is
    still in the calendar month of the last reset answers [canRoast = false]
    and [remaining = 0]; a later call, once the clock is in a later calendar
    month (the monthly boundary has passed), sets [monthlyRoasts] to 0 and
    answers [canRoast = true]. *)
Theorem free_tier_quota_scenario now later userId db u :
  users db !! userId = Some u ->
  subscriptionTier u = FREE ->
  monthlyRoasts u = 3 ->
  bonusCredits u = 0 ->
  Ledger.month_in_range (lastRoastReset u) ->
  Ledger.month_in_range now ->
  Ledger.month_in_range later ->
  Ledger.later_month now (lastRoastReset u) = false ->
  Ledger.later_month later (lastRoastReset u) = true ->
  MONTHLY_LIMITS FREE = 3 /\ MONTHLY_LIMITS PLUS = 100 /\ MONTHLY_LIMITS PREMIUM = -1
  /\ exists db1 r1,
      checkRoastLimit now userId db = (db1, Ok r1)
      /\ canRoast r1 = false /\ remaining r1 = 0
      /\ exists db2 r2 u2,
          checkRoastLimit later userId db1 = (db2, Ok r2)
          /\ users db2 !! userId = Some u2
          /\ monthlyRoasts u2 = 0
          /\ canRoast r2 = true.
Proof.
  intros Hu Htier Hcount _ Hl Hn Hn' Hnow Hlater.
  apply (not_later_month_monthsElapsed _ _ Hn Hl) in Hnow.
  apply (later_month_monthsElapsed _ _ Hn' Hl) in Hlater.
  split; [reflexivity |]. split; [reflexivity |]. split; [reflexivity |].
  exists db, (roast_limit (subscriptionTier u) (monthlyRoasts u)).
  split; [by apply checkRoastLimit_same_month |].
  rewrite Htier, Hcount. split; [reflexivity |]. split; [reflexivity |].
  eexists _, _, (reset_monthly later u).
  split; [by apply checkRoastLimit_rollover |].
  rewrite users_with_users, lookup_insert_eq, Htier. auto.
Qed.

Lemma free_tier_quota_scenario_witness :
  Ledger.later_month Fixtures.late_december
    (lastRoastReset Fixtures.december_account) = false
  /\ Ledger.later_month Fixtures.early_january
       (lastRoastReset Fixtures.december_account) = true
  /\ exists db1 r1,
      checkRoastLimit Fixtures.late_december "ckv0dec"
        (Scenarios.database [Fixtures.december_account]) = (db1, Ok r1)
      /\ canRoast r1 = false /\ remaining r1 = 0
      /\ exists db2 r2 u2,
          checkRoastLimit Fixtures.early_january "ckv0dec" db1 = (db2, Ok r2)
          /\ users db2 !! "ckv0dec" = Some u2
          /\ monthlyRoasts u2 = 0
          /\ canRoast r2 = true.
Proof.
  assert (Hnow : Ledger.later_month Fixtures.late_december
                   (lastRoastReset Fixtures.december_account) = false)
    by reflexivity.
  assert (Hlater : Ledger.later_month Fixtures.early_january
                     (lastRoastReset Fixtures.december_account) = true)
    by reflexivity.
  split; [exact Hnow |]. split; [exact Hlater |].
  exact (proj2 (proj2 (proj2
    (free_tier_quota_scenario Fixtures.late_december Fixtures.early_january
       "ckv0dec" (Scenarios.database [Fixtures.december_account])
       Fixtures.december_account eq_refl eq_refl eq_refl eq_refl
       ltac:(by vm_compute) ltac:(by vm_compute) ltac:(by vm_compute)
       Hnow Hlater)))).
Defined.

End UserServiceSpec.

(** * Further properties *)

(** ** The usage ledger *)

Module LedgerSpec.
Import JS Schema UserService Ledger.

(** X1.  The answer of [checkRoastLimit] is coherent: [canRoast] holds
    exactly when [remaining] is not 0; [remaining] is the sentinel [-1]
    exactly on the unlimited tier; and on a limited tier, with a counter
    between 0 and the limit, [used] and [remaining] add up to [limit]. *)
Theorem checkRoastLimit_answer_coherent now userId db db' r :
  checkRoastLimit now userId db = (db', Ok r) ->
  (canRoast r = true <-> remaining r <> 0)
  /\ (remaining r = -1 <-> limit r = -1)
  /\ (limit r <> -1 -> 0 <= remaining r)
  /\ (limit r <> -1 -> 0 <= used r <= limit r -> used r + remaining r = limit r).
Proof.
  intros H.
  assert (Hr : exists t monthly, r = roast_limit t monthly).
  { revert H. unfold checkRoastLimit, user_update.
    destruct (users db !! userId) as [u |]; [| discriminate].
    destruct (monthsElapsed now (lastRoastReset u) >=? 1)%Z;
      intros [= _ <-]; eauto. }
  destruct Hr as [t [monthly ->]].
  unfold roast_limit; cbn [canRoast remaining limit used].
  destruct t; cbn [MONTHLY_LIMITS];
    repeat match goal with
           | |- context [(?a =? ?b)%Z] => destruct (Z.eqb_spec a b); try lia
           | |- context [(?a <? ?b)%Z] => destruct (Z.ltb_spec a b)
           end;
    cbn [orb]; repeat split; intros; try lia; try discriminate; try reflexivity.
Qed.

Lemma checkRoastLimit_answer_coherent_witness :
  exists db' r,
    checkRoastLimit Scenarios.end_of_january "ckv0ada"
      (Scenarios.database [Scenarios.ada]) = (db', Ok r)
    /\ (canRoast r = true <-> remaining r <> 0)
    /\ used r + remaining r = limit r.
Proof.
  eexists _, _. split; [vm_compute; reflexivity |].
  match goal with
  | |- (canRoast ?r = _ <-> _) /\ _ =>
      destruct (checkRoastLimit_answer_coherent Scenarios.end_of_january "ckv0ada"
                  (Scenarios.database [Scenarios.ada])
                  (Scenarios.database [Scenarios.ada]) r)
        as [H1 [_ [_ H4]]]; [vm_compute; reflexivity |]
  end.
  split; [exact H1 |].
  apply H4; [vm_compute; discriminate | vm_compute; split; discriminate].
Defined.

Lemma monthsElapsed_same now : monthsElapsed now now = 0.
Proof. unfold monthsElapsed. lia. Qed.

(** X2.  [checkRoastLimit] is idempotent at a given instant: a second call
    with the same clock reading gives the same answer and writes nothing
    more.  The rollover, when it fires, fires once. *)
Theorem checkRoastLimit_twice now userId db :
  checkRoastLimit now userId (fst (checkRoastLimit now userId db))
  = checkRoastLimit now userId db.
Proof.
  destruct (users db !! userId) as [u |] eqn:Hu.
  - destruct (Z_lt_le_dec (monthsElapsed now (lastRoastReset u)) 1) as [Hm | Hm].
    + rewrite (UserServiceSpec.checkRoastLimit_same_month _ _ _ _ Hu Hm). cbn [fst].
      by apply UserServiceSpec.checkRoastLimit_same_month.
    + rewrite (UserServiceSpec.checkRoastLimit_rollover _ _ _ _ Hu Hm). cbn [fst].
      rewrite (UserServiceSpec.checkRoastLimit_same_month now userId _
                 (reset_monthly now u)).
      * reflexivity.
      * cbn. apply lookup_insert_eq.
      * cbn [reset_monthly lastRoastReset]. rewrite monthsElapsed_same. lia.
  - unfold checkRoastLimit. rewrite Hu. cbn [fst]. by rewrite Hu.
Qed.

Lemma counted_fields n u :
  monthlyRoasts (counted n u) = monthlyRoasts u + Z.of_nat n
  /\ totalRoasts (counted n u) = totalRoasts u + Z.of_nat n
  /\ subscriptionTier (counted n u) = subscriptionTier u
  /\ lastRoastReset (counted n u) = lastRoastReset u.
Proof.
  induction n as [| n [IH1 [IH2 [IH3 IH4]]]]; cbn [counted].
  - repeat split; try reflexivity; lia.
  - cbn [increment_counts monthlyRoasts totalRoasts subscriptionTier
           lastRoastReset].
    repeat split; try lia; assumption.
Qed.

Lemma increments_lookup n userId db u :
  users db !! userId = Some u ->
  monthlyRoasts u + Z.of_nat n <= INT4_MAX ->
  totalRoasts u + Z.of_nat n <= INT4_MAX ->
  users (increments n userId db) !! userId = Some (counted n u).
Proof.
  intros Hu. induction n as [| n IH]; intros Hm Ht; [exact Hu |].
  cbn [increments]. unfold incrementRoastCount.
  rewrite IH by lia.
  destruct (counted_fields n u) as [-> [-> _]].
  rewrite (proj2 (Z.ltb_lt _ _)) by lia. rewrite (proj2 (Z.ltb_lt _ _)) by lia.
  cbn [andb]. rewrite UserServiceSpec.user_update_same with (u := counted n u);
    [reflexivity | by apply IH; lia].
Qed.

(** X3.  Counted roasts add up: after [n] calls of [incrementRoastCount]
    within the month of the last reset, [checkRoastLimit] reports
    [used = monthlyRoasts + n], and allows a further roast exactly when the
    tier is unlimited or that sum is still below the limit. *)
Theorem checkRoastLimit_after_increments n now userId db u :
  users db !! userId = Some u ->
  monthlyRoasts u + Z.of_nat n <= INT4_MAX ->
  totalRoasts u + Z.of_nat n <= INT4_MAX ->
  monthsElapsed now (lastRoastReset u) < 1 ->
  exists r,
    snd (checkRoastLimit now userId (increments n userId db)) = Ok r
    /\ used r = monthlyRoasts u + Z.of_nat n
    /\ (canRoast r = true
        <-> MONTHLY_LIMITS (subscriptionTier u) = -1
            \/ monthlyRoasts u + Z.of_nat n < MONTHLY_LIMITS (subscriptionTier u)).
Proof.
  intros Hu Hm Ht Hnow.
  pose proof (increments_lookup n userId db u Hu Hm Ht) as Hn.
  destruct (counted_fields n u) as [Hc [_ [Htier Hreset]]].
  rewrite (UserServiceSpec.checkRoastLimit_same_month now userId _ _ Hn)
    by (rewrite Hreset; exact Hnow).
  cbn [snd]. eexists. split; [reflexivity |].
  rewrite Htier, Hc. split; [reflexivity |].
  apply (UserServiceSpec.canRoast_roast_limit (subscriptionTier u)
           (monthlyRoasts u + Z.of_nat n)).
Qed.

Lemma checkRoastLimit_after_increments_witness :
  users (Scenarios.database [Fixtures.newcomer]) !! "ckv0lin" = Some Fixtures.newcomer
  /\ monthsElapsed Scenarios.end_of_january (lastRoastReset Fixtures.newcomer) < 1
  /\ exists r,
      snd (checkRoastLimit Scenarios.end_of_january "ckv0lin"
             (increments 3 "ckv0lin" (Scenarios.database [Fixtures.newcomer])))
      = Ok r
      /\ used r = 3
      /\ canRoast r = false.
Proof.
  assert (Hu : users (Scenarios.database [Fixtures.newcomer]) !! "ckv0lin"
               = Some Fixtures.newcomer) by reflexivity.
  assert (Hnow : monthsElapsed Scenarios.end_of_january
                   (lastRoastReset Fixtures.newcomer) < 1) by reflexivity.
  split; [exact Hu |]. split; [exact Hnow |].
  destruct (checkRoastLimit_after_increments 3 Scenarios.end_of_january "ckv0lin"
              (Scenarios.database [Fixtures.newcomer]) Fixtures.newcomer Hu)
    as [r [Hr [Hused Hcan]]];
    [vm_compute; discriminate | vm_compute; discriminate | exact Hnow |].
  exists r. split; [exact Hr |]. split; [exact Hused |].
  destruct (canRoast r); [| reflexivity].
  destruct (proj1 Hcan eq_refl) as [H | H]; vm_compute in H; discriminate H.
Defined.

Lemma user_update_keeps userId' change db userId u :
  keeps_account change ->
  users db !! userId = Some u ->
  exists u',
    users (fst (user_update userId' change db)) !! userId = Some u'
    /\ totalRoasts u <= totalRoasts u'
    /\ bonusCredits u' = bonusCredits u
    /\ email u' = email u
    /\ id u' = id u.
Proof.
  intros Hk Hu. destruct (decide (userId' = userId)) as [-> | Hne].
  - exists (change u). split; [by apply UserServiceSpec.user_update_same | apply Hk].
  - exists u. split; [by rewrite UserServiceSpec.user_update_other |].
    repeat split; lia.
Qed.

(** X4.  No method of [UserService] removes an account, lowers its
    lifetime counter [totalRoasts], changes its balance of bonus credits,
    or changes its [email] or [id]: the monthly rollover resets the monthly
    counter only, and purchased credits are never consumed here. *)
Theorem run_keeps_accounts now call db userId u :
  users db !! userId = Some u ->
  exists u',
    users (run now call db) !! userId = Some u'
    /\ totalRoasts u <= totalRoasts u'
    /\ bonusCredits u' = bonusCredits u
    /\ email u' = email u
    /\ id u' = id u.
Proof.
  intros Hu.
  assert (Hsame : exists u', users db !! userId = Some u'
                    /\ totalRoasts u <= totalRoasts u'
                    /\ bonusCredits u' = bonusCredits u
                    /\ email u' = email u /\ id u' = id u)
    by (exists u; repeat split; [done | lia]).
  destruct call as [cuid e n | userId' | userId' | userId' d]; cbn [run].
  - unfold findOrCreate.
    destruct (find_by_email (users db) e); cbn [fst]; [exact Hsame |].
    destruct (users db !! cuid) eqn:Hc; cbn [fst]; [exact Hsame |].
    exists u. rewrite UserServiceSpec.users_with_users, lookup_insert_ne;
      [repeat split; [done | lia] | intros ->; congruence].
  - unfold checkRoastLimit.
    destruct (users db !! userId') as [u2 |] eqn:Hu2; [| exact Hsame].
    destruct (monthsElapsed now (lastRoastReset u2) >=? 1)%Z; [| exact Hsame].
    pose proof (user_update_keeps userId' (reset_monthly now) db userId u) as Hk.
    destruct (user_update userId' (reset_monthly now) db) as [db' [r | err]];
      cbn [fst] in *; apply Hk; try done;
      intros x; cbn; repeat split; lia.
  - unfold incrementRoastCount.
    destruct (users db !! userId') as [u2 |]; [| exact Hsame].
    destruct ((monthlyRoasts u2 <? INT4_MAX) && (totalRoasts u2 <? INT4_MAX))%Z;
      [| exact Hsame].
    apply user_update_keeps; [| done]. intros x; cbn; repeat split; lia.
  - unfold updateSubscription.
    apply user_update_keeps; [| done]. intros x; cbn; repeat split; lia.
Qed.

Lemma run_keeps_accounts_witness :
  users (Scenarios.database [Scenarios.ada_with_credits]) !! "ckv0ada"
  = Some Scenarios.ada_with_credits
  /\ exists u',
      users (run Scenarios.start_of_february (CheckRoastLimit "ckv0ada")
               (Scenarios.database [Scenarios.ada_with_credits])) !! "ckv0ada"
      = Some u'
      /\ totalRoasts Scenarios.ada_with_credits <= totalRoasts u'
      /\ bonusCredits u' = 5.
Proof.
  assert (Hu : users (Scenarios.database [Scenarios.ada_with_credits]) !! "ckv0ada"
               = Some Scenarios.ada_with_credits) by reflexivity.
  split; [exact Hu |].
  destruct (run_keeps_accounts Scenarios.start_of_february (CheckRoastLimit "ckv0ada")
              (Scenarios.database [Scenarios.ada_with_credits]) "ckv0ada"
              Scenarios.ada_with_credits Hu) as [u' [H1 [H2 [H3 _]]]].
  exists u'. auto.
Defined.

(** X5.  A change of tier takes effect at the next check and keeps the
    monthly counter: after [updateSubscription] with a tier [t],
    [checkRoastLimit] answers with the limit of [t] on the counter the account
    had, so an upgrade gives back no used roast and a downgrade can leave the
    account over its limit. *)
Theorem updateSubscription_then_check now userId d t db u :
  users db !! userId = Some u ->
  new_subscriptionTier d = Some t ->
  snd (checkRoastLimit now userId (fst (updateSubscription userId d db)))
  = Ok (roast_limit t (counter_after_rollover now u)).
Proof.
  intros Hu Ht.
  pose proof (UserServiceSpec.user_update_same userId (apply_subscription d) db u Hu)
    as Hu'.
  unfold updateSubscription.
  rewrite (UserServiceSpec.checkRoastLimit_answer now userId _ _ Hu').
  unfold counter_after_rollover.
  cbn [apply_subscription subscriptionTier lastRoastReset monthlyRoasts].
  by rewrite Ht.
Qed.

Lemma updateSubscription_then_check_witness :
  users (Scenarios.database [Scenarios.ada]) !! "ckv0ada" = Some Scenarios.ada
  /\ exists r,
      snd (checkRoastLimit Scenarios.end_of_january "ckv0ada"
             (fst (updateSubscription "ckv0ada" Fixtures.upgrade_to_premium
                     (Scenarios.database [Scenarios.ada])))) = Ok r
      /\ canRoast r = true /\ remaining r = -1 /\ used r = 3.
Proof.
  assert (Hu : users (Scenarios.database [Scenarios.ada]) !! "ckv0ada"
               = Some Scenarios.ada) by reflexivity.
  split; [exact Hu |].
  exists (roast_limit PREMIUM
            (counter_after_rollover Scenarios.end_of_january Scenarios.ada)).
  split; [| by vm_compute].
  exact (updateSubscription_then_check Scenarios.end_of_january "ckv0ada"
           Fixtures.upgrade_to_premium PREMIUM (Scenarios.database [Scenarios.ada])
           Scenarios.ada Hu eq_refl).
Defined.

Lemma find_by_email_Some us e u :
  find_by_email us e = Some u -> email u = e /\ exists i, us !! i = Some u.
Proof.
  unfold find_by_email. intros H. apply List.find_some in H as [Hin He].
  apply String.eqb_eq in He. split; [exact He |].
  apply list_elem_of_In, list_elem_of_fmap in Hin as [[i x] [-> Hx]].
  exists i. by apply elem_of_map_to_list.
Qed.

Lemma find_by_email_None us e i u :
  find_by_email us e = None -> us !! i = Some u -> email u <> e.
Proof.
  unfold find_by_email. intros H Hu He.
  assert (Hin : In u (snd <$> map_to_list us)).
  { apply list_elem_of_In, list_elem_of_fmap. exists (i, u).
    split; [done | by apply elem_of_map_to_list]. }
  pose proof (List.find_none _ _ H u Hin) as Hn. cbn in Hn.
  apply String.eqb_neq in Hn. done.
Qed.

(** X6.  [findOrCreate] answers with an account of the requested email, and
    asking again for that email, at any later time and under any name,
    returns the same account and creates nothing. *)
Theorem findOrCreate_again cuid now e n cuid' now' n' db db' u :
  findOrCreate cuid now e n db = (db', Ok u) ->
  email u = e /\ findOrCreate cuid' now' e n' db' = (db', Ok u).
Proof.
  unfold findOrCreate at 1.
  destruct (find_by_email (users db) e) as [x |] eqn:Hf.
  - intros [= <- <-]. split; [by apply find_by_email_Some in Hf as [? _] |].
    unfold findOrCreate. by rewrite Hf.
  - destruct (users db !! cuid) eqn:Hc; [discriminate |].
    intros [= <- <-]. split; [reflexivity |].
    unfold findOrCreate. rewrite UserServiceSpec.users_with_users.
    match goal with |- context [<[cuid := ?c]> _] => set (created := c) end.
    destruct (find_by_email (<[cuid := created]> (users db)) e) as [x |] eqn:Hf'.
    + apply find_by_email_Some in Hf' as [He [i Hi]].
      destruct (decide (i = cuid)) as [-> | Hne].
      * rewrite lookup_insert_eq in Hi. by injection Hi as <-.
      * rewrite lookup_insert_ne in Hi by done.
        by destruct (find_by_email_None _ _ _ _ Hf Hi).
    + destruct (find_by_email_None _ _ cuid created Hf'); [| reflexivity].
      apply lookup_insert_eq.
Qed.

Lemma findOrCreate_again_witness :
  exists db' u,
    findOrCreate "ckv0lin" Scenarios.mid_january "lin@example.com" None
      Scenarios.accounts = (db', Ok u)
    /\ email u = "lin@example.com"
    /\ findOrCreate "ckv0other" Scenarios.end_of_january "lin@example.com"
         (Some "Lin") db' = (db', Ok u).
Proof.
  eexists _, _.
  assert (H : findOrCreate "ckv0lin" Scenarios.mid_january "lin@example.com" None
                Scenarios.accounts
              = (fst (findOrCreate "ckv0lin" Scenarios.mid_january
                        "lin@example.com" None Scenarios.accounts),
                 Ok Fixtures.newcomer)) by (by vm_compute).
  split; [exact H |].
  exact (findOrCreate_again _ _ _ _ "ckv0other" Scenarios.end_of_january
           (Some "Lin") _ _ _ H).
Defined.

(** X7.  On calendar dates (months numbered 0 to 11) the rollover test
    [monthsElapsed >= 1] holds exactly when the clock is in a later calendar
    month than the last reset, whatever the day of the month: after
    [checkRoastLimit] the account carries the clock reading and a zero
    counter in that case, and is untouched otherwise. *)
Theorem checkRoastLimit_resets_in_later_month now userId db u :
  month_in_range now ->
  month_in_range (lastRoastReset u) ->
  users db !! userId = Some u ->
  users (fst (checkRoastLimit now userId db)) !! userId
  = Some (if later_month now (lastRoastReset u) then reset_monthly now u else u).
Proof.
  unfold month_in_range, later_month. intros Hn Hl Hu.
  destruct (Z_lt_le_dec (monthsElapsed now (lastRoastReset u)) 1) as [Hm | Hm].
  - rewrite (UserServiceSpec.checkRoastLimit_same_month _ _ _ _ Hu Hm). cbn [fst].
    rewrite Hu. unfold monthsElapsed in Hm.
    destruct (Z.ltb_spec (getFullYear (lastRoastReset u)) (getFullYear now));
      destruct (Z.eqb_spec (getFullYear (lastRoastReset u)) (getFullYear now));
      destruct (Z.ltb_spec (getMonth (lastRoastReset u)) (getMonth now));
      cbn [orb andb]; try reflexivity; lia.
  - rewrite (UserServiceSpec.checkRoastLimit_rollover _ _ _ _ Hu Hm). cbn [fst].
    rewrite UserServiceSpec.users_with_users, lookup_insert_eq.
    unfold monthsElapsed in Hm.
    destruct (Z.ltb_spec (getFullYear (lastRoastReset u)) (getFullYear now));
      destruct (Z.eqb_spec (getFullYear (lastRoastReset u)) (getFullYear now));
      destruct (Z.ltb_spec (getMonth (lastRoastReset u)) (getMonth now));
      cbn [orb andb]; try reflexivity; lia.
Qed.

Lemma checkRoastLimit_resets_in_later_month_witness :
  month_in_range Fixtures.early_january
  /\ month_in_range Fixtures.early_december
  /\ users (fst (checkRoastLimit Fixtures.early_january "ckv0dec"
                   (Scenarios.database
                      [Scenarios.account "ckv0dec" "dec@example.com" FREE 2 0
                         Fixtures.early_december]))) !! "ckv0dec"
     = Some (reset_monthly Fixtures.early_january
               (Scenarios.account "ckv0dec" "dec@example.com" FREE 2 0
                  Fixtures.early_december)).
Proof.
  assert (H1 : month_in_range Fixtures.early_january) by (by vm_compute).
  assert (H2 : month_in_range Fixtures.early_december) by (by vm_compute).
  split; [exact H1 |]. split; [exact H2 |].
  pose proof (checkRoastLimit_resets_in_later_month Fixtures.early_january "ckv0dec"
    (Scenarios.database
       [Scenarios.account "ckv0dec" "dec@example.com" FREE 2 0
          Fixtures.early_december])
    (Scenarios.account "ckv0dec" "dec@example.com" FREE 2 0 Fixtures.early_december)
    H1 H2 eq_refl) as H.
  rewrite H. vm_compute. reflexivity.
Defined.

Lemma user_update_keyed userId change db :
  keeps_keys change -> accounts_keyed db ->
  accounts_keyed (fst (user_update userId change db)).
Proof.
  intros Hk [Hid Hem]. unfold user_update.
  destruct (users db !! userId) as [u0 |] eqn:Hu0; cbn [fst]; [| by split].
  rewrite ?UserServiceSpec.users_with_users.
  assert (Hlook : forall i u,
             <[userId := change u0]> (users db) !! i = Some u ->
             exists x, users db !! i = Some x /\ id u = id x /\ email u = email x).
  { intros i u. destruct (decide (i = userId)) as [-> | Hne].
    - rewrite lookup_insert_eq. intros [= <-]. exists u0.
      destruct (Hk u0) as [-> ->]. done.
    - rewrite lookup_insert_ne by done. intros H. by exists u. }
  split.
  - intros i u Hi. rewrite UserServiceSpec.users_with_users in Hi.
    destruct (Hlook i u Hi) as [x [Hx [-> _]]]. by apply Hid.
  - intros i j u v Hi Hj He. rewrite UserServiceSpec.users_with_users in Hi, Hj.
    destruct (Hlook i u Hi) as [x [Hx [_ Hex]]].
    destruct (Hlook j v Hj) as [y [Hy [_ Hey]]].
    apply (Hem i j x y Hx Hy). congruence.
Qed.

(** X8.  Every method of [UserService] keeps the constraints of the
    [users] table: each account is stored under its own [id], and no two
    accounts share an [email]. *)
Theorem run_accounts_keyed now call db :
  accounts_keyed db -> accounts_keyed (run now call db).
Proof.
  intros Hk.
  destruct call as [cuid e n | userId | userId | userId d]; cbn [run].
  - unfold findOrCreate.
    destruct (find_by_email (users db) e) eqn:Hf; cbn [fst]; [exact Hk |].
    destruct (users db !! cuid) eqn:Hc; cbn [fst]; [exact Hk |].
    destruct Hk as [Hid Hem]. split.
    + intros i u. rewrite UserServiceSpec.users_with_users.
      destruct (decide (i = cuid)) as [-> | Hne].
      * rewrite lookup_insert_eq. by intros [= <-].
      * rewrite lookup_insert_ne by done. apply Hid.
    + intros i j u v. rewrite UserServiceSpec.users_with_users.
      destruct (decide (i = cuid)) as [-> | Hi], (decide (j = cuid)) as [-> | Hj];
        rewrite ?lookup_insert_eq, ?lookup_insert_ne by done; try done.
      * intros [= <-] Hv He. cbn in He.
        by destruct (find_by_email_None _ _ _ _ Hf Hv).
      * intros Hu [= <-] He. cbn in He.
        by destruct (find_by_email_None _ _ _ _ Hf Hu).
      * apply Hem.
  - unfold checkRoastLimit.
    destruct (users db !! userId) as [u |] eqn:Hu; cbn [fst]; [| exact Hk].
    destruct (monthsElapsed now (lastRoastReset u) >=? 1)%Z; [| exact Hk].
    pose proof (user_update_keyed userId (reset_monthly now) db) as Hup.
    destruct (user_update userId (reset_monthly now) db) as [db' [r | err]];
      cbn [fst] in *; apply Hup; try done; intros x; by cbn.
  - unfold incrementRoastCount.
    destruct (users db !! userId) as [u |]; [| exact Hk].
    destruct ((monthlyRoasts u <? INT4_MAX) && (totalRoasts u <? INT4_MAX))%Z;
      [| exact Hk].
    apply user_update_keyed; [| done]. intros x; by cbn.
  - unfold updateSubscription.
    apply user_update_keyed; [| done]. intros x; by cbn.
Qed.

Lemma accounts_keyed_accounts : accounts_keyed Scenarios.accounts.
Proof.
  assert (Hl : forall i u, users Scenarios.accounts !! i = Some u ->
                 (i = "ckv0ada" /\ u = Scenarios.ada)
                 \/ (i = "ckv0grace" /\ u = Scenarios.grace)).
  { intros i u. unfold Scenarios.accounts, Scenarios.database.
    cbn [users List.map].
    intros H. rewrite !list_to_map_cons, list_to_map_nil in H.
    apply lookup_insert_Some in H as [[<- <-] | [_ H]]; [by left |].
    apply lookup_insert_Some in H as [[<- <-] | [_ H]]; [by right |].
    by rewrite lookup_empty in H. }
  split.
  - intros i u H. by destruct (Hl i u H) as [[-> ->] | [-> ->]].
  - intros i j u v Hi Hj.
    destruct (Hl i u Hi) as [[-> ->] | [-> ->]],
             (Hl j v Hj) as [[-> ->] | [-> ->]]; by cbn.
Defined.

Lemma run_accounts_keyed_witness :
  accounts_keyed Scenarios.accounts
  /\ accounts_keyed
       (run Scenarios.mid_january (FindOrCreate "ckv0lin" "lin@example.com" None)
          Scenarios.accounts).
Proof.
  split; [exact accounts_keyed_accounts |].
  exact (run_accounts_keyed Scenarios.mid_january
           (FindOrCreate "ckv0lin" "lin@example.com" None) Scenarios.accounts
           accounts_keyed_accounts).
Defined.

(** X9.  A newly created account may roast at once: whatever the clock
    reads at the check, [checkRoastLimit] on the account [findOrCreate] has
    just created answers with the free tier, nothing used and 3 remaining. *)
Theorem findOrCreate_then_check cuid now now' e n db :
  find_by_email (users db) e = None ->
  users db !! cuid = None ->
  snd (checkRoastLimit now' cuid (fst (findOrCreate cuid now e n db)))
  = Ok {| canRoast := true; remaining := 3; used := 0; limit := 3; tier := FREE |}.
Proof.
  intros Hf Hc. unfold findOrCreate. rewrite Hf, Hc. cbn [fst].
  match goal with |- context [<[cuid := ?c]> _] => set (created := c) end.
  rewrite (UserServiceSpec.checkRoastLimit_answer now' cuid _ created)
    by (rewrite UserServiceSpec.users_with_users; apply lookup_insert_eq).
  unfold counter_after_rollover. cbn [created monthlyRoasts subscriptionTier].
  by destruct (monthsElapsed now' (lastRoastReset created) >=? 1)%Z.
Qed.

Lemma findOrCreate_then_check_witness :
  exists r,
    snd (checkRoastLimit Scenarios.start_of_february "ckv0lin"
           (fst (findOrCreate "ckv0lin" Scenarios.mid_january "lin@example.com" None
                   Scenarios.accounts))) = Ok r
    /\ canRoast r = true /\ remaining r = 3.
Proof.
  eexists. split.
  - exact (findOrCreate_then_check "ckv0lin" Scenarios.mid_january
             Scenarios.start_of_february "lin@example.com" None Scenarios.accounts
             ltac:(by vm_compute) eq_refl).
  - split; reflexivity.
Defined.

(** X10.  Only [findOrCreate] creates accounts: on an id that is not in
    the table, [checkRoastLimit] throws [User not found],
    [incrementRoastCount] and [updateSubscription] are refused by the
    database, and none of them writes anything. *)
Theorem unknown_user_is_refused now userId d db :
  users db !! userId = None ->
  checkRoastLimit now userId db = (db, Throw (Error "User not found"))
  /\ incrementRoastCount userId db = (db, Throw RecordNotFound)
  /\ updateSubscription userId d db = (db, Throw RecordNotFound).
Proof.
  intros Hu.
  unfold checkRoastLimit, incrementRoastCount, updateSubscription, user_update.
  by rewrite Hu.
Qed.

Lemma unknown_user_is_refused_witness :
  users Scenarios.accounts !! "ckv0nobody" = None
  /\ checkRoastLimit Scenarios.mid_january "ckv0nobody" Scenarios.accounts
     = (Scenarios.accounts, Throw (Error "User not found"))
  /\ incrementRoastCount "ckv0nobody" Scenarios.accounts
     = (Scenarios.accounts, Throw RecordNotFound).
Proof.
  assert (Hu : users Scenarios.accounts !! "ckv0nobody" = None) by reflexivity.
  destruct (unknown_user_is_refused Scenarios.mid_january "ckv0nobody"
              Fixtures.upgrade_to_premium Scenarios.accounts Hu) as [H1 [H2 _]].
  auto.
Defined.

End LedgerSpec.

Module RouteSpec.
Import JS Schema ExtractResumeData Audit.

(** What the cache probe can answer on its own. *)
Lemma probe_answers db request response :
  probe db request = Ok (inl response) ->
  In response [ ErrorJson 401 "Authentication required";
                ErrorJson 400 "Resume text is required";
                ErrorJson 404 "User not found" ]
  \/ exists row, served_from db request row /\ response = cached_response row.
Proof.
  rewrite CacheSpec.probe_normal_form.
  destruct (session_email request) as [e |] eqn:He;
    [| intros [= <-]; left; cbn; auto].
  destruct (String.eqb e EmptyString); [intros [= <-]; left; cbn; auto |].
  destruct (json request) as [body |] eqn:Hj; cbn [bind]; [| discriminate].
  destruct (String.eqb (or_empty (resumeText body)) EmptyString);
    [intros [= <-]; left; cbn; auto |].
  destruct (user_findUnique e db) as [found |] eqn:Hf;
    [| intros [= <-]; left; cbn; auto 6].
  destruct (default false (bypassCache body)) eqn:Hb; [discriminate |].
  destruct (generatedResume_findFirst (id found) (request_hash body) db)
    as [row |] eqn:Hr; [| discriminate].
  intros [= <-]. right. exists row. split; [| reflexivity].
  apply LedgerSpec.find_by_email_Some in Hf as [Hem Hi].
  apply List.find_some in Hr as [Hin Ho].
  unfold owned_with_hash in Ho. apply andb_true_iff in Ho as [Hu Hh].
  destruct (resume_userId row) as [owner |] eqn:Hown; [| discriminate].
  apply String.eqb_eq in Hu, Hh. subst owner e.
  exists found, body. repeat split; auto.
Qed.

Lemma generate_needs_model w m :
  (forall prompt, returns (callAnthropicResumeOptimization w prompt) = false) ->
  returns (generate w m) = false.
Proof.
  intros Hw. unfold generate.
  destruct (extraction_prompt _ _ _) as [prompt |]; cbn [bind returns];
    [| reflexivity].
  specialize (Hw prompt).
  destruct (callAnthropicResumeOptimization w prompt); [discriminate | reflexivity].
Qed.

(** X11.  An answer that is not a success is one of the four error answers
    of the handler (401, 400, 404 with their messages, or 500), and a request
    answered that way writes nothing to the database, also when other
    requests run in between. *)
Theorem POST_error_writes_nothing db db_later w request :
  succeeded (snd (POST_interleaved db db_later w request)) = false ->
  fst (POST_interleaved db db_later w request) = db_later
  /\ In (snd (POST_interleaved db db_later w request)) error_answers.
Proof.
  unfold POST_interleaved, prepare.
  destruct (probe db request) as [[response | m] |] eqn:Hp; cbn [bind fst snd].
  - intros Hs. split; [reflexivity |].
    destruct (probe_answers _ _ _ Hp) as [Hin | [row [_ ->]]]; [| discriminate].
    cbn in Hin |- *. intuition.
  - destruct (generate w m) as [p |]; cbn [bind fst snd].
    + unfold persist. destruct (store db_later w p) as [[db1 c] g].
      discriminate.
    + intros _. split; [reflexivity |]. cbn; auto 6.
  - intros _. split; [reflexivity |]. cbn; auto 6.
Qed.

Lemma POST_error_writes_nothing_witness :
  fst (POST Scenarios.accounts (Scenarios.world "1") Fixtures.anonymous_request)
  = Scenarios.accounts
  /\ In (snd (POST Scenarios.accounts (Scenarios.world "1")
                Fixtures.anonymous_request)) error_answers.
Proof.
  exact (POST_error_writes_nothing Scenarios.accounts Scenarios.accounts
           (Scenarios.world "1") Fixtures.anonymous_request eq_refl).
Defined.

(** X12.  When the language model fails on every prompt, the handler
    writes nothing and never reports a freshly generated resume: it gives
    the answer of the cache probe, or the error 500. *)
Theorem POST_model_failure db db_later w request :
  (forall prompt, returns (callAnthropicResumeOptimization w prompt) = false) ->
  fst (POST_interleaved db db_later w request) = db_later
  /\ (snd (POST_interleaved db db_later w request) = internal_error
      \/ probe db request
         = Ok (inl (snd (POST_interleaved db db_later w request)))).
Proof.
  intros Hw. unfold POST_interleaved, prepare.
  destruct (probe db request) as [[response | m] |] eqn:Hp; cbn [bind fst snd];
    [by auto | | by auto].
  pose proof (generate_needs_model w m Hw) as Hg.
  destruct (generate w m); [discriminate | cbn [bind fst snd]; auto].
Qed.

Lemma POST_model_failure_witness :
  (forall prompt,
      returns (callAnthropicResumeOptimization Fixtures.overloaded_world prompt)
      = false)
  /\ POST Scenarios.accounts Fixtures.overloaded_world Fixtures.ada_request
     = (Scenarios.accounts, internal_error).
Proof.
  assert (Hw : forall prompt,
             returns (callAnthropicResumeOptimization Fixtures.overloaded_world
                        prompt) = false) by reflexivity.
  split; [exact Hw |].
  destruct (POST_model_failure Scenarios.accounts Scenarios.accounts
              Fixtures.overloaded_world Fixtures.ada_request Hw) as [Hdb Hr].
  unfold POST.
  destruct (POST_interleaved Scenarios.accounts Scenarios.accounts
              Fixtures.overloaded_world Fixtures.ada_request) as [db' r].
  cbn [fst snd] in Hdb, Hr. subst db'. f_equal.
  destruct Hr as [-> | Hr]; [reflexivity |].
  vm_compute in Hr. discriminate Hr.
Defined.

(** X13.  An answer marked [cached: true] is built from a stored row that
    belongs to the session user and carries the content hash of this very
    request, which did not ask to bypass the cache.  Such a request writes
    nothing, and its outcome does not depend on the model, the clock or the
    fresh identifiers. *)
Theorem cached_answer_provenance db db_later w request :
  cached (snd (POST_interleaved db db_later w request)) = Some true ->
  fst (POST_interleaved db db_later w request) = db_later
  /\ (exists row,
         served_from db request row
         /\ snd (POST_interleaved db db_later w request) = cached_response row)
  /\ forall w',
       POST_interleaved db db_later w' request
       = POST_interleaved db db_later w request.
Proof.
  unfold POST_interleaved, prepare.
  destruct (probe db request) as [[response | m] |] eqn:Hp; cbn [bind fst snd].
  - intros Hc. split; [reflexivity |]. split; [| reflexivity].
    destruct (probe_answers _ _ _ Hp) as [Hin | [row [Hrow ->]]]; [| eauto].
    cbn in Hin. destruct Hin as [<- | [<- | [<- | []]]]; discriminate.
  - destruct (generate w m) as [p |]; cbn [bind fst snd]; [| discriminate].
    unfold persist. destruct (store db_later w p) as [[db1 c] g]. discriminate.
  - discriminate.
Qed.

Lemma cached_answer_provenance_witness :
  cached (snd (POST Scenarios.after_ada (Scenarios.world "2") Fixtures.ada_request))
  = Some true
  /\ fst (POST Scenarios.after_ada (Scenarios.world "2") Fixtures.ada_request)
     = Scenarios.after_ada
  /\ POST Scenarios.after_ada Fixtures.overloaded_world Fixtures.ada_request
     = POST Scenarios.after_ada (Scenarios.world "2") Fixtures.ada_request.
Proof.
  assert (Hc : cached (snd (POST_interleaved Scenarios.after_ada Scenarios.after_ada
                              (Scenarios.world "2") Fixtures.ada_request))
               = Some true) by (by vm_compute).
  destruct (cached_answer_provenance Scenarios.after_ada Scenarios.after_ada
              (Scenarios.world "2") Fixtures.ada_request Hc) as [Hdb [_ Hw]].
  split; [exact Hc |]. split; [exact Hdb |]. exact (Hw Fixtures.overloaded_world).
Defined.

Lemma llmCall_create_Ok row db db' :
  llmCall_create row db = Ok db' ->
  existsb (fun r => String.eqb (call_id r) (call_id row)) (llmCalls db) = false
  /\ db' = {| users := users db;
              generatedResumes := generatedResumes db;
              llmCalls := row :: llmCalls db;
              llmMessages := llmMessages db |}.
Proof.
  unfold llmCall_create. destruct (existsb _ _); [discriminate |].
  intros [= <-]. auto.
Qed.

Lemma llmMessage_create_Ok row db db' :
  llmMessage_create row db = Ok db' ->
  existsb (fun r => String.eqb (message_id r) (message_id row)) (llmMessages db)
  = false
  /\ existsb (fun r => String.eqb (llmCallId r) (llmCallId row)
                       && (messageIndex r =? messageIndex row)%Z) (llmMessages db)
     = false
  /\ db' = {| users := users db;
              generatedResumes := generatedResumes db;
              llmCalls := llmCalls db;
              llmMessages := row :: llmMessages db |}.
Proof.
  unfold llmMessage_create. destruct (existsb _ _); [discriminate |].
  destruct (existsb _ _); [discriminate |]. intros [= <-]. auto.
Qed.

Lemma generatedResume_create_Ok row db db' :
  generatedResume_create row db = Ok db' ->
  existsb (fun r => String.eqb (resume_id r) (resume_id row)) (generatedResumes db)
  = false
  /\ hash_stored (contentHash row) db = false
  /\ db' = {| users := users db;
              generatedResumes := row :: generatedResumes db;
              llmCalls := llmCalls db;
              llmMessages := llmMessages db |}.
Proof.
  unfold generatedResume_create. destruct (existsb _ _); [discriminate |].
  destruct (hash_stored _ _); [discriminate |]. intros [= <-]. auto.
Qed.

Lemma POST_fst_cases db db_later w request :
  fst (POST_interleaved db db_later w request) = db_later
  \/ exists p, fst (POST_interleaved db db_later w request)
               = (store db_later w p).1.1.
Proof.
  unfold POST_interleaved.
  destruct (prepare db w request) as [[response | p] |]; cbn [fst]; auto.
  right. exists p. unfold persist.
  by destruct (store db_later w p) as [[db1 c] g].
Qed.

Lemma store_linked db w p :
  messages_linked db -> messages_linked (store db w p).1.1.
Proof.
  intros H0. unfold store.
  destruct (llmCall_create _ db) as [db1 |] eqn:H1; [| exact H0].
  apply llmCall_create_Ok in H1 as [_ ->].
  assert (Hl1 : forall rows : list LlmMessage,
             (forall m, In m rows -> llmCallId m = cuid_llmCall w) ->
             messages_linked
               {| users := users db;
                  generatedResumes := generatedResumes db;
                  llmCalls := llmCall_row w p :: llmCalls db;
                  llmMessages := (rows ++ llmMessages db)%list |}).
  { intros rows Hrows m. cbn [llmMessages llmCalls]. intros Hin.
    apply in_app_or in Hin as [Hin | Hin].
    - exists (llmCall_row w p). split; [by left |]. by rewrite (Hrows m Hin).
    - destruct (H0 m Hin) as [c [Hc Hid]]. exists c. split; [by right | exact Hid]. }
  destruct (llmMessage_create _ _) as [db2 |] eqn:H2;
    [| exact (Hl1 [] (fun m (F : In m []) => match F with end))].
  apply llmMessage_create_Ok in H2 as [_ [_ ->]].
  cbn [users generatedResumes llmCalls llmMessages].
  assert (Hu : forall m, In m [user_message_row w p] ->
                         llmCallId m = cuid_llmCall w).
  { intros m [<- | []]. reflexivity. }
  destruct (p_extractedData p) as [d |]; [| exact (Hl1 _ Hu)].
  destruct (llmMessage_create _ _) as [db3 |] eqn:H3; [| exact (Hl1 _ Hu)].
  apply llmMessage_create_Ok in H3 as [_ [_ ->]].
  cbn [users generatedResumes llmCalls llmMessages].
  assert (Ha : forall m, In m [assistant_message_row w p d; user_message_row w p] ->
                         llmCallId m = cuid_llmCall w).
  { intros m [<- | [<- | []]]; reflexivity. }
  destruct (generatedResume_create _ _) as [db4 |] eqn:H4; [| exact (Hl1 _ Ha)].
  apply generatedResume_create_Ok in H4 as [_ [_ ->]].
  cbn [users generatedResumes llmCalls llmMessages fst]. exact (Hl1 _ Ha).
Qed.

(** X15.  The handler never stores a message without its call: if every
    row of [llm_messages] refers to a stored row of [llm_calls] before its
    writes, the same holds after them. *)
Theorem POST_keeps_messages_linked db db_later w request :
  messages_linked db_later ->
  messages_linked (fst (POST_interleaved db db_later w request)).
Proof.
  intros H.
  destruct (POST_fst_cases db db_later w request) as [-> | [p ->]];
    [exact H | by apply store_linked].
Qed.

Lemma POST_keeps_messages_linked_witness :
  messages_linked Scenarios.accounts
  /\ messages_linked
       (fst (POST Scenarios.accounts (Scenarios.world "1") Fixtures.ada_request))
  /\ List.length
       (llmMessages
          (fst (POST Scenarios.accounts (Scenarios.world "1") Fixtures.ada_request)))
     = 2%nat.
Proof.
  assert (H : messages_linked Scenarios.accounts) by (intros m []).
  split; [exact H |]. split; [| by vm_compute].
  exact (POST_keeps_messages_linked Scenarios.accounts Scenarios.accounts
           (Scenarios.world "1") Fixtures.ada_request H).
Defined.

Lemma store_ids db w p db' c g :
  store db w p = (db', c, g) ->
  (forall i, g = Some i ->
             exists d,
               generatedResumes db' = generatedResume_row w p d :: generatedResumes db
               /\ users db' = users db
               /\ i = cuid_generatedResume w
               /\ p_extractedData p = Some d)
  /\ (forall i, c = Some i ->
                In (llmCall_row w p) (llmCalls db') /\ i = cuid_llmCall w).
Proof.
  unfold store.
  destruct (llmCall_create _ db) as [db1 |] eqn:H1;
    [| intros [= <- <- <-]; split; intros i; discriminate].
  apply llmCall_create_Ok in H1 as [_ ->].
  destruct (llmMessage_create _ _) as [db2 |] eqn:H2;
    [| intros [= <- <- <-]; split; intros i; [discriminate |];
       intros [= <-]; split; [by left | reflexivity]].
  apply llmMessage_create_Ok in H2 as [_ [_ ->]].
  destruct (p_extractedData p) as [d |];
    [| intros [= <- <- <-]; split; intros i; [discriminate |];
       intros [= <-]; split; [by left | reflexivity]].
  destruct (llmMessage_create _ _) as [db3 |] eqn:H3;
    [| intros [= <- <- <-]; split; intros i; [discriminate |];
       intros [= <-]; split; [by left | reflexivity]].
  apply llmMessage_create_Ok in H3 as [_ [_ ->]].
  destruct (generatedResume_create _ _) as [db4 |] eqn:H4;
    [| intros [= <- <- <-]; split; intros i; [discriminate |];
       intros [= <-]; split; [by left | reflexivity]].
  apply generatedResume_create_Ok in H4 as [_ [_ ->]].
  intros [= <- <- <-]; split; intros i; intros [= <-].
  - exists d. repeat split; reflexivity.
  - split; [by left | reflexivity].
Qed.

(** X16.  The identifiers in an answer are never dangling: when [POST]
    answers with a [resumeId], a row of [generated_resumes] with that id is
    in the database it leaves, and when the metadata carry an [llmCallId],
    so is that row of [llm_calls]. *)
Theorem POST_answer_ids_stored db w request :
  (forall i, resumeId (snd (POST db w request)) = Some i ->
             exists row, In row (generatedResumes (fst (POST db w request)))
                         /\ resume_id row = i)
  /\ (forall i, llmCallId_of (snd (POST db w request)) = Some i ->
                exists call, In call (llmCalls (fst (POST db w request)))
                             /\ call_id call = i).
Proof.
  unfold POST, POST_interleaved, prepare.
  destruct (probe db request) as [[response | m] |] eqn:Hp; cbn [bind fst snd].
  - destruct (probe_answers _ _ _ Hp) as [Hin | [row [Hrow ->]]].
    + cbn in Hin. destruct Hin as [<- | [<- | [<- | []]]]; split; intros i;
        discriminate.
    + split; intros i; [| discriminate]. cbn [resumeId cached_response].
      intros [= <-]. exists row. split; [| reflexivity].
      destruct Hrow as (u & body & _ & _ & _ & Hin & _). exact Hin.
  - destruct (generate w m) as [p |]; cbn [bind fst snd];
      [| split; intros i; discriminate].
    unfold persist. destruct (store db w p) as [[db1 c] g] eqn:Hst.
    cbn [fst snd resumeId llmCallId_of].
    destruct (store_ids _ _ _ _ _ _ Hst) as [Hg Hc]. split; intros i Hi.
    + destruct (Hg i Hi) as [d [Hin [_ [-> _]]]]. eexists.
      split; [rewrite Hin; by left | reflexivity].
    + destruct (Hc i Hi) as [Hin ->]. eexists. split; [exact Hin |]. reflexivity.
  - split; intros i; discriminate.
Qed.

(** X17.  A cached answer repeats the stored artifact: the second of two
    requests of one user with the same normalized inputs returns the [data]
    and the matched keywords the first one generated and stored; its
    [atsScore] is the generated score, except that a stored score of 0 is
    reported as 75. *)
Theorem cached_answer_repeats_generated
    db w1 w2 request1 request2 body1 body2 resume :
  session_email request1 = session_email request2 ->
  json request1 = Ok body1 ->
  json request2 = Ok body2 ->
  same_normalized_inputs body1 body2 ->
  default false (bypassCache body2) = false ->
  cached (snd (POST db w1 request1)) = Some false ->
  resumeId (snd (POST db w1 request1)) = Some resume ->
  data_of (snd (POST (fst (POST db w1 request1)) w2 request2))
  = data_of (snd (POST db w1 request1))
  /\ keywordsMatched_of (snd (POST (fst (POST db w1 request1)) w2 request2))
     = keywordsMatched_of (snd (POST db w1 request1))
  /\ exists s,
       atsScore_of (snd (POST db w1 request1)) = Some s
       /\ atsScore_of (snd (POST (fst (POST db w1 request1)) w2 request2))
          = Some (if (s =? 0)%Z then 75 else s).
Proof.
  intros Hs Hb1 Hb2 Hn Hby2. unfold POST, POST_interleaved, prepare.
  destruct (probe db request1) as [[response | m] |] eqn:Hp; cbn [bind fst snd].
  - intros Hc.
    destruct (probe_answers _ _ _ Hp) as [Hin | [row [_ ->]]]; [| discriminate].
    cbn in Hin. destruct Hin as [<- | [<- | [<- | []]]]; discriminate.
  - destruct (generate w1 m) as [p |] eqn:Hgen; cbn [bind fst snd];
      [| discriminate].
    unfold persist.
    destruct (store db w1 p) as [[db1 llmCallId] generatedResumeId] eqn:Hst.
    cbn [fst snd cached resumeId]. intros _ ->.
    destruct (store_ids _ _ _ _ _ _ Hst) as [Hrow _].
    destruct (Hrow resume eq_refl) as [d [Hg [Hu [_ Hd]]]].
    destruct (CacheSpec.generate_keeps _ _ _ Hgen) as [Huser Hhash].
    rewrite (CacheSpec.probe_after_store db db1 request1 request2 body1 body2 m
               (generatedResume_row w1 p d) Hs Hb1 Hb2 Hn Hby2 Hp Hu Hg);
      cbn [bind fst snd].
    + cbn [cached_response data_of keywordsMatched_of atsScore_of
             generatedResume_row data keywordsMatched atsScore atsScore_or_75].
      split; [by rewrite Hd |]. split; [reflexivity |]. by eexists.
    + cbn. by rewrite Huser.
    + exact Hhash.
  - discriminate.
Qed.

Lemma cached_answer_repeats_generated_witness :
  atsScore_of (snd (POST Scenarios.accounts Fixtures.blank_world Fixtures.ada_request))
  = Some 0
  /\ atsScore_of
       (snd (POST (fst (POST Scenarios.accounts Fixtures.blank_world
                          Fixtures.ada_request))
               (Scenarios.world "2")
               (Scenarios.request_of Scenarios.ada Scenarios.body_again)))
     = Some 75.
Proof.
  destruct (cached_answer_repeats_generated Scenarios.accounts Fixtures.blank_world
              (Scenarios.world "2") Fixtures.ada_request
              (Scenarios.request_of Scenarios.ada Scenarios.body_again)
              (Scenarios.body_with Scenarios.resume_text None) Scenarios.body_again
              "resume-7" eq_refl eq_refl eq_refl)
    as [_ [_ [s [H1 H2]]]];
    [by vm_compute | reflexivity | by vm_compute | by vm_compute |].
  assert (H0 : atsScore_of (snd (POST Scenarios.accounts Fixtures.blank_world
                                   Fixtures.ada_request)) = Some 0)
    by (by vm_compute).
  split; [exact H0 |].
  rewrite H2. rewrite H0 in H1. injection H1 as <-. reflexivity.
Defined.

End RouteSpec.

Module TextSpec.
Import JS ExtractResumeData.

Lemma length_append (a b : string) :
  String.length (a +:+ b) = (String.length a + String.length b)%nat.
Proof.
  induction a as [| c a IH]; [reflexivity |].
  change (String c a +:+ b) with (String c (a +:+ b)).
  cbn [String.length]. by rewrite IH.
Qed.

Lemma length_substring_0 (n : nat) (s : string) :
  String.length (substring 0 n s) = Nat.min n (String.length s).
Proof.
  revert n. induction s as [| c s IH]; intros [| n];
    cbn [substring String.length Nat.min]; try reflexivity.
  by rewrite IH.
Qed.

Lemma substring_0_append (n : nat) (a b : string) :
  String.length a = n -> substring 0 n (a +:+ b) = a.
Proof.
  revert n. induction a as [| c a IH]; intros n <-.
  - change (EmptyString +:+ b) with b. by destruct b.
  - change (String c a +:+ b) with (String c (a +:+ b)).
    cbn [String.length substring]. f_equal. by apply IH.
Qed.

Lemma truncation_marker_length : String.length truncation_marker = 38%nat.
Proof. reflexivity. Qed.

(** X18.  [truncate] is idempotent, keeps the first [maxResumeLength]
    characters of the text, and yields at most [maxResumeLength] characters
    and the marker: a text the handler has cut once is not cut further. *)
Theorem truncate_idempotent (s : string) :
  truncate (truncate s) = truncate s
  /\ substring 0 maxResumeLength (truncate s) = substring 0 maxResumeLength s
  /\ (String.length (truncate s)
      <= maxResumeLength + String.length truncation_marker)%nat.
Proof.
  unfold truncate.
  destruct (Nat.ltb_spec maxResumeLength (String.length s)) as [Hlong | Hshort].
  - assert (Hcut : String.length (substring 0 maxResumeLength s) = maxResumeLength).
    { rewrite length_substring_0. lia. }
    assert (Hlen : (maxResumeLength
                    <? String.length
                         (substring 0 maxResumeLength s +:+ truncation_marker))%nat
                   = true).
    { apply Nat.ltb_lt. rewrite length_append, Hcut, truncation_marker_length. lia. }
    rewrite Hlen, (substring_0_append _ _ _ Hcut).
    split; [reflexivity |].
    split; [reflexivity | rewrite length_append, Hcut; lia].
  - rewrite (proj2 (Nat.ltb_ge _ _) Hshort).
    split; [reflexivity |]. split; [reflexivity | lia].
Qed.

Lemma existsb_eqb_In (x : string) (l : list string) :
  existsb (String.eqb x) l = true <-> In x l.
Proof.
  rewrite existsb_exists. split.
  - intros [y [Hy He]]. apply String.eqb_eq in He. by subst.
  - intros H. exists x. split; [exact H | apply String.eqb_refl].
Qed.

Lemma dedupe_from_spec (seen l : list string) :
  List.NoDup (dedupe_from seen l)
  /\ forall x, In x (dedupe_from seen l) -> In x l /\ ~ In x seen.
Proof.
  revert seen. induction l as [| y l IH]; intros seen; cbn [dedupe_from].
  - split; [apply List.NoDup_nil | intros x []].
  - destruct (existsb (String.eqb y) seen) eqn:Hy.
    + destruct (IH seen) as [Hn Hin]. split; [exact Hn |].
      intros x Hx. destruct (Hin x Hx). split; [by right | assumption].
    + destruct (IH (y :: seen)) as [Hn Hin]. split.
      * apply List.NoDup_cons; [| exact Hn].
        intros Hx. destruct (Hin y Hx) as [_ Hns]. apply Hns. by left.
      * intros x [<- | Hx].
        -- split; [by left |]. intros Hs. apply existsb_eqb_In in Hs. congruence.
        -- destruct (Hin x Hx) as [Hl Hns]. split; [by right |].
           intros Hs. apply Hns. by right.
Qed.

Lemma firstn_incl {A : Type} (n : nat) (l : list A) x :
  In x (firstn n l) -> In x l.
Proof.
  revert n. induction l as [| y l IH]; intros [| n]; cbn; try tauto.
  intros [-> | H]; [by left | right; by apply (IH n)].
Qed.

Lemma firstn_NoDup {A : Type} (n : nat) (l : list A) :
  List.NoDup l -> List.NoDup (firstn n l).
Proof.
  intros H. revert n. induction H as [| y l Hy Hl IH]; intros [| n]; cbn;
    try apply List.NoDup_nil.
  apply List.NoDup_cons; [| apply IH]. intros Hx. apply Hy. by apply firstn_incl in Hx.
Qed.

Lemma flush_run_word (run : list ascii) :
  forallb is_word_char run = true ->
  Forall (fun k => forallb is_word_char (list_ascii_of_string k) = true
                   /\ k <> EmptyString) (flush_run run).
Proof.
  intros H. destruct run as [| c run]; cbn [flush_run]; [constructor |].
  constructor; [| constructor]. split.
  - rewrite list_ascii_of_string_of_list_ascii.
    apply forallb_forall. intros x Hx. apply in_rev in Hx.
    rewrite forallb_forall in H. by apply H.
  - intros He. apply (f_equal list_ascii_of_string) in He.
    rewrite list_ascii_of_string_of_list_ascii in He. cbn in He.
    by destruct (rev run).
Qed.

Lemma word_runs_word (run : list ascii) (s : string) :
  forallb is_word_char run = true ->
  Forall (fun k => forallb is_word_char (list_ascii_of_string k) = true
                   /\ k <> EmptyString) (word_runs run s).
Proof.
  revert run. induction s as [| c s IH]; intros run Hrun; cbn [word_runs].
  - by apply flush_run_word.
  - destruct (is_word_char c) eqn:Hc.
    + apply IH. cbn [forallb]. by rewrite Hc.
    + apply List.Forall_app. split; [by apply flush_run_word | by apply IH].
Qed.

(** X19.  [extractKeywordsMatched] returns on every defined extraction:
    at most 10 keywords, without repetition, each a word of the lowercased
    job description made of word characters, longer than 3 characters, that
    occurs in the lowercased JSON text of the extracted data. *)
Theorem extractKeywordsMatched_keywords (d : value) (jobDescription : string) :
  exists keywords,
    extractKeywordsMatched (Some d) jobDescription = Ok keywords
    /\ (List.length keywords <= 10)%nat
    /\ List.NoDup keywords
    /\ forall k, In k keywords ->
         In k (match_words (toLowerCase jobDescription))
         /\ forallb is_word_char (list_ascii_of_string k) = true
         /\ (3 < String.length k)%nat
         /\ includes (toLowerCase (stringify d)) k = true.
Proof.
  unfold extractKeywordsMatched.
  destruct (String.eqb jobDescription EmptyString).
  - exists []. split; [reflexivity |]. split; [cbn; lia |].
    split; [apply List.NoDup_nil | intros k []].
  - eexists. split; [reflexivity |].
    split; [apply List.firstn_le_length |].
    split; [apply firstn_NoDup, dedupe_from_spec |].
    intros k Hk. apply firstn_incl in Hk.
    apply (proj2 (dedupe_from_spec _ _)) in Hk as [Hk _].
    apply filter_In in Hk as [Hin Hc]. apply andb_true_iff in Hc as [Hlen Hinc].
    split; [exact Hin |]. split; [| split; [by apply Nat.ltb_lt | exact Hinc]].
    pose proof (word_runs_word [] (toLowerCase jobDescription) eq_refl) as Hw.
    rewrite List.Forall_forall in Hw. by apply Hw.
Qed.

(** X20.  The ATS score does not depend on the job description, and it is
    a multiple of 5: every criterion adds 5, 10, 15 or 20 points. *)
Theorem calculateATSScore_steps extractedData jobDescription other score :
  calculateATSScore extractedData jobDescription = Ok score ->
  calculateATSScore extractedData other = Ok score /\ score mod 5 = 0.
Proof.
  intros H. split; [exact H |].
  unfold calculateATSScore in H.
  repeat ATSScoreSpec.bind_inv H.
  injection H as <-.
  unfold add_if.
  repeat match goal with
         | |- context [if ?c then _ else _] => destruct c
         end; reflexivity.
Qed.

Lemma calculateATSScore_steps_witness :
  calculateATSScore (Some Scenarios.extracted) "Analyst wanted" = Ok 85
  /\ calculateATSScore (Some Scenarios.extracted) EmptyString = Ok 85
  /\ 85 mod 5 = 0.
Proof.
  assert (H : calculateATSScore (Some Scenarios.extracted) "Analyst wanted" = Ok 85)
    by (by vm_compute).
  split; [exact H |].
  exact (calculateATSScore_steps (Some Scenarios.extracted) "Analyst wanted"
           EmptyString 85 H).
Defined.

Lemma append_assoc (a b c : string) : (a +:+ b) +:+ c = a +:+ b +:+ c.
Proof.
  induction a as [| x a IH]; [reflexivity |].
  change ((String x a +:+ b) +:+ c) with (String x ((a +:+ b) +:+ c)).
  by rewrite IH.
Qed.

(** X21.  [generateOptimizedResumeContent] copies the name into the markup
    as it is, between [<h1>] and [</h1>]: nothing is escaped, so markup in an
    extracted name reaches the generated HTML. *)
Theorem generateOptimizedResumeContent_name_verbatim
    (props info : list (string * value)) (name templateId html : string) :
  own_prop props "personalInfo" = Some (JObj info) ->
  own_prop info "name" = Some (JStr name) ->
  name <> EmptyString ->
  generateOptimizedResumeContent (Some (JObj props)) templateId = Ok html ->
  exists before after,
    html = before +:+ "<h1>" +:+ name +:+ "</h1>" +:+ after.
Proof.
  intros Hp Hn Hne. unfold generateOptimizedResumeContent.
  rewrite ATSScoreSpec.get_object, Hp. cbn [bind get_opt read_prop].
  rewrite Hn. cbn [truthy]. rewrite (proj2 (String.eqb_neq _ _) Hne).
  cbn [negb interpolate to_string bind]. intros H.
  repeat ATSScoreSpec.bind_inv H. injection H as <-.
  match goal with
  | |- exists before after,
         ?l1 +:+ templateId +:+ ?l2 +:+ name +:+ ?l3 +:+ ?rest = _ =>
      exists (l1 +:+ templateId
                +:+ lines [dquote +:+ ">"; "      <header>"; "        "]),
             (lines [ EmptyString;
                      "        <div class=" +:+ dquote +:+ "contact-info" +:+ dquote
                        +:+ ">";
                      "          " ] +:+ rest);
      change l2 with (lines [dquote +:+ ">"; "      <header>"; "        "] +:+ "<h1>");
      change l3 with
        ("</h1>" +:+ lines [ EmptyString;
                             "        <div class=" +:+ dquote +:+ "contact-info"
                               +:+ dquote +:+ ">";
                             "          " ])
  end.
  by rewrite !append_assoc.
Qed.

Lemma generateOptimizedResumeContent_name_verbatim_witness :
  exists html before after,
    generateOptimizedResumeContent
      (Some (JObj [("personalInfo", JObj [("name", JStr "<b>Ada</b>")])]))
      "modern-professional" = Ok html
    /\ html = before +:+ "<h1>" +:+ "<b>Ada</b>" +:+ "</h1>" +:+ after.
Proof.
  assert (H : exists html,
             generateOptimizedResumeContent
               (Some (JObj [("personalInfo", JObj [("name", JStr "<b>Ada</b>")])]))
               "modern-professional" = Ok html) by (vm_compute; eauto).
  destruct H as [html H].
  destruct (generateOptimizedResumeContent_name_verbatim
              [("personalInfo", JObj [("name", JStr "<b>Ada</b>")])]
              [("name", JStr "<b>Ada</b>")] "<b>Ada</b>" "modern-professional" html
              eq_refl eq_refl ltac:(discriminate) H) as [before [after Hh]].
  exists html, before, after. split; [exact H | exact Hh].
Defined.

Lemma extractKeywordsMatched_length extractedData jobDescription keywords :
  extractKeywordsMatched extractedData jobDescription = Ok keywords ->
  (List.length keywords <= 10)%nat.
Proof.
  unfold extractKeywordsMatched.
  destruct (String.eqb jobDescription EmptyString); [intros [= <-]; cbn; lia |].
  destruct extractedData; [| discriminate].
  intros [= <-]. apply List.firstn_le_length.
Qed.

End TextSpec.

Module DigestSpec.
Import JS Database.

Lemma hex_char_lower (n : Z) : 0 <= n < 16 -> is_lower_hex (Sha256.hex_char n) = true.
Proof.
  intros H.
  assert (Hall : forallb (fun k => is_lower_hex (Sha256.hex_char (Z.of_nat k)))
                         (seq 0 16) = true) by reflexivity.
  rewrite forallb_forall in Hall. specialize (Hall (Z.to_nat n)).
  rewrite Z2Nat.id in Hall by lia. apply Hall. apply in_seq. lia.
Qed.

Lemma hex_byte_lower (x : Z) :
  all_lower_hex (Sha256.hex_byte (Z.land x 255)) = true.
Proof.
  unfold all_lower_hex, Sha256.hex_byte. cbn [list_ascii_of_string forallb].
  assert (Hb : 0 <= Z.land x 255 < 256).
  { change 255 with (Z.ones 8). rewrite Z.land_ones by lia.
    apply Z.mod_pos_bound. reflexivity. }
  rewrite !hex_char_lower; [reflexivity | |].
  - change 15 with (Z.ones 4). rewrite Z.land_ones by lia.
    apply Z.mod_pos_bound. reflexivity.
  - rewrite Z.shiftr_div_pow2 by lia. change (2 ^ 4) with 16. split.
    + apply Z.div_pos; lia.
    + apply Z.div_lt_upper_bound; lia.
Qed.

Lemma all_lower_hex_append (a b : string) :
  all_lower_hex a = true -> all_lower_hex b = true -> all_lower_hex (a +:+ b) = true.
Proof.
  unfold all_lower_hex. induction a as [| c a IH]; [auto |].
  change (String c a +:+ b) with (String c (a +:+ b)).
  cbn [list_ascii_of_string forallb]. intros Ha Hb.
  apply andb_true_iff in Ha as [-> Ha]. cbn [andb]. by apply IH.
Qed.

Lemma hex_word_shape (w : Z) :
  String.length (Sha256.hex_word w) = 8%nat
  /\ all_lower_hex (Sha256.hex_word w) = true.
Proof.
  unfold Sha256.hex_word. cbn [Sha256.be_bytes app fold_right].
  split; [reflexivity |].
  repeat (apply all_lower_hex_append; [apply hex_byte_lower |]). reflexivity.
Qed.

Lemma hex_words_shape (words : list Z) :
  String.length (fold_right (fun w acc => Sha256.hex_word w +:+ acc) EmptyString words)
  = (8 * List.length words)%nat
  /\ all_lower_hex
       (fold_right (fun w acc => Sha256.hex_word w +:+ acc) EmptyString words)
     = true.
Proof.
  induction words as [| w words [IHl IHh]]; [by split |].
  cbn [fold_right List.length]. destruct (hex_word_shape w) as [Hl Hh]. split.
  - rewrite TextSpec.length_append, Hl, IHl. lia.
  - by apply all_lower_hex_append.
Qed.

Lemma digest_words_length (message : list Z) :
  List.length (Sha256.digest_words message) = 8%nat.
Proof. reflexivity. Qed.

(** X22.  The file hash of every buffer is a string of 64 lowercase
    hexadecimal digits. *)
Theorem generateFileHash_shape (buffer : list Byte.byte) :
  String.length (generateFileHash buffer) = 64%nat
  /\ all_lower_hex (generateFileHash buffer) = true.
Proof.
  unfold generateFileHash.
  destruct (hex_words_shape
              (Sha256.digest_words (List.map (fun b => Z.of_N (Byte.to_N b)) buffer)))
    as [Hl Hh].
  split; [| exact Hh]. by rewrite Hl, digest_words_length.
Qed.

Lemma sha256_hex_shape (s : string) :
  String.length (Sha256.sha256_hex s) = 64%nat
  /\ all_lower_hex (Sha256.sha256_hex s) = true.
Proof.
  unfold Sha256.sha256_hex.
  destruct (hex_words_shape (Sha256.digest_words (Sha256.utf8 s))) as [Hl Hh].
  split; [| exact Hh]. by rewrite Hl, digest_words_length.
Qed.

End DigestSpec.

Module ChatbotSpec.
Import JS Database Chatbot.

Lemma split_nonempty sep s : exists piece pieces, split sep s = piece :: pieces.
Proof.
  destruct s as [| c s]; cbn [split]; [eauto |].
  destruct (Ascii.eqb c sep); [eauto |]. destruct (split sep s); eauto.
Qed.

Lemma length_split sep s : List.length (split sep s) = S (count sep s).
Proof.
  induction s as [| c s IH]; cbn [split count]; [reflexivity |].
  destruct (Ascii.eqb c sep); cbn [List.length]; [by rewrite IH |].
  destruct (split sep s); [discriminate | exact IH].
Qed.

Lemma concat_sep_cons sep c piece pieces :
  concat_sep sep (String c piece :: pieces)
  = String c (concat_sep sep (piece :: pieces)).
Proof. destruct pieces; reflexivity. Qed.

(** [s.split(sep).join(sep)] is [s]. *)
Lemma join_split sep s :
  concat_sep (String sep EmptyString) (split sep s) = s.
Proof.
  induction s as [| c s IH]; cbn [split]; [reflexivity |].
  destruct (split_nonempty sep s) as [piece [pieces Hs]].
  destruct (Ascii.eqb_spec c sep) as [-> | Hne].
  - rewrite Hs in *.
    change (concat_sep (String sep EmptyString) (EmptyString :: piece :: pieces))
      with (EmptyString +:+ String sep EmptyString
              +:+ concat_sep (String sep EmptyString) (piece :: pieces)).
    by rewrite IH.
  - rewrite Hs in *. by rewrite concat_sep_cons, IH.
Qed.

(** The first [n + 1] pieces of a text with more than [n] separators are
    the pieces of what stands before the separator number [n + 1]. *)
Lemma take_split sep (n : nat) (s : string) :
  (n < count sep s)%nat ->
  exists shown rest,
    s = shown +:+ String sep rest
    /\ count sep shown = n
    /\ take (S n) (split sep s) = split sep shown.
Proof.
  revert n. induction s as [| c s IH]; intros n; cbn [count split]; [lia |].
  destruct (Ascii.eqb_spec c sep) as [-> | Hne].
  - intros Hn. destruct n as [| n].
    + exists EmptyString, s. repeat split.
    + destruct (IH n) as [shown [rest [-> [Hc Ht]]]]; [lia |].
      exists (String sep shown), rest. split; [reflexivity |].
      cbn [count split]. rewrite Ascii.eqb_refl.
      split; [by rewrite Hc |]. cbn [take firstn]. by rewrite Ht.
  - intros Hn. destruct (IH n Hn) as [shown [rest [-> [Hc Ht]]]].
    exists (String c shown), rest. split; [reflexivity |].
    cbn [count split]. rewrite (proj2 (Ascii.eqb_neq _ _) Hne).
    split; [exact Hc |].
    destruct (split_nonempty sep (shown +:+ String sep rest)) as [p [ps Hs]].
    rewrite Hs in *. cbn [firstn] in Ht |- *. by rewrite <- Ht.
Qed.

(** X23.  The title of a conversation is the first message itself when it
    has at most 5 spaces; otherwise it is the text before the sixth space,
    followed by three dots. *)
Theorem generateConversationTitle_cases (message : string) :
  ((count space message <= 5)%nat /\ generateConversationTitle message = message)
  \/ ((5 < count space message)%nat
      /\ exists shown rest,
           message = shown +:+ " " +:+ rest
           /\ count space shown = 5%nat
           /\ generateConversationTitle message = shown +:+ "...").
Proof.
  unfold generateConversationTitle. rewrite length_split.
  destruct (Nat.ltb_spec 6 (S (count space message))) as [Hlong | Hshort].
  - right. split; [lia |].
    destruct (take_split space 5 message) as [shown [rest [Hm [Hc Ht]]]]; [lia |].
    exists shown, rest. split; [exact Hm |]. split; [exact Hc |].
    rewrite Ht. change " " with (String space EmptyString). by rewrite join_split.
  - left. split; [lia |].
    rewrite firstn_all2 by (rewrite length_split; lia).
    change " " with (String space EmptyString). rewrite join_split.
    clear. induction message as [| c m IH]; [reflexivity |].
    change (String c m +:+ EmptyString) with (String c (m +:+ EmptyString)).
    by rewrite IH.
Qed.

Lemma all_lower_hex_substring (n : nat) (s : string) :
  all_lower_hex s = true -> all_lower_hex (substring 0 n s) = true.
Proof.
  unfold all_lower_hex. revert n.
  induction s as [| c s IH]; intros [| n]; cbn [substring list_ascii_of_string forallb];
    try reflexivity.
  intros H. apply andb_true_iff in H as [-> H]. cbn [andb]. by apply IH.
Qed.

(** X24.  An anonymous user id is [anon_] followed by 16 lowercase
    hexadecimal digits, 21 characters in all, whatever the headers. *)
Theorem generateAnonymousUserId_shape (headers : Headers) (randomUUID : string) :
  String.length (generateAnonymousUserId headers randomUUID) = 21%nat
  /\ exists digits,
       generateAnonymousUserId headers randomUUID = "anon_" +:+ digits
       /\ String.length digits = 16%nat
       /\ all_lower_hex digits = true.
Proof.
  unfold generateAnonymousUserId.
  match goal with
  | |- context [Sha256.sha256_hex ?text] =>
      destruct (DigestSpec.sha256_hex_shape text) as [Hl Hh];
      set (digest := Sha256.sha256_hex text) in *
  end.
  assert (H16 : String.length (substring 0 16 digest) = 16%nat).
  { rewrite TextSpec.length_substring_0, Hl. reflexivity. }
  split.
  - rewrite TextSpec.length_append, H16. reflexivity.
  - exists (substring 0 16 digest). split; [reflexivity |].
    split; [exact H16 | by apply all_lower_hex_substring].
Qed.

Lemma hd_split_before sep (first rest : string) :
  count sep first = 0%nat ->
  List.hd EmptyString (split sep (first +:+ String sep rest)) = first.
Proof.
  induction first as [| c first IH].
  - intros _. change (EmptyString +:+ String sep rest) with (String sep rest).
    cbn [split]. by rewrite Ascii.eqb_refl.
  - change (String c first +:+ String sep rest)
      with (String c (first +:+ String sep rest)).
    cbn [count split]. destruct (Ascii.eqb c sep); [discriminate |].
    intros Hc. specialize (IH Hc).
    destruct (split_nonempty sep (first +:+ String sep rest)) as [p [ps Hs]].
    rewrite Hs in *. cbn [List.hd] in *. by rewrite IH.
Qed.

Lemma split_without sep (s : string) :
  count sep s = 0%nat -> split sep s = [s].
Proof.
  induction s as [| c s IH]; [reflexivity |]. cbn [count split].
  destruct (Ascii.eqb c sep); [discriminate |]. intros Hc. by rewrite (IH Hc).
Qed.

(** X25.  Of a [x-forwarded-for] list only the entry before the first
    comma enters the anonymous id: with a session token in the headers, the
    id is the one a request from that first address alone would get,
    whatever the later entries, [x-real-ip] and the fresh UUID are. *)
Theorem generateAnonymousUserId_first_entry
    (first rest token : string) (real real' : option string) (uuid uuid' : string) :
  first <> EmptyString ->
  count comma first = 0%nat ->
  token <> EmptyString ->
  generateAnonymousUserId
    {| x_forwarded_for := Some (first +:+ "," +:+ rest);
       x_real_ip := real;
       x_session_token := Some token |} uuid
  = generateAnonymousUserId
      {| x_forwarded_for := Some first;
         x_real_ip := real';
         x_session_token := Some token |} uuid'.
Proof.
  intros Hf Hc Ht. unfold generateAnonymousUserId, or_else.
  cbn [x_forwarded_for x_real_ip x_session_token].
  rewrite (proj2 (String.eqb_neq _ _) Ht), (proj2 (String.eqb_neq _ _) Hf).
  assert (Hne : String.eqb (first +:+ "," +:+ rest) EmptyString = false).
  { apply String.eqb_neq. destruct first; [done | discriminate]. }
  rewrite Hne. change ("," +:+ rest) with (String comma rest).
  by rewrite (hd_split_before comma first rest Hc), (split_without comma first Hc).
Qed.

Lemma generateAnonymousUserId_first_entry_witness :
  generateAnonymousUserId Fixtures.proxied "0b9c7d1e-uuid"
  = generateAnonymousUserId
      {| x_forwarded_for := Some "203.0.113.7";
         x_real_ip := None;
         x_session_token := Some "tok-1" |} "another-uuid".
Proof.
  exact (generateAnonymousUserId_first_entry "203.0.113.7" " 10.0.0.2" "tok-1"
           (Some "10.0.0.2") None "0b9c7d1e-uuid" "another-uuid"
           ltac:(discriminate) eq_refl ltac:(discriminate)).
Defined.

End ChatbotSpec.

Module ConversionSpec.
Import JS PdfToImage.

Lemma for_each_log_strings (items : list value) :
  forallb ExtractResumeData.is_string items = true ->
  for_each log_image_size items = Ok tt.
Proof.
  induction items as [| x items IH]; [reflexivity |]. cbn [forallb].
  intros H. apply andb_true_iff in H as [Hx H].
  destruct x; try discriminate. cbn [for_each]. by rewrite (IH H).
Qed.

(** X26.  No page is lost on the way: when the conversion service answers
    2xx with a truthy [success] and an [images] array of strings,
    [convertPDFToImages] returns exactly that array, in that order and
    whatever its length. *)
Theorem convertPDFToImages_returns_every_page fetch env_url pdfBuffer items :
  service_images (fetch (conversion_request env_url pdfBuffer)) = Some items ->
  forallb ExtractResumeData.is_string items = true ->
  convertPDFToImages fetch env_url pdfBuffer = Ok items.
Proof.
  unfold service_images, convertPDFToImages, conversion.
  destruct (fetch (conversion_request env_url pdfBuffer)) as [e | response];
    [discriminate |].
  destruct (ok response); [| discriminate]. cbn [negb].
  destruct (json response) as [result |]; [| discriminate]. cbn [bind].
  destruct result as [ | b | n | s | l | props];
    cbn [get get_opt read_prop bind truthy negb]; try discriminate.
  destruct (truthy (own_prop props "success")); [| discriminate]. cbn [negb].
  destruct (own_prop props "images") as [[ | | | | listed | ] |]; try discriminate.
  intros [= ->] Hs. cbn [truthy bind try_catch].
  by rewrite (for_each_log_strings items Hs).
Qed.

Lemma convertPDFToImages_returns_every_page_witness :
  convertPDFToImages Scenarios.four_page_service None Scenarios.pdf_bytes
  = Ok [Scenarios.page "1"; Scenarios.page "2"; Scenarios.page "3";
        Scenarios.page "4"].
Proof.
  exact (convertPDFToImages_returns_every_page Scenarios.four_page_service None
           Scenarios.pdf_bytes
           [Scenarios.page "1"; Scenarios.page "2"; Scenarios.page "3";
            Scenarios.page "4"] eq_refl eq_refl).
Defined.

End ConversionSpec.

Module AnswerSpec.
Import JS Schema ExtractResumeData Audit.

Lemma generate_outputs w m p :
  generate w m = Ok p ->
  exists jobDescription,
    calculateATSScore (p_extractedData p) jobDescription = Ok (p_atsScore p)
    /\ extractKeywordsMatched (p_extractedData p) jobDescription
       = Ok (p_keywordsMatched p).
Proof.
  unfold generate. intros H. repeat ATSScoreSpec.bind_inv H.
  injection H as <-. cbn [p_extractedData p_atsScore p_keywordsMatched]. eauto.
Qed.

(** X27.  A freshly generated answer ([cached: false]) carries the
    extracted data, an [atsScore] between 0 and 100 and at most 10 matched
    keywords. *)
Theorem generated_answer_metadata db db_later w request :
  cached (snd (POST_interleaved db db_later w request)) = Some false ->
  exists d s,
    data_of (snd (POST_interleaved db db_later w request)) = Some d
    /\ atsScore_of (snd (POST_interleaved db db_later w request)) = Some s
    /\ 0 <= s <= 100
    /\ (List.length (keywordsMatched_of (snd (POST_interleaved db db_later w request)))
        <= 10)%nat.
Proof.
  unfold POST_interleaved, prepare.
  destruct (probe db request) as [[response | m] |] eqn:Hp; cbn [bind fst snd].
  - intros Hc.
    destruct (RouteSpec.probe_answers _ _ _ Hp) as [Hin | [row [_ ->]]];
      [| discriminate].
    cbn in Hin. destruct Hin as [<- | [<- | [<- | []]]]; discriminate.
  - destruct (generate w m) as [p |] eqn:Hgen; cbn [bind fst snd]; [| discriminate].
    unfold persist. destruct (store db_later w p) as [[db1 c] g].
    cbn [fst snd cached data_of atsScore_of keywordsMatched_of]. intros _.
    destruct (generate_outputs _ _ _ Hgen) as [jd [Hs Hk]].
    destruct (p_extractedData p) as [d |] eqn:Hd; [| discriminate Hs].
    exists d, (p_atsScore p). split; [reflexivity |]. split; [reflexivity |].
    split; [exact (ATSScoreSpec.calculateATSScore_bounds _ _ _ Hs) |].
    exact (TextSpec.extractKeywordsMatched_length _ _ _ Hk).
  - discriminate.
Qed.

Lemma generated_answer_metadata_witness :
  cached (snd (POST Scenarios.accounts (Scenarios.world "1") Fixtures.ada_request))
  = Some false
  /\ exists d s,
      data_of (snd (POST Scenarios.accounts (Scenarios.world "1")
                      Fixtures.ada_request)) = Some d
      /\ atsScore_of (snd (POST Scenarios.accounts (Scenarios.world "1")
                             Fixtures.ada_request)) = Some s
      /\ 0 <= s <= 100.
Proof.
  assert (Hc : cached (snd (POST_interleaved Scenarios.accounts Scenarios.accounts
                              (Scenarios.world "1") Fixtures.ada_request))
               = Some false) by (by vm_compute).
  split; [exact Hc |].
  destruct (generated_answer_metadata Scenarios.accounts Scenarios.accounts
              (Scenarios.world "1") Fixtures.ada_request Hc)
    as [d [s [Hd [Hs [Hb _]]]]].
  exists d, s. auto.
Defined.

Lemma probe_miss_user db request m :
  probe db request = Ok (inr m) ->
  session_email request = Some (email (m_user m)).
Proof.
  rewrite CacheSpec.probe_normal_form.
  destruct (session_email request) as [e |]; [| discriminate].
  destruct (String.eqb e EmptyString); [discriminate |].
  destruct (json request) as [body |]; cbn [bind]; [| discriminate].
  destruct (String.eqb (or_empty (resumeText body)) EmptyString); [discriminate |].
  destruct (user_findUnique e db) as [found |] eqn:Hf; [| discriminate].
  apply LedgerSpec.find_by_email_Some in Hf as [<- _].
  destruct (if default false (bypassCache body) then None
            else generatedResume_findFirst (id found) (request_hash body) db);
    [discriminate |].
  by intros [= <-].
Qed.

(** X28.  A row the handler stores is keyed by the request: when the
    answer is freshly generated and names a [resumeId], the newest row of
    [generated_resumes] has that id, belongs to the session user, and carries
    the content hash of the request body, a string of 64 lowercase
    hexadecimal digits. *)
Theorem stored_row_is_keyed_by_request db db_later w request body i :
  json request = Ok body ->
  cached (snd (POST_interleaved db db_later w request)) = Some false ->
  resumeId (snd (POST_interleaved db db_later w request)) = Some i ->
  exists row u,
    generatedResumes (fst (POST_interleaved db db_later w request))
    = row :: generatedResumes db_later
    /\ resume_id row = i
    /\ session_email request = Some (email u)
    /\ resume_userId row = Some (id u)
    /\ contentHash row = request_hash body
    /\ String.length (contentHash row) = 64%nat
    /\ Database.all_lower_hex (contentHash row) = true.
Proof.
  intros Hb. unfold POST_interleaved, prepare.
  destruct (probe db request) as [[response | m] |] eqn:Hp; cbn [bind fst snd].
  - intros Hc.
    destruct (RouteSpec.probe_answers _ _ _ Hp) as [Hin | [row [_ ->]]];
      [| discriminate].
    cbn in Hin. destruct Hin as [<- | [<- | [<- | []]]]; discriminate.
  - destruct (generate w m) as [p |] eqn:Hgen; cbn [bind fst snd]; [| discriminate].
    unfold persist. destruct (store db_later w p) as [[db1 c] g] eqn:Hst.
    cbn [fst snd cached resumeId]. intros _ ->.
    destruct (RouteSpec.store_ids _ _ _ _ _ _ Hst) as [Hrow _].
    destruct (Hrow i eq_refl) as [d [Hg [_ [-> _]]]].
    destruct (CacheSpec.generate_keeps _ _ _ Hgen) as [Huser Hhash].
    pose proof (CacheSpec.probe_miss_hash _ _ _ _ Hb Hp) as Hm.
    exists (generatedResume_row w p d), (m_user m).
    cbn [generatedResume_row resume_id resume_userId contentHash].
    rewrite Huser, Hhash, Hm.
    destruct (DigestSpec.sha256_hex_shape
                (truncate (or_empty (resumeText body))
                   +:+ or_empty (jobDescription body) +:+ default_templateId
                   +:+ or_empty (analysisId body))) as [Hl Hh].
    repeat split; try assumption; try reflexivity.
    exact (probe_miss_user _ _ _ Hp).
  - discriminate.
Qed.

Lemma stored_row_is_keyed_by_request_witness :
  exists row,
    generatedResumes
      (fst (POST Scenarios.accounts (Scenarios.world "1") Fixtures.ada_request))
    = [row]
    /\ resume_id row = "resume-1"
    /\ contentHash row
       = request_hash (Scenarios.body_with Scenarios.resume_text None)
    /\ String.length (contentHash row) = 64%nat.
Proof.
  destruct (stored_row_is_keyed_by_request Scenarios.accounts Scenarios.accounts
              (Scenarios.world "1") Fixtures.ada_request
              (Scenarios.body_with Scenarios.resume_text None) "resume-1"
              eq_refl ltac:(by vm_compute) ltac:(by vm_compute))
    as [row [u [Hg [Hi [_ [_ [Hh [Hl _]]]]]]]].
  exists row. auto.
Defined.









End AnswerSpec.
